(** * ToT Print Farm order system: entity store and workflow contracts

    A shallow embedding of the SQLite schema ([src/database/schema.sql],
    [src/database/product-templates-schema.sql]), of the three model modules
    ([src/models/Color.js], [src/models/Part.js],
    [src/models/ProductTemplate.js]) and of the admin routes that call them.

    Tables are finite maps from the INTEGER PRIMARY KEY to a row record;
    a statement is a function from the database to the database it leaves
    behind together with what better-sqlite3 hands back to JavaScript: a
    value, or a thrown exception.  A failing statement leaves the database as
    it found it; a failing [db.transaction] restores the database it started
    from. *)

From Stdlib Require Import ZArith QArith String Ascii List Lia.
From Stdlib Require Import DecimalString DecimalPos DecimalN DecimalZ.
From Stdlib Require DecimalFacts.
From stdpp Require Import gmap strings list sorting fin_maps.

Set Warnings "-register-all".

Open Scope string_scope.
Open Scope Z_scope.

(** ** JavaScript values and exceptions *)

(** JSON numbers that are only stored and handed back (costs, stock). *)
Definition number := Q.

(** [x || null] on an optional string: [undefined], [null] and the empty
    string all become SQL NULL. *)
Definition or_null (x : option string) : option string :=
  match x with
  | Some s => if decide (s = "") then None else Some s
  | None => None
  end.

(** [x || d] on an optional number: [undefined], [null] and [0] become [d]. *)
Definition or_num (x : option number) (d : number) : number :=
  match x with
  | Some q => if Qeq_bool q 0%Q then d else q
  | None => d
  end.

(** [x || d] on an optional integer. *)
Definition or_int (x : option Z) (d : Z) : Z :=
  match x with
  | Some z => if decide (z = 0) then d else z
  | None => d
  end.

(** [!s] on a string that may be missing. *)
Definition falsy_str (x : option string) : bool :=
  match x with
  | Some s => bool_decide (s = "")
  | None => true
  end.

(** [hay.includes(needle)] *)
Fixpoint includes (needle hay : string) : bool :=
  String.prefix needle hay ||
  match hay with
  | EmptyString => false
  | String _ rest => includes needle rest
  end.

Module Sqlite.

(** The constraint failures SQLite raises for this schema. *)
Inductive constraint_error :=
| UniqueFailed (columns : string)
| NotNullFailed (column : string)
| CheckFailed (expr : string)
| ForeignKeyFailed.

Definition message (e : constraint_error) : string :=
  match e with
  | UniqueFailed c => "UNIQUE constraint failed: " ++ c
  | NotNullFailed c => "NOT NULL constraint failed: " ++ c
  | CheckFailed x => "CHECK constraint failed: " ++ x
  | ForeignKeyFailed => "FOREIGN KEY constraint failed"
  end.

(** LIKE: [%] matches any run of characters, [_] exactly one, and ASCII
    letters match without regard to case. *)
Definition upper (c : ascii) : ascii :=
  let n := nat_of_ascii c in
  if ((97 <=? n)%nat && (n <=? 122)%nat)%bool then ascii_of_nat (n - 32) else c.

Fixpoint like_chars (p : list ascii) : list ascii -> bool :=
  match p with
  | [] => fun s => match s with [] => true | _ => false end
  | c :: p' =>
      if decide (c = "%"%char) then
        fix star (s : list ascii) : bool :=
          like_chars p' s || match s with [] => false | _ :: s' => star s' end
      else if decide (c = "_"%char) then
        fun s => match s with [] => false | _ :: s' => like_chars p' s' end
      else
        fun s => match s with
                 | [] => false
                 | c' :: s' => bool_decide (upper c = upper c') && like_chars p' s'
                 end
  end.

Definition like (pattern s : string) : bool :=
  like_chars (list_ascii_of_string pattern) (list_ascii_of_string s).

(** [x IN (v1, ..., vn)] in three-valued logic: NULL when [x] is NULL. *)
Definition in_list (x : option string) (vs : list string) : option bool :=
  match x with
  | Some s => Some (bool_decide (s ∈ vs))
  | None => None
  end.

(** A CHECK constraint fails only when its expression is false; NULL passes. *)
Definition check_passes (r : option bool) : bool :=
  match r with
  | Some false => false
  | _ => true
  end.

End Sqlite.

(** What a JavaScript call can throw. *)
Inductive exn :=
| SqliteError (e : Sqlite.constraint_error)
| Error (msg : string).

Definition exn_message (e : exn) : string :=
  match e with
  | SqliteError c => Sqlite.message c
  | Error m => m
  end.

Inductive outcome (A : Type) :=
| Return (a : A)
| Throw (e : exn).
Arguments Return {A} a.
Arguments Throw {A} e.

(** ** The schema *)

Record color_row := {
  color_name : string;
  hex_code : string;
  pantone_code : option string;
  material_type : option string;
  supplier : option string;
  category : option string;
  cost_per_gram : option number;
  stock_grams : option number;
  color_is_active : Z;
  color_created_at : string;
  color_updated_at : string
}.

Record part_row := {
  part_code : option string;
  part_name : string;
  part_description : option string;
  part_is_active : Z;
  part_created_at : string;
  part_updated_at : string
}.

Record order_row := {
  order_number : string;
  customer_name : string;
  platform : string;
  order_notes : option string;
  ship_by_date : string;
  is_express : Z;
  is_archived : Z;
  order_created_at : string;
  order_updated_at : string;
  shipped_at : option string
}.

Record product_row := {
  product_order_id : Z;
  product_name : string;
  product_created_at : string;
  product_updated_at : string
}.

Record item_row := {
  item_product_id : Z;
  item_name : string;
  status : string;
  item_created_at : string;
  item_updated_at : string
}.

Record history_row := {
  history_id : Z;
  history_item_id : Z;
  old_status : option string;
  new_status : string;
  changed_at : string;
  reason : option string
}.

Record template_row := {
  template_name : string;
  template_description : option string;
  num_colors : Z;
  print_time_minutes : Z;
  print_cost : number;
  template_is_active : Z;
  template_created_at : string;
  template_updated_at : string
}.

(** The database file: every table with, for an AUTOINCREMENT key, its
    [sqlite_sequence] entry.  [status_history] is only ever appended to and
    is kept in [history_id] order. *)
Record db := {
  colors : gmap Z color_row;
  colors_seq : Z;
  parts : gmap Z part_row;
  parts_seq : Z;
  orders : gmap Z order_row;
  orders_seq : Z;
  products : gmap Z product_row;
  products_seq : Z;
  items : gmap Z item_row;
  items_seq : Z;
  item_parts : gmap (Z * Z) Z;
  status_history : list history_row;
  status_history_seq : Z;
  product_templates : gmap Z template_row;
  product_templates_seq : Z;
  template_parts : gmap (Z * Z) Z
}.

Definition empty_db : db :=
  {| colors := ∅; colors_seq := 0; parts := ∅; parts_seq := 0;
     orders := ∅; orders_seq := 0; products := ∅; products_seq := 0;
     items := ∅; items_seq := 0; item_parts := ∅;
     status_history := []; status_history_seq := 0;
     product_templates := ∅; product_templates_seq := 0;
     template_parts := ∅ |}.

Definition with_colors (m : gmap Z color_row) (s : Z) (d : db) : db :=
  {| colors := m; colors_seq := s; parts := parts d; parts_seq := parts_seq d;
     orders := orders d; orders_seq := orders_seq d;
     products := products d; products_seq := products_seq d;
     items := items d; items_seq := items_seq d; item_parts := item_parts d;
     status_history := status_history d;
     status_history_seq := status_history_seq d;
     product_templates := product_templates d;
     product_templates_seq := product_templates_seq d;
     template_parts := template_parts d |}.

Definition with_parts (m : gmap Z part_row) (s : Z) (d : db) : db :=
  {| colors := colors d; colors_seq := colors_seq d; parts := m; parts_seq := s;
     orders := orders d; orders_seq := orders_seq d;
     products := products d; products_seq := products_seq d;
     items := items d; items_seq := items_seq d; item_parts := item_parts d;
     status_history := status_history d;
     status_history_seq := status_history_seq d;
     product_templates := product_templates d;
     product_templates_seq := product_templates_seq d;
     template_parts := template_parts d |}.

Definition with_orders (m : gmap Z order_row) (s : Z) (d : db) : db :=
  {| colors := colors d; colors_seq := colors_seq d;
     parts := parts d; parts_seq := parts_seq d;
     orders := m; orders_seq := s;
     products := products d; products_seq := products_seq d;
     items := items d; items_seq := items_seq d; item_parts := item_parts d;
     status_history := status_history d;
     status_history_seq := status_history_seq d;
     product_templates := product_templates d;
     product_templates_seq := product_templates_seq d;
     template_parts := template_parts d |}.

Definition with_items (m : gmap Z item_row) (s : Z) (d : db) : db :=
  {| colors := colors d; colors_seq := colors_seq d;
     parts := parts d; parts_seq := parts_seq d;
     orders := orders d; orders_seq := orders_seq d;
     products := products d; products_seq := products_seq d;
     items := m; items_seq := s; item_parts := item_parts d;
     status_history := status_history d;
     status_history_seq := status_history_seq d;
     product_templates := product_templates d;
     product_templates_seq := product_templates_seq d;
     template_parts := template_parts d |}.

Definition with_status_history (l : list history_row) (s : Z) (d : db) : db :=
  {| colors := colors d; colors_seq := colors_seq d;
     parts := parts d; parts_seq := parts_seq d;
     orders := orders d; orders_seq := orders_seq d;
     products := products d; products_seq := products_seq d;
     items := items d; items_seq := items_seq d; item_parts := item_parts d;
     status_history := l; status_history_seq := s;
     product_templates := product_templates d;
     product_templates_seq := product_templates_seq d;
     template_parts := template_parts d |}.

Definition with_product_templates (m : gmap Z template_row) (s : Z) (d : db) : db :=
  {| colors := colors d; colors_seq := colors_seq d;
     parts := parts d; parts_seq := parts_seq d;
     orders := orders d; orders_seq := orders_seq d;
     products := products d; products_seq := products_seq d;
     items := items d; items_seq := items_seq d; item_parts := item_parts d;
     status_history := status_history d;
     status_history_seq := status_history_seq d;
     product_templates := m; product_templates_seq := s;
     template_parts := template_parts d |}.

Definition with_template_parts (m : gmap (Z * Z) Z) (d : db) : db :=
  {| colors := colors d; colors_seq := colors_seq d;
     parts := parts d; parts_seq := parts_seq d;
     orders := orders d; orders_seq := orders_seq d;
     products := products d; products_seq := products_seq d;
     items := items d; items_seq := items_seq d; item_parts := item_parts d;
     status_history := status_history d;
     status_history_seq := status_history_seq d;
     product_templates := product_templates d;
     product_templates_seq := product_templates_seq d;
     template_parts := m |}.

(** AUTOINCREMENT: one more than the largest rowid the table holds or has
    ever held. *)
Definition max_rowid {A} (m : gmap Z A) : Z :=
  foldr Z.max 0 ((map_to_list m).*1).

Definition next_rowid {A} (m : gmap Z A) (seq : Z) : Z :=
  Z.max seq (max_rowid m) + 1.

(** [SELECT ... WHERE unique_column = ?]: is some row already holding the value *)
Definition holds {A} (m : gmap Z A) (P : A -> bool) : bool :=
  existsb (fun kv => P kv.2) (map_to_list m).

(** The same, leaving out the row being updated. *)
Definition holds_besides {A} (m : gmap Z A) (self : Z) (P : A -> bool) : bool :=
  existsb (fun kv => bool_decide (kv.1 ≠ self) && P kv.2) (map_to_list m).

(** ** src/models/Color.js *)

Module Color.

(** A row as [SELECT * FROM colors] returns it: the key and the columns. *)
Definition t : Type := Z * color_row.

Definition by_name (a b : t) : Prop :=
  String.le (color_name a.2) (color_name b.2).

#[export] Instance by_name_dec : RelDecision by_name.
Proof. intros a b. unfold by_name. apply _. Defined.

(** [ORDER BY color_name ASC] *)
Definition order_by_name (rows : list t) : list t := merge_sort by_name rows.

Definition is_active (r : t) : bool := bool_decide (color_is_active r.2 = 1).

Definition getAll (includeInactive : bool) (d : db) : list t :=
  if includeInactive
  then order_by_name (map_to_list (colors d))
  else order_by_name (filter (fun r => is_active r = true) (map_to_list (colors d))).

Definition getById (colorId : Z) (d : db) : option t :=
  match colors d !! colorId with
  | Some row => Some (colorId, row)
  | None => None
  end.

(** The [colorData] argument of [create] and [update]. *)
Record data := {
  data_color_name : string;
  data_hex_code : string;
  data_pantone_code : option string;
  data_material_type : option string;
  data_supplier : option string;
  data_category : option string;
  data_cost_per_gram : option number;
  data_stock_grams : option number
}.

Definition name_taken (d : db) (name : string) : bool :=
  holds (colors d) (fun r => bool_decide (color_name r = name)).

Definition name_taken_besides (d : db) (self : Z) (name : string) : bool :=
  holds_besides (colors d) self (fun r => bool_decide (color_name r = name)).

Definition new_row (now : string) (cd : data) : color_row :=
  {| color_name := data_color_name cd;
     hex_code := data_hex_code cd;
     pantone_code := or_null (data_pantone_code cd);
     material_type := or_null (data_material_type cd);
     supplier := or_null (data_supplier cd);
     category := or_null (data_category cd);
     cost_per_gram := Some (or_num (data_cost_per_gram cd) 0%Q);
     stock_grams := Some (or_num (data_stock_grams cd) 0%Q);
     color_is_active := 1;
     color_created_at := now;
     color_updated_at := now |}.

(** [INSERT INTO colors (...) VALUES (..., 1)], then
    [getById(result.lastInsertRowid)]. *)
Definition create (now : string) (cd : data) (d : db) : db * outcome (option t) :=
  if name_taken d (data_color_name cd)
  then (d, Throw (SqliteError (Sqlite.UniqueFailed "colors.color_name")))
  else
    let id := next_rowid (colors d) (colors_seq d) in
    let d' := with_colors (<[id := new_row now cd]> (colors d)) id d in
    (d', Return (getById id d')).

Definition updated_row (now : string) (cd : data) (old : color_row) : color_row :=
  {| color_name := data_color_name cd;
     hex_code := data_hex_code cd;
     pantone_code := or_null (data_pantone_code cd);
     material_type := or_null (data_material_type cd);
     supplier := or_null (data_supplier cd);
     category := or_null (data_category cd);
     cost_per_gram := Some (or_num (data_cost_per_gram cd) 0%Q);
     stock_grams := Some (or_num (data_stock_grams cd) 0%Q);
     color_is_active := color_is_active old;
     color_created_at := color_created_at old;
     color_updated_at := now |}.

(** [UPDATE colors SET ... WHERE color_id = ?]; [null] when no row changed. *)
Definition update (now : string) (colorId : Z) (cd : data) (d : db)
  : db * outcome (option t) :=
  match colors d !! colorId with
  | None => (d, Return None)
  | Some old =>
      if name_taken_besides d colorId (data_color_name cd)
      then (d, Throw (SqliteError (Sqlite.UniqueFailed "colors.color_name")))
      else
        let d' := with_colors (<[colorId := updated_row now cd old]> (colors d))
                              (colors_seq d) d in
        (d', Return (getById colorId d'))
  end.

Definition set_active (flag : Z) (r : color_row) : color_row :=
  {| color_name := color_name r;
     hex_code := hex_code r;
     pantone_code := pantone_code r;
     material_type := material_type r;
     supplier := supplier r;
     category := category r;
     cost_per_gram := cost_per_gram r;
     stock_grams := stock_grams r;
     color_is_active := flag;
     color_created_at := color_created_at r;
     color_updated_at := color_updated_at r |}.

(** [UPDATE colors SET is_active = ? WHERE color_id = ?], [changes > 0] *)
Definition set_is_active (flag : Z) (colorId : Z) (d : db) : db * bool :=
  match colors d !! colorId with
  | Some r => (with_colors (<[colorId := set_active flag r]> (colors d)) (colors_seq d) d, true)
  | None => (d, false)
  end.

Definition deactivate (colorId : Z) (d : db) : db * bool := set_is_active 0 colorId d.
Definition activate (colorId : Z) (d : db) : db * bool := set_is_active 1 colorId d.

(** [WHERE color_name LIKE '%term%' AND is_active = 1 ORDER BY color_name] *)
Definition search (searchTerm : string) (d : db) : list t :=
  order_by_name
    (filter (fun r => Sqlite.like ("%" ++ searchTerm ++ "%") (color_name r.2) && is_active r = true)
            (map_to_list (colors d))).

(** [.get(supplier)]: only the first row of the ordered result. *)
Definition getBySupplier (sup : string) (d : db) : option t :=
  head (order_by_name
          (filter (fun r => bool_decide (supplier r.2 = Some sup) && is_active r = true)
                  (map_to_list (colors d)))).

(** Every function the module exports, as a call, and the database each
    call leaves behind. *)
Inductive call :=
| GetAll (includeInactive : bool)
| GetById (colorId : Z)
| Create (cd : data)
| Update (colorId : Z) (cd : data)
| Deactivate (colorId : Z)
| Activate (colorId : Z)
| Search (searchTerm : string)
| GetBySupplier (sup : string).

Definition run (now : string) (c : call) (d : db) : db :=
  match c with
  | GetAll _ | GetById _ | Search _ | GetBySupplier _ => d
  | Create cd => (create now cd d).1
  | Update colorId cd => (update now colorId cd d).1
  | Deactivate colorId => (deactivate colorId d).1
  | Activate colorId => (activate colorId d).1
  end.

End Color.

(** ** src/models/Part.js *)

Module Part.

Definition t : Type := Z * part_row.

Definition by_name (a b : t) : Prop :=
  String.le (part_name a.2) (part_name b.2).

#[export] Instance by_name_dec : RelDecision by_name.
Proof. intros a b. unfold by_name. apply _. Defined.

(** [ORDER BY part_name ASC] *)
Definition order_by_name (rows : list t) : list t := merge_sort by_name rows.

Definition is_active (r : t) : bool := bool_decide (part_is_active r.2 = 1).

Definition getAll (includeInactive : bool) (d : db) : list t :=
  if includeInactive
  then order_by_name (map_to_list (parts d))
  else order_by_name (filter (fun r => is_active r = true) (map_to_list (parts d))).

Definition getById (partId : Z) (d : db) : option t :=
  match parts d !! partId with
  | Some row => Some (partId, row)
  | None => None
  end.

(** [SELECT * FROM parts WHERE part_code = ?]; the column is UNIQUE. *)
Definition getByCode (partCode : string) (d : db) : option t :=
  head (filter (fun r => bool_decide (part_code r.2 = Some partCode)) (map_to_list (parts d))).

(** The [partData] argument of [create] and [update]; [part_code] may be
    left out, the column is nullable. *)
Record data := {
  data_part_code : option string;
  data_part_name : string;
  data_description : option string
}.

(** A UNIQUE column never clashes on NULL. *)
Definition code_clash (code : option string) (r : part_row) : bool :=
  match code with
  | Some c => bool_decide (part_code r = Some c)
  | None => false
  end.

Definition unique_violation (m : gmap Z part_row) (skip : option Z) (pd : data)
  : option Sqlite.constraint_error :=
  let others :=
    match skip with
    | Some self => holds_besides m self
    | None => holds m
    end in
  if others (code_clash (data_part_code pd))
  then Some (Sqlite.UniqueFailed "parts.part_code")
  else if others (fun r => bool_decide (part_name r = data_part_name pd))
  then Some (Sqlite.UniqueFailed "parts.part_name")
  else None.

Definition new_row (now : string) (pd : data) : part_row :=
  {| part_code := data_part_code pd;
     part_name := data_part_name pd;
     part_description := or_null (data_description pd);
     part_is_active := 1;
     part_created_at := now;
     part_updated_at := now |}.

(** [INSERT INTO parts (...) VALUES (?, ?, ?, 1)], then [getById]. *)
Definition create (now : string) (pd : data) (d : db) : db * outcome (option t) :=
  match unique_violation (parts d) None pd with
  | Some e => (d, Throw (SqliteError e))
  | None =>
      let id := next_rowid (parts d) (parts_seq d) in
      let d' := with_parts (<[id := new_row now pd]> (parts d)) id d in
      (d', Return (getById id d'))
  end.

Definition updated_row (now : string) (pd : data) (old : part_row) : part_row :=
  {| part_code := data_part_code pd;
     part_name := data_part_name pd;
     part_description := or_null (data_description pd);
     part_is_active := part_is_active old;
     part_created_at := part_created_at old;
     part_updated_at := now |}.

Definition update (now : string) (partId : Z) (pd : data) (d : db)
  : db * outcome (option t) :=
  match parts d !! partId with
  | None => (d, Return None)
  | Some old =>
      match unique_violation (parts d) (Some partId) pd with
      | Some e => (d, Throw (SqliteError e))
      | None =>
          let d' := with_parts (<[partId := updated_row now pd old]> (parts d))
                               (parts_seq d) d in
          (d', Return (getById partId d'))
      end
  end.

Definition set_active (flag : Z) (r : part_row) : part_row :=
  {| part_code := part_code r;
     part_name := part_name r;
     part_description := part_description r;
     part_is_active := flag;
     part_created_at := part_created_at r;
     part_updated_at := part_updated_at r |}.

(** [UPDATE parts SET is_active = ? WHERE part_id = ?], [changes > 0] *)
Definition set_is_active (flag : Z) (partId : Z) (d : db) : db * bool :=
  match parts d !! partId with
  | Some r => (with_parts (<[partId := set_active flag r]> (parts d)) (parts_seq d) d, true)
  | None => (d, false)
  end.

Definition deactivate (partId : Z) (d : db) : db * bool := set_is_active 0 partId d.
Definition activate (partId : Z) (d : db) : db * bool := set_is_active 1 partId d.

(** [WHERE (part_name LIKE ? OR part_code LIKE ?) AND is_active = 1] *)
Definition search (searchTerm : string) (d : db) : list t :=
  let pat := "%" ++ searchTerm ++ "%" in
  order_by_name
    (filter (fun r => (Sqlite.like pat (part_name r.2)
                       || match part_code r.2 with
                          | Some c => Sqlite.like pat c
                          | None => false
                          end)
                      && is_active r = true)
            (map_to_list (parts d))).

Inductive call :=
| GetAll (includeInactive : bool)
| GetById (partId : Z)
| GetByCode (partCode : string)
| Create (pd : data)
| Update (partId : Z) (pd : data)
| Deactivate (partId : Z)
| Activate (partId : Z)
| Search (searchTerm : string).

Definition run (now : string) (c : call) (d : db) : db :=
  match c with
  | GetAll _ | GetById _ | GetByCode _ | Search _ => d
  | Create pd => (create now pd d).1
  | Update partId pd => (update now partId pd d).1
  | Deactivate partId => (deactivate partId d).1
  | Activate partId => (activate partId d).1
  end.

End Part.

(** ** JSON text: SQLite's [json_object] and JavaScript's [JSON.parse]

    Strings are byte strings (UTF-8); numbers are the integers the INTEGER
    columns hold. *)

Module Json.

Inductive value :=
| Null
| Bool (b : bool)
| Number (z : Z)
| Str (s : string)
| Array (elems : list value)
| Object (members : list (string * value)).

(** The double quote character. *)
Definition dquote : ascii := ascii_of_nat 34.

Definition hex_digit (n : nat) : ascii :=
  if (n <? 10)%nat then ascii_of_nat (48 + n) else ascii_of_nat (87 + n).

(** One character inside a JSON string literal, as SQLite writes it. *)
Definition escape_char (c : ascii) : string :=
  let n := nat_of_ascii c in
  if decide (c = dquote) then String "\" (String dquote "")
  else if decide (c = "\"%char) then "\\"
  else if decide (n = 8%nat) then "\b"
  else if decide (n = 9%nat) then "\t"
  else if decide (n = 10%nat) then "\n"
  else if decide (n = 12%nat) then "\f"
  else if decide (n = 13%nat) then "\r"
  else if (n <? 32)%nat
       then "\u00" ++ String (hex_digit (n / 16)) (String (hex_digit (n mod 16)) "")
       else String c "".

Fixpoint escape (s : string) : string :=
  match s with
  | EmptyString => ""
  | String c rest => escape_char c ++ escape rest
  end.

Definition quote (s : string) : string := String dquote (escape s ++ String dquote "").

Definition of_int (z : Z) : string := DecimalString.NilZero.string_of_int (Z.to_int z).

(** ** Parsing *)

Definition is_ws (c : ascii) : bool :=
  let n := nat_of_ascii c in
  bool_decide (n = 32%nat) || bool_decide (n = 9%nat)
  || bool_decide (n = 10%nat) || bool_decide (n = 13%nat).

Fixpoint skip_ws (s : list ascii) : list ascii :=
  match s with
  | c :: s' => if is_ws c then skip_ws s' else s
  | [] => []
  end.

Definition digit_val (c : ascii) : option Z :=
  let n := nat_of_ascii c in
  if ((48 <=? n)%nat && (n <=? 57)%nat)%bool then Some (Z.of_nat n - 48) else None.

Definition hex_val (c : ascii) : option Z :=
  let n := nat_of_ascii c in
  if ((48 <=? n)%nat && (n <=? 57)%nat)%bool then Some (Z.of_nat n - 48)
  else if ((97 <=? n)%nat && (n <=? 102)%nat)%bool then Some (Z.of_nat n - 87)
  else if ((65 <=? n)%nat && (n <=? 70)%nat)%bool then Some (Z.of_nat n - 55)
  else None.

Definition byte (z : Z) : ascii := ascii_of_nat (Z.to_nat z).

(** UTF-8 bytes of a code point of the basic plane; surrogates are not
    decoded. *)
Definition utf8 (cp : Z) : option string :=
  if cp <? 128 then Some (String (byte cp) "")
  else if cp <? 2048
       then Some (String (byte (192 + cp / 64)) (String (byte (128 + cp mod 64)) ""))
  else if ((55296 <=? cp) && (cp <=? 57343))%bool then None
  else Some (String (byte (224 + cp / 4096))
               (String (byte (128 + (cp / 64) mod 64))
                  (String (byte (128 + cp mod 64)) ""))).

Definition unescape (c : ascii) : option ascii :=
  if decide (c = dquote) then Some dquote
  else if decide (c = "\"%char) then Some "\"%char
  else if decide (c = "/"%char) then Some "/"%char
  else if decide (c = "b"%char) then Some (ascii_of_nat 8)
  else if decide (c = "f"%char) then Some (ascii_of_nat 12)
  else if decide (c = "n"%char) then Some (ascii_of_nat 10)
  else if decide (c = "r"%char) then Some (ascii_of_nat 13)
  else if decide (c = "t"%char) then Some (ascii_of_nat 9)
  else None.

(** The rest of a string literal, after its opening quote. *)
Fixpoint string_body (s : list ascii) : option (string * list ascii) :=
  match s with
  | [] => None
  | c :: s' =>
      if decide (c = dquote) then Some ("", s')
      else if decide (c = "\"%char) then
        match s' with
        | [] => None
        | e :: s'' =>
            match unescape e with
            | Some ch =>
                match string_body s'' with
                | Some (str, rest) => Some (String ch str, rest)
                | None => None
                end
            | None =>
                if decide (e = "u"%char) then
                  match s'' with
                  | h1 :: h2 :: h3 :: h4 :: s5 =>
                      match hex_val h1, hex_val h2, hex_val h3, hex_val h4 with
                      | Some a, Some b, Some c', Some d' =>
                          match utf8 (((a * 16 + b) * 16 + c') * 16 + d'), string_body s5 with
                          | Some bytes, Some (str, rest) => Some (bytes ++ str, rest)
                          | _, _ => None
                          end
                      | _, _, _, _ => None
                      end
                  | _ => None
                  end
                else None
            end
        end
      else if (nat_of_ascii c <? 32)%nat then None
      else
        match string_body s' with
        | Some (str, rest) => Some (String c str, rest)
        | None => None
        end
  end.

Fixpoint digits (acc : Z) (s : list ascii) : Z * list ascii :=
  match s with
  | c :: s' =>
      match digit_val c with
      | Some v => digits (acc * 10 + v) s'
      | None => (acc, s)
      end
  | [] => (acc, [])
  end.

(** An integer literal: at least one digit, no leading zero before another
    digit, no fraction or exponent after it. *)
Definition unsigned (s : list ascii) : option (Z * list ascii) :=
  match s with
  | c :: s' =>
      match digit_val c with
      | Some 0 =>
          match s' with
          | c2 :: _ =>
              match digit_val c2 with
              | Some _ => None
              | None => Some (0, s')
              end
          | [] => Some (0, s')
          end
      | Some v => Some (digits v s')
      | None => None
      end
  | [] => None
  end.

Definition no_fraction (r : Z * list ascii) : option (Z * list ascii) :=
  match r.2 with
  | c :: _ =>
      if decide (c = "."%char) then None
      else if decide (c = "e"%char) then None
      else if decide (c = "E"%char) then None
      else Some r
  | [] => Some r
  end.

Definition number_lit (s : list ascii) : option (Z * list ascii) :=
  match s with
  | c :: s' =>
      if decide (c = "-"%char)
      then match unsigned s' with
           | Some (z, rest) => no_fraction (- z, rest)
           | None => None
           end
      else match unsigned s with
           | Some r => no_fraction r
           | None => None
           end
  | [] => None
  end.

Fixpoint strip_prefix (p : list ascii) (s : list ascii) : option (list ascii) :=
  match p, s with
  | [], _ => Some s
  | a :: p', b :: s' => if decide (a = b) then strip_prefix p' s' else None
  | _ :: _, [] => None
  end.

Definition keyword (k : string) (v : value) (s : list ascii) : option (value * list ascii) :=
  match strip_prefix (list_ascii_of_string k) s with
  | Some rest => Some (v, rest)
  | None => None
  end.

(** A value at the head of [s]; [elements] and [members] read what follows
    an opening bracket or brace.  The fuel bounds the nesting of calls. *)
Fixpoint parse_value (fuel : nat) (s : list ascii) : option (value * list ascii) :=
  match fuel with
  | O => None
  | S fuel' =>
      match skip_ws s with
      | [] => None
      | c :: s' =>
          if decide (c = dquote) then
            match string_body s' with
            | Some (str, rest) => Some (Str str, rest)
            | None => None
            end
          else if decide (c = "["%char) then
            match skip_ws s' with
            | c2 :: s2 =>
                if decide (c2 = "]"%char) then Some (Array [], s2)
                else match elements fuel' s' with
                     | Some (vs, rest) => Some (Array vs, rest)
                     | None => None
                     end
            | [] => None
            end
          else if decide (c = "{"%char) then
            match skip_ws s' with
            | c2 :: s2 =>
                if decide (c2 = "}"%char) then Some (Object [], s2)
                else match members fuel' s' with
                     | Some (ms, rest) => Some (Object ms, rest)
                     | None => None
                     end
            | [] => None
            end
          else if decide (c = "n"%char) then keyword "null" Null (c :: s')
          else if decide (c = "t"%char) then keyword "true" (Bool true) (c :: s')
          else if decide (c = "f"%char) then keyword "false" (Bool false) (c :: s')
          else match number_lit (c :: s') with
               | Some (z, rest) => Some (Number z, rest)
               | None => None
               end
      end
  end
with elements (fuel : nat) (s : list ascii) : option (list value * list ascii) :=
  match fuel with
  | O => None
  | S fuel' =>
      match parse_value fuel' s with
      | Some (v, rest) =>
          match skip_ws rest with
          | c :: rest' =>
              if decide (c = ","%char) then
                match elements fuel' rest' with
                | Some (vs, rest'') => Some (v :: vs, rest'')
                | None => None
                end
              else if decide (c = "]"%char) then Some ([v], rest')
              else None
          | [] => None
          end
      | None => None
      end
  end
with members (fuel : nat) (s : list ascii) : option (list (string * value) * list ascii) :=
  match fuel with
  | O => None
  | S fuel' =>
      match skip_ws s with
      | q :: s1 =>
          if decide (q = dquote) then
            match string_body s1 with
            | Some (key, s2) =>
                match skip_ws s2 with
                | colon :: s3 =>
                    if decide (colon = ":"%char) then
                      match parse_value fuel' s3 with
                      | Some (v, rest) =>
                          match skip_ws rest with
                          | c :: rest' =>
                              if decide (c = ","%char) then
                                match members fuel' rest' with
                                | Some (ms, rest'') => Some ((key, v) :: ms, rest'')
                                | None => None
                                end
                              else if decide (c = "}"%char) then Some ([(key, v)], rest')
                              else None
                          | [] => None
                          end
                      | None => None
                      end
                    else None
                | [] => None
                end
            | None => None
            end
          else None
      | [] => None
      end
  end.

(** [JSON.parse(text)]; [None] stands for the SyntaxError it throws. *)
Definition parse (text : string) : option value :=
  let s := list_ascii_of_string text in
  match parse_value (2 * length s + 2) s with
  | Some (v, rest) =>
      match skip_ws rest with
      | [] => Some v
      | _ :: _ => None
      end
  | None => None
  end.

(** [obj.key] on a parsed value; the last member of a repeated key wins. *)
Definition get (key : string) (v : value) : option value :=
  match v with
  | Object ms => snd <$> head (filter (fun m => m.1 = key) (reverse ms))
  | _ => None
  end.

End Json.

(** ** SQL pieces shared by the template queries *)

Fixpoint join (sep : string) (l : list string) : string :=
  match l with
  | [] => ""
  | [x] => x
  | x :: rest => x ++ sep ++ join sep rest
  end.

(** [json_object(k1, v1, ...)] over already rendered values: never NULL. *)
Definition json_object (members : list (string * string)) : string :=
  "{" ++ join "," (map (fun m => Json.quote m.1 ++ ":" ++ m.2) members) ++ "}".

Definition json_of_integer (x : option Z) : string :=
  match x with
  | Some z => Json.of_int z
  | None => "null"
  end.

Definition json_of_text (x : option string) : string :=
  match x with
  | Some s => Json.quote s
  | None => "null"
  end.

(** [GROUP_CONCAT(x)]: the non-NULL values joined by commas, NULL when there
    is none. *)
Definition group_concat (xs : list (option string)) : option string :=
  match omap id xs with
  | [] => None
  | vs => Some (join "," vs)
  end.

(** [db.transaction(body)()]: a throw inside rolls everything back. *)
Definition transaction {A} (body : db -> db * outcome A) (d : db) : db * outcome A :=
  match body d with
  | (d', Return a) => (d', Return a)
  | (_, Throw e) => (d, Throw e)
  end.

(** ** src/models/ProductTemplate.js *)

Module ProductTemplate.

(** One row of the three-table LEFT JOIN for a template: the
    [template_parts] columns and the [parts] columns, each all-NULL when
    the join found nothing. *)
Record joined := {
  tp_part_id : option Z;
  tp_quantity : option Z;
  p_part_id : option Z;
  p_part_code : option string;
  p_part_name : option string
}.

Definition links (templateId : Z) (d : db) : list ((Z * Z) * Z) :=
  filter (fun e => e.1.1 = templateId) (map_to_list (template_parts d)).

Definition join_part (d : db) (e : (Z * Z) * Z) : joined :=
  let r := parts d !! e.1.2 in
  {| tp_part_id := Some e.1.2;
     tp_quantity := Some e.2;
     p_part_id := (fun _ => e.1.2) <$> r;
     p_part_code := r ≫= part_code;
     p_part_name := part_name <$> r |}.

Definition left_join (templateId : Z) (d : db) : list joined :=
  match links templateId d with
  | [] => [ {| tp_part_id := None; tp_quantity := None; p_part_id := None;
               p_part_code := None; p_part_name := None |} ]
  | es => map (join_part d) es
  end.

Definition part_json (j : joined) : string :=
  json_object [ ("part_id", json_of_integer (p_part_id j));
                ("part_code", json_of_text (p_part_code j));
                ("part_name", json_of_text (p_part_name j));
                ("quantity", json_of_integer (tp_quantity j)) ].

(** [COUNT(tp.part_id)] counts the rows where the column is not NULL. *)
Definition count_parts (js : list joined) : Z :=
  Z.of_nat (length (filter (fun j => is_Some (tp_part_id j)) js)).

(** A template as [getAll] returns it. *)
Record listed := {
  listed_id : Z;
  listed_row : template_row;
  part_count : Z;
  parts_json : option string;
  listed_parts : Json.value
}.

Definition by_name (a b : Z * template_row) : Prop :=
  String.le (template_name a.2) (template_name b.2).

#[export] Instance by_name_dec : RelDecision by_name.
Proof. intros a b. unfold by_name. apply _. Defined.

(** [template.parts_json ? JSON.parse(`[${template.parts_json}]`) : []] *)
Definition parse_parts (pj : option string) : outcome Json.value :=
  if falsy_str pj then Return (Json.Array [])
  else match Json.parse ("[" ++ default "" pj ++ "]") with
       | Some v => Return v
       | None => Throw (Error "SyntaxError")
       end.

Definition list_one (d : db) (t : Z * template_row) : outcome listed :=
  let js := left_join t.1 d in
  let pj := group_concat (map (fun j => Some (part_json j)) js) in
  match parse_parts pj with
  | Return v => Return {| listed_id := t.1; listed_row := t.2;
                          part_count := count_parts js;
                          parts_json := pj; listed_parts := v |}
  | Throw e => Throw e
  end.

Fixpoint map_outcome {A B} (f : A -> outcome B) (l : list A) : outcome (list B) :=
  match l with
  | [] => Return []
  | x :: rest =>
      match f x with
      | Return y =>
          match map_outcome f rest with
          | Return ys => Return (y :: ys)
          | Throw e => Throw e
          end
      | Throw e => Throw e
      end
  end.

Definition getAll (includeInactive : bool) (d : db) : outcome (list listed) :=
  let selected :=
    if includeInactive then map_to_list (product_templates d)
    else filter (fun t => template_is_active t.2 = 1) (map_to_list (product_templates d)) in
  map_outcome (list_one d) (merge_sort by_name selected).

(** A part of a template as [getById] returns it. *)
Record part_line := {
  line_part_id : Z;
  line_part_code : option string;
  line_part_name : string;
  line_description : option string;
  line_quantity : Z
}.

Definition line_by_name (a b : part_line) : Prop :=
  String.le (line_part_name a) (line_part_name b).

#[export] Instance line_by_name_dec : RelDecision line_by_name.
Proof. intros a b. unfold line_by_name. apply _. Defined.

(** [FROM template_parts tp JOIN parts p ON tp.part_id = p.part_id] *)
Definition inner_join (d : db) (e : (Z * Z) * Z) : option part_line :=
  match parts d !! e.1.2 with
  | Some r => Some {| line_part_id := e.1.2;
                      line_part_code := part_code r;
                      line_part_name := part_name r;
                      line_description := part_description r;
                      line_quantity := e.2 |}
  | None => None
  end.

Record detail := {
  detail_id : Z;
  detail_row : template_row;
  detail_parts : list part_line
}.

Definition getById (templateId : Z) (d : db) : option detail :=
  match product_templates d !! templateId with
  | None => None
  | Some row =>
      Some {| detail_id := templateId;
              detail_row := row;
              detail_parts :=
                merge_sort line_by_name (omap (inner_join d) (links templateId d)) |}
  end.

(** One entry of [templateData.parts]. *)
Record part_input := {
  input_part_id : Z;
  input_quantity : option Z
}.

Record data := {
  data_template_name : option string;
  data_description : option string;
  data_num_colors : option Z;
  data_print_time_minutes : option Z;
  data_print_cost : option number;
  data_parts : option (list part_input)
}.

(** [!num_colors || num_colors < 1 || num_colors > 4] *)
Definition bad_num_colors (n : option Z) : bool :=
  match n with
  | None => true
  | Some z => bool_decide (z = 0) || (z <? 1) || (4 <? z)
  end.

(** [INSERT INTO product_templates (...) VALUES (?, ?, ?, ?, ?, 1)] *)
Definition insert_template (now : string) (name : string) (desc : option string)
    (colors_n time : Z) (cost : number) (d : db) : db * outcome Z :=
  if negb ((1 <=? colors_n) && (colors_n <=? 4))
  then (d, Throw (SqliteError (Sqlite.CheckFailed "num_colors BETWEEN 1 AND 4")))
  else if holds (product_templates d) (fun r => bool_decide (template_name r = name))
  then (d, Throw (SqliteError (Sqlite.UniqueFailed "product_templates.template_name")))
  else
    let id := next_rowid (product_templates d) (product_templates_seq d) in
    let row := {| template_name := name; template_description := desc;
                  num_colors := colors_n; print_time_minutes := time;
                  print_cost := cost; template_is_active := 1;
                  template_created_at := now; template_updated_at := now |} in
    (with_product_templates (<[id := row]> (product_templates d)) id d, Return id).

Definition references_ok (templateId partId : Z) (d : db) : bool :=
  bool_decide (is_Some (product_templates d !! templateId))
  && bool_decide (is_Some (parts d !! partId)).

(** [INSERT INTO template_parts (template_id, part_id, quantity) VALUES (?, ?, ?)] *)
Definition insert_template_part (templateId partId quantity : Z) (d : db)
  : db * outcome unit :=
  match template_parts d !! (templateId, partId) with
  | Some _ =>
      (d, Throw (SqliteError
                   (Sqlite.UniqueFailed "template_parts.template_id, template_parts.part_id")))
  | None =>
      if references_ok templateId partId d
      then (with_template_parts (<[(templateId, partId) := quantity]> (template_parts d)) d,
            Return ())
      else (d, Throw (SqliteError Sqlite.ForeignKeyFailed))
  end.

(** [for (const part of parts) partStmt.run(templateId, part.part_id, part.quantity || 1)] *)
Fixpoint insert_parts (templateId : Z) (ps : list part_input) (d : db) : db * outcome unit :=
  match ps with
  | [] => (d, Return ())
  | p :: rest =>
      match insert_template_part templateId (input_part_id p) (or_int (input_quantity p) 1) d with
      | (d', Return _) => insert_parts templateId rest d'
      | (d', Throw e) => (d', Throw e)
      end
  end.

Definition create_body (now : string) (name : string) (colors_n : Z) (td : data) (d : db)
  : db * outcome Z :=
  match insert_template now name (or_null (data_description td)) colors_n
          (or_int (data_print_time_minutes td) 0)
          (or_num (data_print_cost td) 0%Q) d with
  | (d1, Return templateId) =>
      match insert_parts templateId (default [] (data_parts td)) d1 with
      | (d2, Return _) => (d2, Return templateId)
      | (d2, Throw e) => (d2, Throw e)
      end
  | (d1, Throw e) => (d1, Throw e)
  end.

Definition create (now : string) (td : data) (d : db) : db * outcome (option detail) :=
  if falsy_str (data_template_name td)
  then (d, Throw (Error "template_name is required"))
  else if bad_num_colors (data_num_colors td)
  then (d, Throw (Error "num_colors must be between 1 and 4"))
  else
    match transaction (create_body now (default "" (data_template_name td))
                                   (default 0 (data_num_colors td)) td) d with
    | (d', Return templateId) => (d', Return (getById templateId d'))
    | (d', Throw e) => (d', Throw e)
    end.

(** [INSERT ... ON CONFLICT(template_id, part_id) DO UPDATE SET quantity =
    excluded.quantity]; the [quantity] parameter defaults to 1. *)
Definition addPart (templateId partId : Z) (quantity : option Z) (d : db)
  : db * outcome bool :=
  if references_ok templateId partId d
  then (with_template_parts
          (<[(templateId, partId) := default 1 quantity]> (template_parts d)) d,
        Return true)
  else (d, Throw (SqliteError Sqlite.ForeignKeyFailed)).

(** [DELETE FROM template_parts WHERE template_id = ? AND part_id = ?] *)
Definition removePart (templateId partId : Z) (d : db) : db * bool :=
  match template_parts d !! (templateId, partId) with
  | Some _ => (with_template_parts (delete (templateId, partId) (template_parts d)) d, true)
  | None => (d, false)
  end.

(** [UPDATE template_parts SET quantity = ? WHERE template_id = ? AND part_id = ?] *)
Definition updatePartQuantity (templateId partId quantity : Z) (d : db) : db * bool :=
  match template_parts d !! (templateId, partId) with
  | Some _ =>
      (with_template_parts (<[(templateId, partId) := quantity]> (template_parts d)) d, true)
  | None => (d, false)
  end.

(** A key of the [updates] object of [update]: not there, [null], or a
    value of the column's type. *)
Inductive field (A : Type) :=
| Absent
| Null
| Value (a : A).
Arguments Absent {A}.
Arguments Null {A}.
Arguments Value {A} a.

(** The [updates] argument of [update], at the keys of [allowedFields];
    every other key is filtered out before the statement is built. *)
Record updates := {
  u_template_name : field string;
  u_description : field string;
  u_num_colors : field Z;
  u_print_time_minutes : field Z;
  u_print_cost : field number
}.

Definition is_absent {A} (f : field A) : bool :=
  match f with
  | Absent => true
  | _ => false
  end.

Definition is_null {A} (f : field A) : bool :=
  match f with
  | Null => true
  | _ => false
  end.

(** [fields.length === 0] *)
Definition no_fields (u : updates) : bool :=
  is_absent (u_template_name u) && is_absent (u_description u)
  && is_absent (u_num_colors u) && is_absent (u_print_time_minutes u)
  && is_absent (u_print_cost u).

(** [SET column = ?] on a NOT NULL column, once the constraints passed, and
    on a nullable one. *)
Definition assign {A} (f : field A) (old : A) : A :=
  match f with
  | Value a => a
  | _ => old
  end.

Definition assign_nullable {A} (f : field A) (old : option A) : option A :=
  match f with
  | Absent => old
  | Null => None
  | Value a => Some a
  end.

(** NOT NULL columns in table order, then the CHECK, then the UNIQUE index. *)
Definition update_violation (m : gmap Z template_row) (templateId : Z) (u : updates)
  : option Sqlite.constraint_error :=
  if is_null (u_template_name u)
  then Some (Sqlite.NotNullFailed "product_templates.template_name")
  else if is_null (u_num_colors u)
  then Some (Sqlite.NotNullFailed "product_templates.num_colors")
  else if is_null (u_print_time_minutes u)
  then Some (Sqlite.NotNullFailed "product_templates.print_time_minutes")
  else if is_null (u_print_cost u)
  then Some (Sqlite.NotNullFailed "product_templates.print_cost")
  else if match u_num_colors u with
          | Value n => negb ((1 <=? n) && (n <=? 4))
          | _ => false
          end
  then Some (Sqlite.CheckFailed "num_colors BETWEEN 1 AND 4")
  else if match u_template_name u with
          | Value name =>
              holds_besides m templateId (fun r => bool_decide (template_name r = name))
          | _ => false
          end
  then Some (Sqlite.UniqueFailed "product_templates.template_name")
  else None.

Definition updated_row (now : string) (u : updates) (old : template_row) : template_row :=
  {| template_name := assign (u_template_name u) (template_name old);
     template_description := assign_nullable (u_description u) (template_description old);
     num_colors := assign (u_num_colors u) (num_colors old);
     print_time_minutes := assign (u_print_time_minutes u) (print_time_minutes old);
     print_cost := assign (u_print_cost u) (print_cost old);
     template_is_active := template_is_active old;
     template_created_at := template_created_at old;
     template_updated_at := now |}.

(** [UPDATE product_templates SET <the allowed fields given>, updated_at =
    CURRENT_TIMESTAMP WHERE template_id = ?], [changes > 0]; [false] at once
    when no allowed field is given. *)
Definition update (now : string) (templateId : Z) (u : updates) (d : db)
  : db * outcome bool :=
  if no_fields u then (d, Return false)
  else
    match product_templates d !! templateId with
    | None => (d, Return false)
    | Some old =>
        match update_violation (product_templates d) templateId u with
        | Some e => (d, Throw (SqliteError e))
        | None =>
            (with_product_templates
               (<[templateId := updated_row now u old]> (product_templates d))
               (product_templates_seq d) d,
             Return true)
        end
    end.

Definition set_active (flag : Z) (r : template_row) : template_row :=
  {| template_name := template_name r;
     template_description := template_description r;
     num_colors := num_colors r;
     print_time_minutes := print_time_minutes r;
     print_cost := print_cost r;
     template_is_active := flag;
     template_created_at := template_created_at r;
     template_updated_at := template_updated_at r |}.

(** [UPDATE product_templates SET is_active = ? WHERE template_id = ?],
    [changes > 0] *)
Definition set_is_active (flag : Z) (templateId : Z) (d : db) : db * bool :=
  match product_templates d !! templateId with
  | Some r =>
      (with_product_templates (<[templateId := set_active flag r]> (product_templates d))
                              (product_templates_seq d) d,
       true)
  | None => (d, false)
  end.

Definition deactivate (templateId : Z) (d : db) : db * bool := set_is_active 0 templateId d.
Definition activate (templateId : Z) (d : db) : db * bool := set_is_active 1 templateId d.

(** [WHERE template_name LIKE '%term%' [AND is_active = 1] ORDER BY
    template_name] *)
Definition search (searchTerm : string) (includeInactive : bool) (d : db)
  : list (Z * template_row) :=
  merge_sort by_name
    (filter (fun t => Sqlite.like ("%" ++ searchTerm ++ "%") (template_name t.2)
                      && (includeInactive || bool_decide (template_is_active t.2 = 1)) = true)
            (map_to_list (product_templates d))).

(** [DELETE FROM product_templates WHERE template_id = ?], [changes > 0];
    the [template_parts] rows of the template go with it (ON DELETE
    CASCADE). *)
Definition deleteTemplate (templateId : Z) (d : db) : db * bool :=
  match product_templates d !! templateId with
  | Some _ =>
      (with_template_parts
         (filter (fun e : (Z * Z) * Z => e.1.1 ≠ templateId) (template_parts d))
         (with_product_templates (delete templateId (product_templates d))
                                 (product_templates_seq d) d),
       true)
  | None => (d, false)
  end.

(** Every function the module exports, as a call, and the database each
    call leaves behind. *)
Inductive call :=
| GetAll (includeInactive : bool)
| GetById (templateId : Z)
| Create (td : data)
| Update (templateId : Z) (u : updates)
| AddPart (templateId partId : Z) (quantity : option Z)
| RemovePart (templateId partId : Z)
| UpdatePartQuantity (templateId partId quantity : Z)
| Deactivate (templateId : Z)
| Activate (templateId : Z)
| Search (searchTerm : string) (includeInactive : bool)
| Delete (templateId : Z).

Definition run (now : string) (c : call) (d : db) : db :=
  match c with
  | GetAll _ | GetById _ | Search _ _ => d
  | Create td => (create now td d).1
  | Update templateId u => (update now templateId u d).1
  | AddPart templateId partId quantity => (addPart templateId partId quantity d).1
  | RemovePart templateId partId => (removePart templateId partId d).1
  | UpdatePartQuantity templateId partId quantity =>
      (updatePartQuantity templateId partId quantity d).1
  | Deactivate templateId => (deactivate templateId d).1
  | Activate templateId => (activate templateId d).1
  | Delete templateId => (deleteTemplate templateId d).1
  end.

End ProductTemplate.

(** ** The admin routes that call the models *)

Module Admin.

Inductive payload :=
| ErrorBody (error : string)
| MessageBody (message : string)
| ColorBody (color : option Color.t) (message : string)
| TemplateBody (template : option ProductTemplate.detail) (message : string).

Record reply := {
  code : Z;
  body : payload
}.

(** The JSON body of POST /admin/api/colors, before it is validated. *)
Record color_body := {
  body_color_name : option string;
  body_hex_code : option string;
  body_pantone_code : option string;
  body_material_type : option string;
  body_supplier : option string;
  body_category : option string;
  body_cost_per_gram : option number;
  body_stock_grams : option number
}.

Definition color_data (b : color_body) : Color.data :=
  {| Color.data_color_name := default "" (body_color_name b);
     Color.data_hex_code := default "" (body_hex_code b);
     Color.data_pantone_code := body_pantone_code b;
     Color.data_material_type := body_material_type b;
     Color.data_supplier := body_supplier b;
     Color.data_category := body_category b;
     Color.data_cost_per_gram := body_cost_per_gram b;
     Color.data_stock_grams := body_stock_grams b |}.

(** [fastify.post('/admin/api/colors', ...)] *)
Definition post_colors (now : string) (b : color_body) (d : db) : db * outcome reply :=
  if falsy_str (body_color_name b) || falsy_str (body_hex_code b)
  then (d, Return {| code := 400; body := ErrorBody "color_name and hex_code are required" |})
  else
    match Color.create now (color_data b) d with
    | (d', Return color) =>
        (d', Return {| code := 201; body := ColorBody color "Color created successfully" |})
    | (d', Throw e) =>
        if includes "UNIQUE constraint failed" (exn_message e)
        then (d', Return {| code := 409;
                            body := ErrorBody "Color with this name already exists" |})
        else (d', Throw e)
    end.

(** [fastify.post('/admin/api/templates', ...)] *)
Definition post_templates (now : string) (td : ProductTemplate.data) (d : db)
  : db * outcome reply :=
  if falsy_str (ProductTemplate.data_template_name td)
  then (d, Return {| code := 400; body := ErrorBody "template_name is required" |})
  else if ProductTemplate.bad_num_colors (ProductTemplate.data_num_colors td)
  then (d, Return {| code := 400; body := ErrorBody "num_colors must be between 1 and 4" |})
  else
    match ProductTemplate.create now td d with
    | (d', Return template) =>
        (d', Return {| code := 201;
                       body := TemplateBody template "Product template created successfully" |})
    | (d', Throw e) =>
        if includes "UNIQUE constraint failed" (exn_message e)
        then (d', Return {| code := 409;
                            body := ErrorBody "Template with this name already exists" |})
        else if includes "num_colors" (exn_message e)
        then (d', Return {| code := 400; body := ErrorBody (exn_message e) |})
        else (d', Throw e)
    end.

(** [fastify.post('/admin/api/templates/:id/parts', ...)] *)
Definition post_template_parts (templateId : Z) (part_id quantity : option Z) (d : db)
  : db * outcome reply :=
  if bool_decide (or_int part_id 0 = 0)
  then (d, Return {| code := 400; body := ErrorBody "part_id is required" |})
  else
    match ProductTemplate.addPart templateId (or_int part_id 0) (Some (or_int quantity 1)) d with
    | (d', Return true) =>
        (d', Return {| code := 200; body := MessageBody "Part added to template successfully" |})
    | (d', Return false) =>
        (d', Return {| code := 404; body := ErrorBody "Template or part not found" |})
    | (d', Throw e) => (d', Throw e)
    end.

(** [fastify.put('/admin/api/colors/:id', ...)] *)
Definition put_colors (now : string) (colorId : Z) (b : color_body) (d : db)
  : db * outcome reply :=
  if falsy_str (body_color_name b) || falsy_str (body_hex_code b)
  then (d, Return {| code := 400; body := ErrorBody "color_name and hex_code are required" |})
  else
    match Color.update now colorId (color_data b) d with
    | (d', Return None) =>
        (d', Return {| code := 404; body := ErrorBody "Color not found" |})
    | (d', Return (Some color)) =>
        (d', Return {| code := 200;
                       body := ColorBody (Some color) "Color updated successfully" |})
    | (d', Throw e) =>
        if includes "UNIQUE constraint failed" (exn_message e)
        then (d', Return {| code := 409;
                            body := ErrorBody "Color with this name already exists" |})
        else (d', Throw e)
    end.

(** [fastify.delete('/admin/api/colors/:id', ...)] *)
Definition delete_colors (colorId : Z) (d : db) : db * reply :=
  match Color.deactivate colorId d with
  | (d', true) => (d', {| code := 200; body := MessageBody "Color deactivated successfully" |})
  | (d', false) => (d', {| code := 404; body := ErrorBody "Color not found" |})
  end.

(** [fastify.post('/admin/api/colors/:id/activate', ...)] *)
Definition post_colors_activate (colorId : Z) (d : db) : db * reply :=
  match Color.activate colorId d with
  | (d', true) => (d', {| code := 200; body := MessageBody "Color activated successfully" |})
  | (d', false) => (d', {| code := 404; body := ErrorBody "Color not found" |})
  end.

(** What the part routes send: an error, a message, or a part with a
    message. *)
Inductive part_payload :=
| PartErrorBody (error : string)
| PartMessageBody (message : string)
| PartBody (part : option Part.t) (message : string).

Record part_reply := {
  part_reply_code : Z;
  part_reply_body : part_payload
}.

(** The JSON body of POST /admin/api/parts, before it is validated. *)
Record part_body := {
  body_part_code : option string;
  body_part_name : option string;
  body_description : option string
}.

Definition part_data (b : part_body) : Part.data :=
  {| Part.data_part_code := body_part_code b;
     Part.data_part_name := default "" (body_part_name b);
     Part.data_description := body_description b |}.

(** [fastify.post('/admin/api/parts', ...)] *)
Definition post_parts (now : string) (b : part_body) (d : db) : db * outcome part_reply :=
  if falsy_str (body_part_code b) || falsy_str (body_part_name b)
  then (d, Return {| part_reply_code := 400;
                     part_reply_body := PartErrorBody "part_code and part_name are required" |})
  else
    match Part.create now (part_data b) d with
    | (d', Return part) =>
        (d', Return {| part_reply_code := 201;
                       part_reply_body := PartBody part "Part created successfully" |})
    | (d', Throw e) =>
        if includes "UNIQUE constraint failed" (exn_message e)
        then (d', Return {| part_reply_code := 409;
                            part_reply_body :=
                              PartErrorBody "Part with this code or name already exists" |})
        else (d', Throw e)
    end.

(** [fastify.put('/admin/api/parts/:id', ...)] *)
Definition put_parts (now : string) (partId : Z) (b : part_body) (d : db)
  : db * outcome part_reply :=
  if falsy_str (body_part_code b) || falsy_str (body_part_name b)
  then (d, Return {| part_reply_code := 400;
                     part_reply_body := PartErrorBody "part_code and part_name are required" |})
  else
    match Part.update now partId (part_data b) d with
    | (d', Return None) =>
        (d', Return {| part_reply_code := 404;
                       part_reply_body := PartErrorBody "Part not found" |})
    | (d', Return (Some part)) =>
        (d', Return {| part_reply_code := 200;
                       part_reply_body := PartBody (Some part) "Part updated successfully" |})
    | (d', Throw e) =>
        if includes "UNIQUE constraint failed" (exn_message e)
        then (d', Return {| part_reply_code := 409;
                            part_reply_body :=
                              PartErrorBody "Part with this code or name already exists" |})
        else (d', Throw e)
    end.

(** [fastify.delete('/admin/api/parts/:id', ...)] *)
Definition delete_parts (partId : Z) (d : db) : db * part_reply :=
  match Part.deactivate partId d with
  | (d', true) =>
      (d', {| part_reply_code := 200;
              part_reply_body := PartMessageBody "Part deactivated successfully" |})
  | (d', false) =>
      (d', {| part_reply_code := 404; part_reply_body := PartErrorBody "Part not found" |})
  end.

(** [fastify.post('/admin/api/parts/:id/activate', ...)] *)
Definition post_parts_activate (partId : Z) (d : db) : db * part_reply :=
  match Part.activate partId d with
  | (d', true) =>
      (d', {| part_reply_code := 200;
              part_reply_body := PartMessageBody "Part activated successfully" |})
  | (d', false) =>
      (d', {| part_reply_code := 404; part_reply_body := PartErrorBody "Part not found" |})
  end.

(** [templateData.num_colors && (templateData.num_colors < 1 ||
    templateData.num_colors > 4)] *)
Definition num_colors_out_of_range (f : ProductTemplate.field Z) : bool :=
  match f with
  | ProductTemplate.Value n => negb (bool_decide (n = 0)) && ((n <? 1) || (4 <? n))
  | _ => false
  end.

(** [fastify.put('/admin/api/templates/:id', ...)] *)
Definition put_templates (now : string) (templateId : Z) (u : ProductTemplate.updates)
    (d : db) : db * outcome reply :=
  if num_colors_out_of_range (ProductTemplate.u_num_colors u)
  then (d, Return {| code := 400; body := ErrorBody "num_colors must be between 1 and 4" |})
  else
    match ProductTemplate.update now templateId u d with
    | (d', Return false) =>
        (d', Return {| code := 404; body := ErrorBody "Template not found" |})
    | (d', Return true) =>
        (d', Return {| code := 200;
                       body := TemplateBody (ProductTemplate.getById templateId d')
                                 "Template updated successfully" |})
    | (d', Throw e) =>
        if includes "UNIQUE constraint failed" (exn_message e)
        then (d', Return {| code := 409;
                            body := ErrorBody "Template with this name already exists" |})
        else (d', Throw e)
    end.

(** [fastify.put('/admin/api/templates/:id/parts/:partId', ...)] *)
Definition put_template_part (templateId partId : Z) (quantity : option Z) (d : db)
  : db * reply :=
  if bool_decide (or_int quantity 0 = 0) || (or_int quantity 0 <? 1)
  then (d, {| code := 400; body := ErrorBody "quantity must be at least 1" |})
  else
    match ProductTemplate.updatePartQuantity templateId partId (or_int quantity 0) d with
    | (d', true) =>
        (d', {| code := 200; body := MessageBody "Part quantity updated successfully" |})
    | (d', false) =>
        (d', {| code := 404; body := ErrorBody "Template or part not found" |})
    end.

(** [fastify.delete('/admin/api/templates/:id/parts/:partId', ...)] *)
Definition delete_template_part (templateId partId : Z) (d : db) : db * reply :=
  match ProductTemplate.removePart templateId partId d with
  | (d', true) =>
      (d', {| code := 200; body := MessageBody "Part removed from template successfully" |})
  | (d', false) =>
      (d', {| code := 404; body := ErrorBody "Template or part not found" |})
  end.

(** [fastify.delete('/admin/api/templates/:id', ...)] *)
Definition delete_templates (templateId : Z) (d : db) : db * reply :=
  match ProductTemplate.deactivate templateId d with
  | (d', true) =>
      (d', {| code := 200; body := MessageBody "Template deactivated successfully" |})
  | (d', false) => (d', {| code := 404; body := ErrorBody "Template not found" |})
  end.

(** [fastify.post('/admin/api/templates/:id/activate', ...)] *)
Definition post_templates_activate (templateId : Z) (d : db) : db * reply :=
  match ProductTemplate.activate templateId d with
  | (d', true) =>
      (d', {| code := 200; body := MessageBody "Template activated successfully" |})
  | (d', false) => (d', {| code := 404; body := ErrorBody "Template not found" |})
  end.

End Admin.

(** ** The [orders] and [items] tables of schema.sql, as statements *)

(** A column in an INSERT: left out (its DEFAULT applies) or bound to a
    value, which may be NULL. *)
Inductive column (A : Type) :=
| Omitted
| Bound (v : option A).
Arguments Omitted {A}.
Arguments Bound {A} v.

Definition column_value {A} (c : column A) (dflt : option A) : option A :=
  match c with
  | Omitted => dflt
  | Bound v => v
  end.

Module Orders.

(** [CHECK(platform IN ('Shopify', 'Etsy', 'Custom Order'))] *)
Definition platforms : list string := ["Shopify"; "Etsy"; "Custom Order"].

Definition platform_check (p : option string) : bool :=
  Sqlite.check_passes (Sqlite.in_list p platforms).

(** The values bound to the columns a caller can set. *)
Record values := {
  v_order_number : option string;
  v_customer_name : option string;
  v_platform : option string;
  v_order_notes : option string;
  v_ship_by_date : option string;
  v_is_express : column Z
}.

Definition number_taken (m : gmap Z order_row) (skip : option Z) (n : string) : bool :=
  match skip with
  | Some self => holds_besides m self (fun r => bool_decide (order_number r = n))
  | None => holds m (fun r => bool_decide (order_number r = n))
  end.

(** NOT NULL columns first, then the CHECK, then the UNIQUE index. *)
Definition violation (m : gmap Z order_row) (skip : option Z) (v : values)
  : option Sqlite.constraint_error :=
  match v_order_number v, v_customer_name v, v_platform v, v_ship_by_date v with
  | None, _, _, _ => Some (Sqlite.NotNullFailed "orders.order_number")
  | _, None, _, _ => Some (Sqlite.NotNullFailed "orders.customer_name")
  | _, _, None, _ => Some (Sqlite.NotNullFailed "orders.platform")
  | _, _, _, None => Some (Sqlite.NotNullFailed "orders.ship_by_date")
  | Some n, Some _, Some p, Some _ =>
      if negb (platform_check (Some p))
      then Some (Sqlite.CheckFailed "platform IN ('Shopify', 'Etsy', 'Custom Order')")
      else if number_taken m skip n
      then Some (Sqlite.UniqueFailed "orders.order_number")
      else None
  end.

(** [INSERT INTO orders (order_number, customer_name, platform, order_notes,
    ship_by_date, is_express) VALUES (...)] *)
Definition insert (now : string) (v : values) (d : db) : db * outcome Z :=
  match violation (orders d) None v with
  | Some e => (d, Throw (SqliteError e))
  | None =>
      let id := next_rowid (orders d) (orders_seq d) in
      let row := {| order_number := default "" (v_order_number v);
                    customer_name := default "" (v_customer_name v);
                    platform := default "" (v_platform v);
                    order_notes := v_order_notes v;
                    ship_by_date := default "" (v_ship_by_date v);
                    is_express := default 0 (column_value (v_is_express v) (Some 0));
                    is_archived := 0;
                    order_created_at := now;
                    order_updated_at := now;
                    shipped_at := None |} in
      (with_orders (<[id := row]> (orders d)) id d, Return id)
  end.

(** [UPDATE orders SET order_number = ?, customer_name = ?, platform = ?,
    order_notes = ?, ship_by_date = ?, is_express = ? WHERE order_id = ?];
    the [update_orders_timestamp] trigger stamps [updated_at]. *)
Definition update (now : string) (orderId : Z) (v : values) (d : db) : db * outcome bool :=
  match orders d !! orderId with
  | None => (d, Return false)
  | Some old =>
      match violation (orders d) (Some orderId) v with
      | Some e => (d, Throw (SqliteError e))
      | None =>
          let row := {| order_number := default "" (v_order_number v);
                        customer_name := default "" (v_customer_name v);
                        platform := default "" (v_platform v);
                        order_notes := v_order_notes v;
                        ship_by_date := default "" (v_ship_by_date v);
                        is_express := default (is_express old)
                                        (column_value (v_is_express v) (Some (is_express old)));
                        is_archived := is_archived old;
                        order_created_at := order_created_at old;
                        order_updated_at := now;
                        shipped_at := shipped_at old |} in
          (with_orders (<[orderId := row]> (orders d)) (orders_seq d) d, Return true)
      end
  end.

(** The writes a client of the store can issue against [orders]. *)
Inductive write :=
| Insert (now : string) (v : values)
| Update (now : string) (orderId : Z) (v : values).

Definition run (w : write) (d : db) : db :=
  match w with
  | Insert now v => (insert now v d).1
  | Update now orderId v => (update now orderId v d).1
  end.

(** The spec's names for the three platform literals. *)
Inductive Platform := Shopify | Etsy | CustomOrder.

Definition platform_text (p : Platform) : string :=
  match p with
  | Shopify => "Shopify"
  | Etsy => "Etsy"
  | CustomOrder => "Custom Order"
  end.

End Orders.

Module Items.

(** [CHECK(status IN ('In Queue', 'In Printfarm', 'Printed', 'Assembled',
    'Packed', 'Shipped'))] *)
Definition statuses : list string :=
  ["In Queue"; "In Printfarm"; "Printed"; "Assembled"; "Packed"; "Shipped"].

Definition status_check (s : option string) : bool :=
  Sqlite.check_passes (Sqlite.in_list s statuses).

Definition status_violation (s : option string) : option Sqlite.constraint_error :=
  match s with
  | None => Some (Sqlite.NotNullFailed "items.status")
  | Some _ =>
      if status_check s then None
      else Some (Sqlite.CheckFailed
                   "status IN ('In Queue', 'In Printfarm', 'Printed', 'Assembled', 'Packed', 'Shipped')")
  end.

(** [INSERT INTO items (product_id, item_name [, status]) VALUES (...)];
    [status] falls back to its DEFAULT 'In Queue'. *)
Definition insert (now : string) (productId : Z) (name : string) (st : column string) (d : db)
  : db * outcome Z :=
  let s := column_value st (Some "In Queue") in
  match status_violation s with
  | Some e => (d, Throw (SqliteError e))
  | None =>
      if bool_decide (is_Some (products d !! productId))
      then
        let id := next_rowid (items d) (items_seq d) in
        let row := {| item_product_id := productId; item_name := name;
                      status := default "" s;
                      item_created_at := now; item_updated_at := now |} in
        (with_items (<[id := row]> (items d)) id d, Return id)
      else (d, Throw (SqliteError Sqlite.ForeignKeyFailed))
  end.

Definition set_status (now : string) (s : string) (r : item_row) : item_row :=
  {| item_product_id := item_product_id r; item_name := item_name r;
     status := s;
     item_created_at := item_created_at r; item_updated_at := now |}.

(** [UPDATE items SET status = ?, updated_at = CURRENT_TIMESTAMP WHERE
    item_id = ?] *)
Definition update_status (now : string) (itemId : Z) (st : option string) (d : db)
  : db * outcome bool :=
  match items d !! itemId with
  | None => (d, Return false)
  | Some r =>
      match status_violation st with
      | Some e => (d, Throw (SqliteError e))
      | None =>
          (with_items (<[itemId := set_status now (default "" st) r]> (items d)) (items_seq d) d,
           Return true)
      end
  end.

(** [INSERT INTO status_history (item_id, old_status, new_status, reason)
    VALUES (?, ?, ?, ?)] *)
Definition insert_history (now : string) (itemId : Z) (old : option string)
    (new : option string) (why : option string) (d : db) : db * outcome Z :=
  match new with
  | None => (d, Throw (SqliteError (Sqlite.NotNullFailed "status_history.new_status")))
  | Some n =>
      if bool_decide (is_Some (items d !! itemId))
      then
        let id := Z.max (status_history_seq d)
                        (foldr Z.max 0 (map history_id (status_history d))) + 1 in
        let row := {| history_id := id; history_item_id := itemId;
                      old_status := old; new_status := n;
                      changed_at := now; reason := why |} in
        (with_status_history (status_history d ++ [row])%list id d, Return id)
      else (d, Throw (SqliteError Sqlite.ForeignKeyFailed))
  end.

(** The writes a client of the store can issue against [items]. *)
Inductive write :=
| Insert (now : string) (productId : Z) (name : string) (st : column string)
| UpdateStatus (now : string) (itemId : Z) (st : option string).

Definition run (w : write) (d : db) : db :=
  match w with
  | Insert now productId name st => (insert now productId name st d).1
  | UpdateStatus now itemId st => (update_status now itemId st d).1
  end.

End Items.

(** ** The workflow engine and order entry

    The repository holds the schema these operations run against, but not
    the operations themselves; they are written here after the
    specification, on top of the table statements above. *)

Module Workflow.

(** Modelled from the spec: the six item states, in production order.  The
    engine's code is absent; the texts are the literals of the [items]
    CHECK constraint. *)
Inductive Status := InQueue | InPrintfarm | Printed | Assembled | Packed | Shipped.

#[global] Instance Status_eq_dec : EqDecision Status.
Proof. solve_decision. Defined.

Definition status_text (s : Status) : string :=
  match s with
  | InQueue => "In Queue"
  | InPrintfarm => "In Printfarm"
  | Printed => "Printed"
  | Assembled => "Assembled"
  | Packed => "Packed"
  | Shipped => "Shipped"
  end.

Definition all_statuses : list Status :=
  [InQueue; InPrintfarm; Printed; Assembled; Packed; Shipped].

Definition status_of_text (t : string) : option Status :=
  head (filter (fun s => status_text s = t) all_statuses).

(** Modelled from the spec: the immediate successor in
    InQueue, InPrintfarm, Printed, Assembled, Packed, Shipped. *)
Definition next_status (s : Status) : option Status :=
  match s with
  | InQueue => Some InPrintfarm
  | InPrintfarm => Some Printed
  | Printed => Some Assembled
  | Assembled => Some Packed
  | Packed => Some Shipped
  | Shipped => None
  end.

Definition rank (s : Status) : nat :=
  match s with
  | InQueue => 0
  | InPrintfarm => 1
  | Printed => 2
  | Assembled => 3
  | Packed => 4
  | Shipped => 5
  end.

(** Modelled from the spec: the error taxonomy of its section 7. *)
Inductive failure :=
| InvalidTransition
| NoOpTransition
| UnknownPart
| InactiveReference
| NotReady
| NotFound
| DuplicateKey.

Inductive result (A : Type) :=
| Done (a : A)
| Failed (e : failure).
Arguments Done {A} a.
Arguments Failed {A} e.

(** Modelled from the spec: how a constraint failure of the store is
    reported (uniqueness as DuplicateKey, a dangling reference as
    NotFound, a rejected status as InvalidTransition). *)
Definition failure_of (e : exn) : failure :=
  match e with
  | SqliteError (Sqlite.UniqueFailed _) => DuplicateKey
  | SqliteError Sqlite.ForeignKeyFailed => NotFound
  | _ => InvalidTransition
  end.

Definition report {A} (r : db * outcome A) : db * result A :=
  match r with
  | (d, Return a) => (d, Done a)
  | (d, Throw e) => (d, Failed (failure_of e))
  end.

(** Modelled from the spec: order entry creates an item at InQueue
    together with its first history row (old_status NULL, new_status
    InQueue, reason "created"), in one transaction.  The code of order
    entry is absent; the status comes from the column DEFAULT. *)
Definition CreateItem (now : string) (productId : Z) (name : string) (d : db)
  : db * result Z :=
  report (transaction (fun d0 =>
    match Items.insert now productId name Omitted d0 with
    | (d1, Return itemId) =>
        match Items.insert_history now itemId None (Some (status_text InQueue))
                (Some "created") d1 with
        | (d2, Return _) => (d2, Return itemId)
        | (d2, Throw e) => (d2, Throw e)
        end
    | (d1, Throw e) => (d1, Throw e)
    end) d).

(** Modelled from the spec: AdvanceStatus(itemId, targetStatus, reason?)
    succeeds only when the target is the immediate successor of the current
    status; it then writes status and updated_at and appends one history
    row with the reason (default "status advanced"), in one transaction.
    Otherwise InvalidTransition, or NotFound for an unknown item. *)
Definition AdvanceStatus (now : string) (itemId : Z) (target : Status)
    (why : option string) (d : db) : db * result unit :=
  match items d !! itemId with
  | None => (d, Failed NotFound)
  | Some it =>
      if decide (status_of_text (status it) ≫= next_status = Some target)
      then
        report (transaction (fun d0 =>
          match Items.update_status now itemId (Some (status_text target)) d0 with
          | (d1, Return _) =>
              match Items.insert_history now itemId (Some (status it))
                      (Some (status_text target))
                      (Some (default "status advanced" why)) d1 with
              | (d2, Return _) => (d2, Return ())
              | (d2, Throw e) => (d2, Throw e)
              end
          | (d1, Throw e) => (d1, Throw e)
          end) d)
      else (d, Failed InvalidTransition)
  end.

(** One AdvanceStatus call, and a sequence of them run in order whatever
    each one answers. *)
Record advance := {
  at_time : string;
  on_item : Z;
  to_status : Status;
  with_reason : option string
}.

Definition run_advance (c : advance) (d : db) : db :=
  (AdvanceStatus (at_time c) (on_item c) (to_status c) (with_reason c) d).1.

Definition run_advances (cs : list advance) (d : db) : db :=
  foldl (fun acc c => run_advance c acc) d cs.

(** The history rows of one item, oldest first. *)
Definition history_of (itemId : Z) (rows : list history_row) : list history_row :=
  filter (fun r => history_item_id r = itemId) rows.

(** A run of history rows that starts at [from] and moves one stage
    forward with every row, ending at [to]. *)
Inductive forward_path : Status -> list history_row -> Status -> Prop :=
| path_stay s : forward_path s [] s
| path_step s s' r rows t :
    next_status s = Some s' ->
    old_status r = Some (status_text s) ->
    new_status r = status_text s' ->
    forward_path s' rows t ->
    forward_path s (r :: rows) t.

(** Every way the [items] table can change: a statement on [items], a row
    appended to the history, the engine's operations, and anything that
    leaves [items] alone. *)
Inductive step : db -> db -> Prop :=
| step_write w d : step d (Items.run w d)
| step_history now i old new why d : step d (Items.insert_history now i old new why d).1
| step_create now p n d : step d (CreateItem now p n d).1
| step_advance c d : step d (run_advance c d)
| step_elsewhere d d' : items d' = items d -> step d d'.

Inductive reachable : db -> Prop :=
| reach_empty : reachable empty_db
| reach_step d d' : reachable d -> step d d' -> reachable d'.

End Workflow.

Module OrderNumber.

(** Modelled from the spec: an order_number parses as an integer when it
    is a non-empty run of decimal digits; leading zeros are allowed.  The
    numbering code is absent. *)
Definition parse_number (s : string) : option N :=
  if decide (s = "") then None
  else N.of_uint <$> NilEmpty.uint_of_string s.

Definition render (n : N) : string := NilEmpty.string_of_uint (N.to_uint n).

Fixpoint zeros (k : nat) : string :=
  match k with
  | O => ""
  | S k' => String "0" (zeros k')
  end.

(** [s.padStart(width, '0')] *)
Definition pad_start (width : nat) (s : string) : string :=
  zeros (width - String.length s) ++ s.

(** Modelled from the spec: zero-padded to 3 digits until exceeding 999,
    after which padding stops. *)
Definition format (n : N) : string :=
  if (n <=? 999)%N then pad_start 3 (render n) else render n.

(** Modelled from the spec: the numeric maximum of the existing
    order_numbers that parse as integers, 0 when there is none. *)
Definition numeric_max (existing : list string) : N :=
  foldr N.max 0%N (omap parse_number existing).

(** Modelled from the spec: the next sequential order number. *)
Definition next_order_number (existing : list string) : string :=
  format (numeric_max existing + 1).

Definition existing_numbers (d : db) : list string :=
  map (fun kv => order_number kv.2) (map_to_list (orders d)).

(** Modelled from the spec: creating an order, with an explicit
    order_number or, when the caller leaves it out, the generated one; a
    uniqueness violation of the store is reported as DuplicateKey. *)
Definition CreateOrder (now : string) (explicit : option string) (customer : string)
    (p : Orders.Platform) (notes : option string) (ship_by : string) (express : bool)
    (d : db) : db * Workflow.result Z :=
  let number := default (next_order_number (existing_numbers d)) explicit in
  Workflow.report
    (Orders.insert now
       {| Orders.v_order_number := Some number;
          Orders.v_customer_name := Some customer;
          Orders.v_platform := Some (Orders.platform_text p);
          Orders.v_order_notes := notes;
          Orders.v_ship_by_date := Some ship_by;
          Orders.v_is_express := Bound (Some (if express then 1 else 0)) |} d).

End OrderNumber.

(** ** The views of schema.sql

    A view has no ORDER BY: its rows come in the order SQLite walks the
    tables, and only which rows it holds is a property of the view. *)

Module Views.

(** One row of [view_items_full]. *)
Record item_full := {
  full_item_id : Z;
  full_item_name : string;
  full_status : string;
  full_created_at : string;
  full_updated_at : string;
  full_product_id : Z;
  full_product_name : string;
  full_order_id : Z;
  full_order_number : string;
  full_customer_name : string;
  full_platform : string;
  full_ship_by_date : string;
  full_is_express : Z
}.

(** [FROM items i JOIN products p ON i.product_id = p.product_id
    JOIN orders o ON p.order_id = o.order_id WHERE o.is_archived = 0],
    for one item. *)
Definition item_full_of (d : db) (i : Z * item_row) : option item_full :=
  match products d !! item_product_id i.2 with
  | Some p =>
      match orders d !! product_order_id p with
      | Some o =>
          if bool_decide (is_archived o = 0)
          then Some {| full_item_id := i.1;
                       full_item_name := item_name i.2;
                       full_status := status i.2;
                       full_created_at := item_created_at i.2;
                       full_updated_at := item_updated_at i.2;
                       full_product_id := item_product_id i.2;
                       full_product_name := product_name p;
                       full_order_id := product_order_id p;
                       full_order_number := order_number o;
                       full_customer_name := customer_name o;
                       full_platform := platform o;
                       full_ship_by_date := ship_by_date o;
                       full_is_express := is_express o |}
          else None
      | None => None
      end
  | None => None
  end.

Definition view_items_full (d : db) : list item_full :=
  omap (item_full_of d) (map_to_list (items d)).

(** One row of [view_active_orders]. *)
Record active_order := {
  active_order_id : Z;
  active_order_number : string;
  active_customer_name : string;
  active_platform : string;
  active_order_notes : option string;
  active_ship_by_date : string;
  active_is_express : Z;
  active_created_at : string;
  product_count : Z;
  item_count : Z
}.

(** The products of an order and the items of a product. *)
Definition products_of (d : db) (orderId : Z) : list (Z * product_row) :=
  filter (fun p : Z * product_row => product_order_id p.2 = orderId)
         (map_to_list (products d)).

Definition items_of (d : db) (productId : Z) : list (Z * item_row) :=
  filter (fun i : Z * item_row => item_product_id i.2 = productId)
         (map_to_list (items d)).

(** [FROM orders o LEFT JOIN products p ON o.order_id = p.order_id
    LEFT JOIN items i ON p.product_id = i.product_id], for one order: the
    columns [p.product_id] and [i.item_id] of each joined row, NULL where a
    LEFT JOIN found nothing. *)
Definition joined_rows (d : db) (orderId : Z) : list (option Z * option Z) :=
  match products_of d orderId with
  | [] => [(None, None)]
  | ps =>
      ps ≫= (fun p : Z * product_row =>
               match items_of d p.1 with
               | [] => [(Some p.1, None)]
               | its => map (fun i : Z * item_row => (Some p.1, Some i.1)) its
               end)
  end.

(** [COUNT(DISTINCT x)]: the number of different non-NULL values. *)
Definition count_distinct (xs : list (option Z)) : Z :=
  Z.of_nat (length (remove_dups (omap id xs))).

(** [... WHERE o.is_archived = 0 GROUP BY o.order_id], for one order. *)
Definition active_order_of (d : db) (o : Z * order_row) : option active_order :=
  if bool_decide (is_archived o.2 = 0)
  then Some {| active_order_id := o.1;
               active_order_number := order_number o.2;
               active_customer_name := customer_name o.2;
               active_platform := platform o.2;
               active_order_notes := order_notes o.2;
               active_ship_by_date := ship_by_date o.2;
               active_is_express := is_express o.2;
               active_created_at := order_created_at o.2;
               product_count := count_distinct (joined_rows d o.1).*1;
               item_count := count_distinct (joined_rows d o.1).*2 |}
  else None.

Definition view_active_orders (d : db) : list active_order :=
  omap (active_order_of d) (map_to_list (orders d)).

End Views.

(** ** src/database/seed-production.js *)

Module SeedProduction.

(** An entry of [COLORS] and an entry of [PARTS]. *)
Record color := {
  c_name : string;
  c_hex : string;
  c_material : string;
  c_supplier : string;
  c_category : string;
  c_cost : number;
  c_stock : number
}.

Record part := {
  p_code : string;
  p_name : string;
  p_desc : string
}.

Definition COLORS : list color :=
  [ {| c_name := "ABS Black"; c_hex := "#000000"; c_material := "ABS";
       c_supplier := "Hatchbox"; c_category := "Engineering";
       c_cost := (3 # 100)%Q; c_stock := (0 # 1)%Q |};
    {| c_name := "Army Green"; c_hex := "#68724D"; c_material := "PLA";
       c_supplier := "Bambu Lab"; c_category := "Matte";
       c_cost := (12 # 100)%Q; c_stock := (0 # 1)%Q |};
    {| c_name := "Black"; c_hex := "#000000"; c_material := "PLA";
       c_supplier := "Bambu Lab"; c_category := "Basic";
       c_cost := (12 # 100)%Q; c_stock := (0 # 1)%Q |};
    {| c_name := "Blue"; c_hex := "#0078BF"; c_material := "PLA";
       c_supplier := "Bambu Lab"; c_category := "Matte";
       c_cost := (12 # 100)%Q; c_stock := (0 # 1)%Q |};
    {| c_name := "Bright Green"; c_hex := "#BECF00"; c_material := "PLA";
       c_supplier := "Bambu Lab"; c_category := "Basic";
       c_cost := (12 # 100)%Q; c_stock := (0 # 1)%Q |};
    {| c_name := "Brown"; c_hex := "#7D6556"; c_material := "PLA";
       c_supplier := "Bambu Lab"; c_category := "Matte";
       c_cost := (12 # 100)%Q; c_stock := (0 # 1)%Q |};
    {| c_name := "Copper"; c_hex := "#5E4B3C"; c_material := "PLA";
       c_supplier := "Bambu Lab"; c_category := "Silk";
       c_cost := (2 # 10)%Q; c_stock := (0 # 1)%Q |};
    {| c_name := "Cyan"; c_hex := "#00B1B7"; c_material := "PLA";
       c_supplier := "Bambu Lab"; c_category := "Basic";
       c_cost := (12 # 100)%Q; c_stock := (0 # 1)%Q |};
    {| c_name := "Dark Blue"; c_hex := "#042F56"; c_material := "PLA";
       c_supplier := "Bambu Lab"; c_category := "Matte";
       c_cost := (12 # 100)%Q; c_stock := (0 # 1)%Q |};
    {| c_name := "Dark Grey"; c_hex := "#545454"; c_material := "PLA";
       c_supplier := "Bambu Lab"; c_category := "Basic";
       c_cost := (12 # 100)%Q; c_stock := (0 # 1)%Q |};
    {| c_name := "Dark Purple"; c_hex := "#482960"; c_material := "PLA";
       c_supplier := "Bambu Lab"; c_category := "Basic";
       c_cost := (12 # 100)%Q; c_stock := (0 # 1)%Q |};
    {| c_name := "Dark Red"; c_hex := "#9D2235"; c_material := "PLA";
       c_supplier := "Bambu Lab"; c_category := "Basic";
       c_cost := (12 # 100)%Q; c_stock := (0 # 1)%Q |};
    {| c_name := "Dark Silver"; c_hex := "#5F6367"; c_material := "PLA";
       c_supplier := "Bambu Lab"; c_category := "Silk+";
       c_cost := (2 # 10)%Q; c_stock := (0 # 1)%Q |};
    {| c_name := "Gold"; c_hex := "#F4A925"; c_material := "PLA";
       c_supplier := "Bambu Lab"; c_category := "Silk";
       c_cost := (2 # 10)%Q; c_stock := (0 # 1)%Q |};
    {| c_name := "Green"; c_hex := "#3F8E43"; c_material := "PLA";
       c_supplier := "Bambu Lab"; c_category := "Basic";
       c_cost := (12 # 100)%Q; c_stock := (0 # 1)%Q |};
    {| c_name := "Grey"; c_hex := "#9B9EA0"; c_material := "PLA";
       c_supplier := "Bambu Lab"; c_category := "Matte";
       c_cost := (12 # 100)%Q; c_stock := (0 # 1)%Q |};
    {| c_name := "Light Blue"; c_hex := "#A3D8E1"; c_material := "PLA";
       c_supplier := "Bambu Lab"; c_category := "Matte";
       c_cost := (12 # 100)%Q; c_stock := (0 # 1)%Q |};
    {| c_name := "Light Brown"; c_hex := "#D3B7A7"; c_material := "PLA";
       c_supplier := "Bambu Lab"; c_category := "Matte";
       c_cost := (12 # 100)%Q; c_stock := (0 # 1)%Q |};
    {| c_name := "Neon Green"; c_hex := "#00AE42"; c_material := "PLA";
       c_supplier := "Bambu Lab"; c_category := "Basic";
       c_cost := (12 # 100)%Q; c_stock := (0 # 1)%Q |};
    {| c_name := "Neon Orange"; c_hex := "#FF6A13"; c_material := "PLA";
       c_supplier := "Bambu Lab"; c_category := "Basic";
       c_cost := (12 # 100)%Q; c_stock := (0 # 1)%Q |};
    {| c_name := "Neon Pink"; c_hex := "#EC008C"; c_material := "PLA";
       c_supplier := "Bambu Lab"; c_category := "Basic";
       c_cost := (12 # 100)%Q; c_stock := (0 # 1)%Q |};
    {| c_name := "Orange"; c_hex := "#F99963"; c_material := "PLA";
       c_supplier := "Bambu Lab"; c_category := "Matte";
       c_cost := (12 # 100)%Q; c_stock := (0 # 1)%Q |};
    {| c_name := "PETG Clear"; c_hex := "#FFFFFF"; c_material := "PETG";
       c_supplier := "SUNLU"; c_category := "Engineering";
       c_cost := (35 # 1000)%Q; c_stock := (0 # 1)%Q |};
    {| c_name := "PLA Black"; c_hex := "#000000"; c_material := "PLA";
       c_supplier := "Hatchbox"; c_category := "Standard";
       c_cost := (25 # 1000)%Q; c_stock := (0 # 1)%Q |};
    {| c_name := "PLA Blue"; c_hex := "#0000FF"; c_material := "PLA";
       c_supplier := "SUNLU"; c_category := "Standard";
       c_cost := (25 # 1000)%Q; c_stock := (0 # 1)%Q |};
    {| c_name := "PLA Red"; c_hex := "#FF0000"; c_material := "PLA";
       c_supplier := "SUNLU"; c_category := "Standard";
       c_cost := (25 # 1000)%Q; c_stock := (0 # 1)%Q |};
    {| c_name := "PLA White"; c_hex := "#FFFFFF"; c_material := "PLA";
       c_supplier := "Hatchbox"; c_category := "Standard";
       c_cost := (25 # 1000)%Q; c_stock := (0 # 1)%Q |};
    {| c_name := "Pink"; c_hex := "#E8AFCF"; c_material := "PLA";
       c_supplier := "Bambu Lab"; c_category := "Matte";
       c_cost := (12 # 100)%Q; c_stock := (0 # 1)%Q |};
    {| c_name := "Purple"; c_hex := "#8A30CF"; c_material := "PLA";
       c_supplier := "PolyTerra"; c_category := "Matte";
       c_cost := (22 # 100)%Q; c_stock := (0 # 1)%Q |};
    {| c_name := "Red"; c_hex := "#DE4343"; c_material := "PLA";
       c_supplier := "Bambu Lab"; c_category := "Matte";
       c_cost := (12 # 100)%Q; c_stock := (0 # 1)%Q |};
    {| c_name := "Silver"; c_hex := "#C8C8C8"; c_material := "PLA";
       c_supplier := "Bambu Lab"; c_category := "Silk+";
       c_cost := (2 # 10)%Q; c_stock := (0 # 1)%Q |};
    {| c_name := "Yellow"; c_hex := "#F7D959"; c_material := "PLA";
       c_supplier := "Bambu Lab"; c_category := "Matte";
       c_cost := (12 # 100)%Q; c_stock := (0 # 1)%Q |} ].

Definition PARTS : list part :=
  [ {| p_code := "WM16001"; p_name := "16mm Wound Marker 1D6"; p_desc := "" |};
    {| p_code := "WM16002"; p_name := "16mm Wound Marker 2D6"; p_desc := "" |};
    {| p_code := "WM16003"; p_name := "16mm Wound Marker 3D6"; p_desc := "" |};
    {| p_code := "WM16004"; p_name := "16mm Wound Marker 4D6"; p_desc := "" |};
    {| p_code := "TOK0025"; p_name := "25mm Token"; p_desc := "Small token (25mm)" |};
    {| p_code := "LID40001"; p_name := "4-Lid Border"; p_desc := "" |};
    {| p_code := "LID40002"; p_name := "4-Lid Skull"; p_desc := "" |};
    {| p_code := "BOX4L001"; p_name := "4L Token Box"; p_desc := "" |};
    {| p_code := "BOX4M001"; p_name := "4M Token Box"; p_desc := "" |};
    {| p_code := "LID50001"; p_name := "5-Lid Border"; p_desc := "" |};
    {| p_code := "LID50PLAGUE"; p_name := "5-Lid Plague"; p_desc := "" |};
    {| p_code := "LID50002"; p_name := "5-Lid Skull"; p_desc := "" |};
    {| p_code := "TOK0054"; p_name := "54mm Token"; p_desc := "Large token (54mm)" |};
    {| p_code := "BOX5L001"; p_name := "5L Token Box"; p_desc := "" |};
    {| p_code := "BOX5M001"; p_name := "5M Token Box"; p_desc := "" |};
    {| p_code := "LID60001"; p_name := "6-Lid Border"; p_desc := "" |};
    {| p_code := "LID60002"; p_name := "6-Lid Skull"; p_desc := "" |};
    {| p_code := "BOX6L001"; p_name := "6L Token Box"; p_desc := "" |};
    {| p_code := "BOX6M001"; p_name := "6M Token Box"; p_desc := "" |};
    {| p_code := "BOX6XL01"; p_name := "6XL Token Box"; p_desc := "" |} ].

(** The row [insertColor.run] stores: no Pantone code, the values as given. *)
Definition color_row_of (now : string) (c : color) : color_row :=
  {| color_name := c_name c;
     hex_code := c_hex c;
     pantone_code := None;
     material_type := Some (c_material c);
     supplier := Some (c_supplier c);
     category := Some (c_category c);
     cost_per_gram := Some (c_cost c);
     stock_grams := Some (c_stock c);
     color_is_active := 1;
     color_created_at := now;
     color_updated_at := now |}.

(** [INSERT INTO colors (color_name, hex_code, material_type, supplier,
    category, cost_per_gram, stock_grams, is_active) VALUES (?, ?, ?, ?, ?,
    ?, ?, 1)] *)
Definition insertColor (now : string) (c : color) (d : db) : db * outcome unit :=
  if Color.name_taken d (c_name c)
  then (d, Throw (SqliteError (Sqlite.UniqueFailed "colors.color_name")))
  else
    let id := next_rowid (colors d) (colors_seq d) in
    (with_colors (<[id := color_row_of now c]> (colors d)) id d, Return ()).

(** The row [insertPart.run] stores: the description as given, the empty
    text included. *)
Definition part_row_of (now : string) (p : part) : part_row :=
  {| part_code := Some (p_code p);
     part_name := p_name p;
     part_description := Some (p_desc p);
     part_is_active := 1;
     part_created_at := now;
     part_updated_at := now |}.

(** [INSERT INTO parts (part_code, part_name, description, is_active)
    VALUES (?, ?, ?, 1)] *)
Definition insertPart (now : string) (p : part) (d : db) : db * outcome unit :=
  if holds (parts d) (fun r => bool_decide (part_code r = Some (p_code p)))
  then (d, Throw (SqliteError (Sqlite.UniqueFailed "parts.part_code")))
  else if holds (parts d) (fun r => bool_decide (part_name r = p_name p))
  then (d, Throw (SqliteError (Sqlite.UniqueFailed "parts.part_name")))
  else
    let id := next_rowid (parts d) (parts_seq d) in
    (with_parts (<[id := part_row_of now p]> (parts d)) id d, Return ()).

(** [for (const x of xs) stmt.run(...)]: the statements run one after the
    other, the [k]-th at the time [clock k], until one throws. *)
Fixpoint run_each {A} (stmt : string -> A -> db -> db * outcome unit)
    (clock : nat -> string) (k : nat) (xs : list A) (d : db) : db * outcome unit :=
  match xs with
  | [] => (d, Return ())
  | x :: rest =>
      match stmt (clock k) x d with
      | (d', Return _) => run_each stmt clock (S k) rest d'
      | (d', Throw e) => (d', Throw e)
      end
  end.

Definition seedColors (clock : nat -> string) (d : db) : db * outcome unit :=
  transaction (run_each insertColor clock 0 COLORS) d.

Definition seedParts (clock : nat -> string) (d : db) : db * outcome unit :=
  transaction (run_each insertPart clock (length COLORS) PARTS) d.

(** The script: the database it leaves and the exit code of the process.
    It stops with code 0 when either table holds a row, and with code 1
    when a statement throws. *)
Definition main (clock : nat -> string) (d : db) : db * Z :=
  let colorCount := Z.of_nat (size (colors d)) in
  let partCount := Z.of_nat (size (parts d)) in
  if (0 <? colorCount) || (0 <? partCount) then (d, 0)
  else
    match seedColors clock d with
    | (d1, Throw _) => (d1, 1)
    | (d1, Return _) =>
        match seedParts clock d1 with
        | (d2, Throw _) => (d2, 1)
        | (d2, Return _) => (d2, 0)
        end
    end.

End SeedProduction.

(** ** src/database/seed.js: reading the CSV file *)

Module Seed.

(** A JavaScript string, as the UTF-16 code units it is made of. *)
Definition text : Type := list N.


(** WhiteSpace and LineTerminator of ECMAScript, the code units [trim]
    strips: TAB, LF, VT, FF, CR, SP, NBSP, U+1680, U+2000 to U+200A, U+2028,
    U+2029, U+202F, U+205F, U+3000 and U+FEFF. *)
Definition is_space (c : N) : bool :=
  match c with
  | 9 | 10 | 11 | 12 | 13 | 32 | 160 | 5760
  | 8232 | 8233 | 8239 | 8287 | 12288 | 65279 => true
  | _ => (8192 <=? c) && (c <=? 8202)
  end%N.

Fixpoint trim_start (s : text) : text :=
  match s with
  | [] => []
  | c :: rest => if is_space c then trim_start rest else s
  end.

Fixpoint trim_end (s : text) : text :=
  match s with
  | [] => []
  | c :: rest =>
      match trim_end rest with
      | [] => if is_space c then [] else [c]
      | kept => c :: kept
      end
  end.

(** [s.trim()] *)
Definition trim (s : text) : text := trim_end (trim_start s).

(** [s.split(sep)] for a separator of one code unit: the pieces between
    the separators, one more than there are separators. *)
Fixpoint split (sep : N) (s : text) : list text :=
  match s with
  | [] => [[]]
  | c :: rest =>
      if (c =? sep)%N then [] :: split sep rest
      else
        match split sep rest with
        | piece :: pieces => (c :: piece) :: pieces
        | [] => [[c]]
        end
  end.

(** [s.startsWith('#')] *)
Definition starts_with_hash (s : text) : bool :=
  match s with
  | c :: _ => (c =? 35)%N
  | [] => false
  end.

(** [line.trim() && !line.trim().startsWith('#')], as the filter reads it:
    the empty string is falsy. *)
Definition kept (line : text) : bool :=
  match trim line with
  | [] => false
  | t => negb (starts_with_hash t)
  end.



(** A row object, as its own properties. *)
Definition row : Type := gmap text (option text).




End Seed.

(** ** Vocabulary of the statements below *)

(** Two color rows that agree on every column but [is_active]. *)
Definition color_rest_equal (r r' : color_row) : Prop :=
  color_name r' = color_name r ∧ hex_code r' = hex_code r
  ∧ pantone_code r' = pantone_code r ∧ material_type r' = material_type r
  ∧ supplier r' = supplier r ∧ category r' = category r
  ∧ cost_per_gram r' = cost_per_gram r ∧ stock_grams r' = stock_grams r
  ∧ color_created_at r' = color_created_at r
  ∧ color_updated_at r' = color_updated_at r.

(** Two part rows that agree on every column but [is_active]. *)
Definition part_rest_equal (r r' : part_row) : Prop :=
  part_code r' = part_code r ∧ part_name r' = part_name r
  ∧ part_description r' = part_description r
  ∧ part_created_at r' = part_created_at r
  ∧ part_updated_at r' = part_updated_at r.

(** The database outside the [colors] table. *)
Definition same_outside_colors (d d' : db) : Prop :=
  parts d' = parts d ∧ parts_seq d' = parts_seq d
  ∧ orders d' = orders d ∧ orders_seq d' = orders_seq d
  ∧ products d' = products d ∧ products_seq d' = products_seq d
  ∧ items d' = items d ∧ items_seq d' = items_seq d
  ∧ item_parts d' = item_parts d
  ∧ status_history d' = status_history d
  ∧ status_history_seq d' = status_history_seq d
  ∧ product_templates d' = product_templates d
  ∧ product_templates_seq d' = product_templates_seq d
  ∧ template_parts d' = template_parts d.

(** The database outside the [parts] table. *)
Definition same_outside_parts (d d' : db) : Prop :=
  colors d' = colors d ∧ colors_seq d' = colors_seq d
  ∧ orders d' = orders d ∧ orders_seq d' = orders_seq d
  ∧ products d' = products d ∧ products_seq d' = products_seq d
  ∧ items d' = items d ∧ items_seq d' = items_seq d
  ∧ item_parts d' = item_parts d
  ∧ status_history d' = status_history d
  ∧ status_history_seq d' = status_history_seq d
  ∧ product_templates d' = product_templates d
  ∧ product_templates_seq d' = product_templates_seq d
  ∧ template_parts d' = template_parts d.

(** What [deactivate] and a following [activate] do to the row [r] stored
    under key [id]. *)
Definition color_soft_delete (d : db) (id : Z) (r : color_row) : Prop :=
  let d0 := (Color.deactivate id d).1 in
  let d1 := (Color.activate id d0).1 in
  (Color.deactivate id d).2 = true
  ∧ (∃ r0, Color.getById id d0 = Some (id, r0)
           ∧ color_is_active r0 = 0 ∧ color_rest_equal r r0)
  ∧ (∀ id', id' ≠ id → colors d0 !! id' = colors d !! id')
  ∧ colors_seq d0 = colors_seq d
  ∧ same_outside_colors d d0
  ∧ (Color.activate id d0).2 = true
  ∧ (∃ r1, Color.getById id d1 = Some (id, r1)
           ∧ color_is_active r1 = 1 ∧ color_rest_equal r r1).

(** The same for the part row [r] stored under key [id]. *)
Definition part_soft_delete (d : db) (id : Z) (r : part_row) : Prop :=
  let d0 := (Part.deactivate id d).1 in
  let d1 := (Part.activate id d0).1 in
  (Part.deactivate id d).2 = true
  ∧ (∃ r0, Part.getById id d0 = Some (id, r0)
           ∧ part_is_active r0 = 0 ∧ part_rest_equal r r0)
  ∧ (∀ id', id' ≠ id → parts d0 !! id' = parts d !! id')
  ∧ parts_seq d0 = parts_seq d
  ∧ same_outside_parts d d0
  ∧ (Part.activate id d0).2 = true
  ∧ (∃ r1, Part.getById id d1 = Some (id, r1)
           ∧ part_is_active r1 = 1 ∧ part_rest_equal r r1).

(** No row of any table is gone after [d] became [d']. *)
Definition keeps_rows (d d' : db) : Prop :=
  (∀ id, is_Some (colors d !! id) → is_Some (colors d' !! id))
  ∧ (∀ id, is_Some (parts d !! id) → is_Some (parts d' !! id))
  ∧ orders d' = orders d ∧ products d' = products d ∧ items d' = items d
  ∧ item_parts d' = item_parts d ∧ status_history d' = status_history d
  ∧ product_templates d' = product_templates d
  ∧ template_parts d' = template_parts d.

(** A query result that lists, in the order [R] and without repeats, exactly
    the rows of table [m] that satisfy [P]. *)
Definition lists_exactly {A} (R : relation (Z * A)) (result : list (Z * A))
    (m : gmap Z A) (P : A → Prop) : Prop :=
  StronglySorted R result
  ∧ NoDup result
  ∧ ∀ id r, (id, r) ∈ result ↔ m !! id = Some r ∧ P r.

(** A request body that passes the required-field check of
    POST /admin/api/colors. *)
Definition valid_color_body (b : Admin.color_body) : Prop :=
  falsy_str (Admin.body_color_name b) = false
  ∧ falsy_str (Admin.body_hex_code b) = false.

(** The row [create] stores for [cd]: the given name and hex code, the
    optional columns with empty values as NULL, and [is_active] 1. *)
Definition stores_color (cd : Color.data) (row : color_row) : Prop :=
  color_name row = Color.data_color_name cd
  ∧ hex_code row = Color.data_hex_code cd
  ∧ pantone_code row = or_null (Color.data_pantone_code cd)
  ∧ material_type row = or_null (Color.data_material_type cd)
  ∧ supplier row = or_null (Color.data_supplier cd)
  ∧ category row = or_null (Color.data_category cd)
  ∧ color_is_active row = 1.

(** [num_colors] is missing or outside 1..4. *)
Definition num_colors_rejected (n : option Z) : Prop :=
  n = None ∨ ∃ z, n = Some z ∧ (z < 1 ∨ 4 < z).

(** Every [template_parts] row references a stored template: the foreign
    key on [template_id]. *)
Definition template_links_ok (d : db) : Prop :=
  ∀ t p q, template_parts d !! (t, p) = Some q → is_Some (product_templates d !! t).

(** Every [template_parts] row references a stored part: the foreign key on
    [part_id]. *)
Definition part_links_ok (d : db) : Prop :=
  ∀ t p q, template_parts d !! (t, p) = Some q → is_Some (parts d !! p).

(** The supplied parts name stored parts, each at most once. *)
Definition supplied_parts_ok (d : db) (ps : list ProductTemplate.part_input) : Prop :=
  NoDup (map ProductTemplate.input_part_id ps)
  ∧ ∀ p, p ∈ ps → is_Some (parts d !! ProductTemplate.input_part_id p).

(** The row [create] stores for [td] under the name [name] with [n] colors. *)
Definition stores_template (td : ProductTemplate.data) (name : string) (n : Z)
    (row : template_row) : Prop :=
  template_name row = name
  ∧ template_description row = or_null (ProductTemplate.data_description td)
  ∧ num_colors row = n
  ∧ print_time_minutes row = or_int (ProductTemplate.data_print_time_minutes td) 0
  ∧ print_cost row = or_num (ProductTemplate.data_print_cost td) 0%Q
  ∧ template_is_active row = 1.

(** [d'] is [d] with one more template [row] under the new key [id] and
    one [template_parts] row for each of [ps], and nothing else changed. *)
Definition template_created (d d' : db) (id : Z) (row : template_row)
    (ps : list ProductTemplate.part_input) : Prop :=
  product_templates d !! id = None
  ∧ product_templates d' = <[id := row]> (product_templates d)
  ∧ (∀ p, p ∈ ps →
       template_parts d' !! (id, ProductTemplate.input_part_id p)
       = Some (or_int (ProductTemplate.input_quantity p) 1))
  ∧ (∀ pid q, template_parts d' !! (id, pid) = Some q →
       ∃ p, p ∈ ps ∧ ProductTemplate.input_part_id p = pid)
  ∧ (∀ t pid, t ≠ id → template_parts d' !! (t, pid) = template_parts d !! (t, pid))
  ∧ colors d' = colors d ∧ parts d' = parts d ∧ orders d' = orders d
  ∧ products d' = products d ∧ items d' = items d
  ∧ item_parts d' = item_parts d ∧ status_history d' = status_history d.

(** The part line [getById] shows for a supplied part. *)
Definition line_of (d : db) (p : ProductTemplate.part_input) (l : ProductTemplate.part_line)
  : Prop :=
  ∃ r, parts d !! ProductTemplate.input_part_id p = Some r
       ∧ l = {| ProductTemplate.line_part_id := ProductTemplate.input_part_id p;
                ProductTemplate.line_part_code := part_code r;
                ProductTemplate.line_part_name := part_name r;
                ProductTemplate.line_description := part_description r;
                ProductTemplate.line_quantity :=
                  or_int (ProductTemplate.input_quantity p) 1 |}.

(** The [template_parts] table after the loop of [create] ran over [ps]. *)
Definition add_links (t : Z) (ps : list ProductTemplate.part_input)
    (m : gmap (Z * Z) Z) : gmap (Z * Z) Z :=
  foldl (fun acc p =>
           <[(t, ProductTemplate.input_part_id p)
             := or_int (ProductTemplate.input_quantity p) 1]> acc) m ps.

(** The part line of the link [(t, pid) ↦ q] joined with the part row [r]. *)
Definition joined_line (pid q : Z) (r : part_row) : ProductTemplate.part_line :=
  {| ProductTemplate.line_part_id := pid;
     ProductTemplate.line_part_code := part_code r;
     ProductTemplate.line_part_name := part_name r;
     ProductTemplate.line_description := part_description r;
     ProductTemplate.line_quantity := q |}.

(** The four fields the two template queries share, NULL as [None]. *)
Definition part_tuple : Type := option Z * option string * option string * option Z.

(** A field of a parsed object read as a nullable integer, and as a
    nullable text. *)
Definition json_int (v : option Json.value) : option Z :=
  match v with
  | Some (Json.Number z) => Some z
  | _ => None
  end.

Definition json_text (v : option Json.value) : option string :=
  match v with
  | Some (Json.Str s) => Some s
  | _ => None
  end.

(** The tuple of a part object of [getAll], and of a part line of
    [getById]. *)
Definition tuple_of_json (v : Json.value) : part_tuple :=
  (json_int (Json.get "part_id" v), json_text (Json.get "part_code" v),
   json_text (Json.get "part_name" v), json_int (Json.get "quantity" v)).

Definition tuple_of_line (l : ProductTemplate.part_line) : part_tuple :=
  (Some (ProductTemplate.line_part_id l), ProductTemplate.line_part_code l,
   Some (ProductTemplate.line_part_name l), Some (ProductTemplate.line_quantity l)).

(** The parts [getAll] shows for template [t], as tuples. *)
Definition listed_tuples (t : Z) (r : outcome (list ProductTemplate.listed))
  : option (list part_tuple) :=
  match r with
  | Return ls =>
      match filter (fun l => ProductTemplate.listed_id l = t) ls with
      | l :: _ =>
          match ProductTemplate.listed_parts l with
          | Json.Array vs => Some (map tuple_of_json vs)
          | _ => None
          end
      | [] => None
      end
  | Throw _ => None
  end.

(** The parts [getById] shows for template [t], as tuples. *)
Definition detail_tuples (r : option ProductTemplate.detail) : option (list part_tuple) :=
  (fun det => map tuple_of_line (ProductTemplate.detail_parts det)) <$> r.

(** The JSON object SQLite builds from the all-NULL row of the LEFT JOIN. *)
Definition null_part : Json.value :=
  Json.Object [("part_id", Json.Null); ("part_code", Json.Null);
               ("part_name", Json.Null); ("quantity", Json.Null)].

(** Every stored order carries one of the three platform texts. *)
Definition platforms_ok (d : db) : Prop :=
  ∀ id o, orders d !! id = Some o → ∃ p, platform o = Orders.platform_text p.

(** The platform bound by a write is none of the three. *)
Definition foreign_platform (v : Orders.values) : Prop :=
  ∀ p, Orders.v_platform v ≠ Some (Orders.platform_text p).

(** Values for a new order that satisfy every constraint but, possibly,
    the one on [platform]. *)
Definition order_values (number customer platform ship_by : string) : Orders.values :=
  {| Orders.v_order_number := Some number;
     Orders.v_customer_name := Some customer;
     Orders.v_platform := Some platform;
     Orders.v_order_notes := None;
     Orders.v_ship_by_date := Some ship_by;
     Orders.v_is_express := Omitted |}.

(** Every stored item carries the text of one of the six states. *)
Definition statuses_ok (d : db) : Prop :=
  ∀ id it, items d !! id = Some it → ∃ st, status it = Workflow.status_text st.

(** The history row an operation appends for [itemId]. *)
Definition history_entry (r : history_row) (now : string) (itemId : Z)
    (old : option string) (new : string) (why : string) : Prop :=
  history_item_id r = itemId ∧ old_status r = old ∧ new_status r = new
  ∧ reason r = Some why ∧ changed_at r = now.

(** [d'] is [d] after item [itemId], which held [it], moved to the state
    [target] at time [now]: the item's status and [updated_at] are written,
    its other columns and every other item are as before, and one history
    row is appended. *)
Definition advanced (d d' : db) (now : string) (itemId : Z) (it : item_row)
    (target : Workflow.Status) (why : option string) : Prop :=
  (∃ it', items d' !! itemId = Some it'
          ∧ status it' = Workflow.status_text target
          ∧ item_updated_at it' = now
          ∧ item_product_id it' = item_product_id it
          ∧ item_name it' = item_name it
          ∧ item_created_at it' = item_created_at it)
  ∧ (∀ j, j ≠ itemId → items d' !! j = items d !! j)
  ∧ (∃ r, status_history d' = (status_history d ++ [r])%list
          ∧ history_entry r now itemId (Some (status it))
              (Workflow.status_text target) (default "status advanced" why)).

(** [d'] is [d] with one more item under the new key [id], at the first
    state, and its first history row. *)
Definition item_created (d d' : db) (now : string) (productId : Z) (name : string)
    (id : Z) : Prop :=
  items d !! id = None
  ∧ items d' = <[id := {| item_product_id := productId; item_name := name;
                          status := Workflow.status_text Workflow.InQueue;
                          item_created_at := now; item_updated_at := now |}]> (items d)
  ∧ ∃ r, status_history d' = (status_history d ++ [r])%list
         ∧ history_item_id r = id ∧ old_status r = None
         ∧ new_status r = Workflow.status_text Workflow.InQueue
         ∧ reason r = Some "created" ∧ changed_at r = now.

(** The order number is one that parses as an integer. *)
Definition numeric (s : string) : Prop := is_Some (OrderNumber.parse_number s).

(** Some stored order carries the number [n]. *)
Definition number_in_use (d : db) (n : string) : Prop :=
  ∃ id o, orders d !! id = Some o ∧ order_number o = n.

(** The text that follows a value inside an object or an array. *)
Definition stops (rest : list ascii) : Prop :=
  ∃ c r, rest = c :: r ∧ (c = ","%char ∨ c = "}"%char).

(** The first character of an integer literal: a minus sign or a digit. *)
Definition number_start (c : ascii) : bool :=
  bool_decide (c = "-"%char) || bool_decide (is_Some (Json.digit_val c)).

(** The JSON value of a nullable INTEGER and of a nullable TEXT column. *)
Definition integer_value (x : option Z) : Json.value :=
  match x with
  | Some z => Json.Number z
  | None => Json.Null
  end.

Definition text_value (x : option string) : Json.value :=
  match x with
  | Some s => Json.Str s
  | None => Json.Null
  end.

(** The object [json_object] writes for one joined row. *)
Definition part_object (j : ProductTemplate.joined) : Json.value :=
  Json.Object [("part_id", integer_value (ProductTemplate.p_part_id j));
               ("part_code", text_value (ProductTemplate.p_part_code j));
               ("part_name", text_value (ProductTemplate.p_part_name j));
               ("quantity", integer_value (ProductTemplate.tp_quantity j))].




(** The column [g] of table [m] holds no value twice; NULL, as [None], is
    never a clash. *)
Definition unique_on {A B} (m : gmap Z A) (g : A → option B) : Prop :=
  ∀ i j r s c, m !! i = Some r → m !! j = Some s → g r = Some c → g s = Some c → i = j.

(** The UNIQUE columns of the catalogue tables hold no value twice. *)
Definition unique_keys (d : db) : Prop :=
  unique_on (colors d) (λ r, Some (color_name r))
  ∧ unique_on (parts d) part_code
  ∧ unique_on (parts d) (λ r, Some (part_name r))
  ∧ unique_on (product_templates d) (λ r, Some (template_name r)).

(** The same, as a check that can be run. *)
Definition unique_keys_check (d : db) : bool :=
  bool_decide (NoDup (omap (λ r, Some (color_name r.2)) (map_to_list (colors d))))
  && bool_decide (NoDup (omap (λ r, part_code r.2) (map_to_list (parts d))))
  && bool_decide (NoDup (omap (λ r, Some (part_name r.2)) (map_to_list (parts d))))
  && bool_decide (NoDup (omap (λ r, Some (template_name r.2))
                           (map_to_list (product_templates d)))).

(** The database outside the two template tables. *)
Definition same_outside_templates (d d' : db) : Prop :=
  colors d' = colors d ∧ colors_seq d' = colors_seq d
  ∧ parts d' = parts d ∧ parts_seq d' = parts_seq d
  ∧ orders d' = orders d ∧ orders_seq d' = orders_seq d
  ∧ products d' = products d ∧ products_seq d' = products_seq d
  ∧ items d' = items d ∧ items_seq d' = items_seq d
  ∧ item_parts d' = item_parts d
  ∧ status_history d' = status_history d
  ∧ status_history_seq d' = status_history_seq d.

(** Both foreign keys of [template_parts] hold. *)
Definition links_ok (d : db) : Prop := template_links_ok d ∧ part_links_ok d.

(** The same, as a check that can be run. *)
Definition links_ok_check (d : db) : bool :=
  forallb (λ e : (Z * Z) * Z,
             bool_decide (is_Some (product_templates d !! e.1.1))
             && bool_decide (is_Some (parts d !! e.1.2)))
          (map_to_list (template_parts d)).

(** The parts array [getAll] builds for a template with the given
    [template_parts] rows: one object per row, and one object of nulls when
    there is no row. *)
Definition listed_array (d : db) (es : list ((Z * Z) * Z)) : Json.value :=
  match es with
  | [] => Json.Array [null_part]
  | _ => Json.Array (map part_object (map (ProductTemplate.join_part d) es))
  end.

(** The key and the row of a listed template. *)
Definition listed_key (l : ProductTemplate.listed) : Z * template_row :=
  (ProductTemplate.listed_id l, ProductTemplate.listed_row l).

(** Two template rows that agree on every column but [is_active]. *)
Definition template_rest_equal (r r' : template_row) : Prop :=
  template_name r' = template_name r
  ∧ template_description r' = template_description r
  ∧ num_colors r' = num_colors r
  ∧ print_time_minutes r' = print_time_minutes r
  ∧ print_cost r' = print_cost r
  ∧ template_created_at r' = template_created_at r
  ∧ template_updated_at r' = template_updated_at r.

(** A run of template calls, each at its time. *)
Definition template_calls (cs : list (string * ProductTemplate.call)) (d : db) : db :=
  foldl (λ acc c, ProductTemplate.run c.1 c.2 acc) d cs.

(** What a field of [updates] does to a NOT NULL column and to a nullable
    one: a given value is stored as it is, a missing key leaves the column
    alone. *)
Definition column_after {A} (f : ProductTemplate.field A) (old new : A) : Prop :=
  match f with
  | ProductTemplate.Value a => new = a
  | _ => new = old
  end.

Definition nullable_after {A} (f : ProductTemplate.field A) (old new : option A) : Prop :=
  match f with
  | ProductTemplate.Absent => new = old
  | ProductTemplate.Null => new = None
  | ProductTemplate.Value a => new = Some a
  end.

(** The row [update] leaves for [old] at time [now]. *)
Definition template_edited (now : string) (u : ProductTemplate.updates)
    (old row : template_row) : Prop :=
  column_after (ProductTemplate.u_template_name u) (template_name old) (template_name row)
  ∧ nullable_after (ProductTemplate.u_description u)
      (template_description old) (template_description row)
  ∧ column_after (ProductTemplate.u_num_colors u) (num_colors old) (num_colors row)
  ∧ column_after (ProductTemplate.u_print_time_minutes u)
      (print_time_minutes old) (print_time_minutes row)
  ∧ column_after (ProductTemplate.u_print_cost u) (print_cost old) (print_cost row)
  ∧ template_is_active row = template_is_active old
  ∧ template_created_at row = template_created_at old
  ∧ template_updated_at row = now.

(** The object holds none of the allowed fields. *)
Definition no_field_given (u : ProductTemplate.updates) : Prop :=
  ProductTemplate.u_template_name u = ProductTemplate.Absent
  ∧ ProductTemplate.u_description u = ProductTemplate.Absent
  ∧ ProductTemplate.u_num_colors u = ProductTemplate.Absent
  ∧ ProductTemplate.u_print_time_minutes u = ProductTemplate.Absent
  ∧ ProductTemplate.u_print_cost u = ProductTemplate.Absent.

(** No NOT NULL column is set to [null]. *)
Definition no_null_given (u : ProductTemplate.updates) : Prop :=
  ProductTemplate.u_template_name u ≠ ProductTemplate.Null
  ∧ ProductTemplate.u_num_colors u ≠ ProductTemplate.Null
  ∧ ProductTemplate.u_print_time_minutes u ≠ ProductTemplate.Null
  ∧ ProductTemplate.u_print_cost u ≠ ProductTemplate.Null.

(** A given [num_colors] is within 1..4. *)
Definition num_colors_in_range (u : ProductTemplate.updates) : Prop :=
  ∀ n, ProductTemplate.u_num_colors u = ProductTemplate.Value n → 1 ≤ n ≤ 4.

(** A given [template_name] is not the name of another template. *)
Definition name_free_for (d : db) (t : Z) (u : ProductTemplate.updates) : Prop :=
  ∀ name j s, ProductTemplate.u_template_name u = ProductTemplate.Value name →
    j ≠ t → product_templates d !! j = Some s → template_name s ≠ name.

(** [getById] returns template [t] and shows the part line [l] for it. *)
Definition shows (d : db) (t : Z) (l : ProductTemplate.part_line) : Prop :=
  ∃ det, ProductTemplate.getById t d = Some det ∧ l ∈ ProductTemplate.detail_parts det.

(** The row [Color.update] leaves for [old] at time [now]: the columns of
    [cd], with [is_active] and [created_at] as they were. *)
Definition color_edited (now : string) (cd : Color.data) (old row : color_row) : Prop :=
  color_name row = Color.data_color_name cd
  ∧ hex_code row = Color.data_hex_code cd
  ∧ pantone_code row = or_null (Color.data_pantone_code cd)
  ∧ material_type row = or_null (Color.data_material_type cd)
  ∧ supplier row = or_null (Color.data_supplier cd)
  ∧ category row = or_null (Color.data_category cd)
  ∧ cost_per_gram row = Some (or_num (Color.data_cost_per_gram cd) 0%Q)
  ∧ stock_grams row = Some (or_num (Color.data_stock_grams cd) 0%Q)
  ∧ color_is_active row = color_is_active old
  ∧ color_created_at row = color_created_at old
  ∧ color_updated_at row = now.

(** A request body that passes the required-field check of the part
    routes. *)
Definition valid_part_body (b : Admin.part_body) : Prop :=
  falsy_str (Admin.body_part_code b) = false
  ∧ falsy_str (Admin.body_part_name b) = false.

(** The row [Part.create] stores for [pd]. *)
Definition stores_part (pd : Part.data) (row : part_row) : Prop :=
  part_code row = Part.data_part_code pd
  ∧ part_name row = Part.data_part_name pd
  ∧ part_description row = or_null (Part.data_description pd)
  ∧ part_is_active row = 1.

(** The row [Part.update] leaves for [old] at time [now]. *)
Definition part_edited (now : string) (pd : Part.data) (old row : part_row) : Prop :=
  part_code row = Part.data_part_code pd
  ∧ part_name row = Part.data_part_name pd
  ∧ part_description row = or_null (Part.data_description pd)
  ∧ part_is_active row = part_is_active old
  ∧ part_created_at row = part_created_at old
  ∧ part_updated_at row = now.

(** A stored part, other than the one under [self], holds the name of [pd]
    or the code [pd] gives. *)
Definition part_clash (d : db) (self : option Z) (pd : Part.data) : Prop :=
  ∃ j s, Some j ≠ self ∧ parts d !! j = Some s
         ∧ (part_name s = Part.data_part_name pd
            ∨ ∃ c, Part.data_part_code pd = Some c ∧ part_code s = Some c).

(** The row of [view_items_full] for item [i], its product and its order. *)
Definition full_row (i : Z) (it : item_row) (p : product_row) (o : order_row)
  : Views.item_full :=
  {| Views.full_item_id := i;
     Views.full_item_name := item_name it;
     Views.full_status := status it;
     Views.full_created_at := item_created_at it;
     Views.full_updated_at := item_updated_at it;
     Views.full_product_id := item_product_id it;
     Views.full_product_name := product_name p;
     Views.full_order_id := product_order_id p;
     Views.full_order_number := order_number o;
     Views.full_customer_name := customer_name o;
     Views.full_platform := platform o;
     Views.full_ship_by_date := ship_by_date o;
     Views.full_is_express := is_express o |}.

(** [n] is the number of keys that satisfy [P]. *)
Definition counts (n : Z) (P : Z → Prop) : Prop :=
  ∃ l : list Z, NoDup l ∧ (∀ x, x ∈ l ↔ P x) ∧ n = Z.of_nat (length l).

(** The product [p] belongs to the order, and the item [i] to one of the
    order's products. *)
Definition product_in_order (d : db) (orderId p : Z) : Prop :=
  ∃ row, products d !! p = Some row ∧ product_order_id row = orderId.

Definition item_in_order (d : db) (orderId i : Z) : Prop :=
  ∃ it, items d !! i = Some it ∧ product_in_order d orderId (item_product_id it).

(** The columns the production seed gives a color and a part. *)
Definition seeded_color (c : SeedProduction.color) (row : color_row) : Prop :=
  color_name row = SeedProduction.c_name c
  ∧ hex_code row = SeedProduction.c_hex c
  ∧ pantone_code row = None
  ∧ material_type row = Some (SeedProduction.c_material c)
  ∧ supplier row = Some (SeedProduction.c_supplier c)
  ∧ category row = Some (SeedProduction.c_category c)
  ∧ cost_per_gram row = Some (SeedProduction.c_cost c)
  ∧ stock_grams row = Some (SeedProduction.c_stock c)
  ∧ color_is_active row = 1.

Definition seeded_part (p : SeedProduction.part) (row : part_row) : Prop :=
  part_code row = Some (SeedProduction.p_code p)
  ∧ part_name row = SeedProduction.p_name p
  ∧ part_description row = Some (SeedProduction.p_desc p)
  ∧ part_is_active row = 1.





(** ** A small database used for examples

    Two colors, an active part and a soft-deleted one, and one template
    that has no parts yet. *)

Definition example_time : string := "2025-10-20 09:00:00".

Definition example_color (name hex : string) : color_row :=
  {| color_name := name; hex_code := hex; pantone_code := None;
     material_type := Some "PLA"; supplier := Some "Bambu Lab";
     category := Some "Matte"; cost_per_gram := Some 0%Q; stock_grams := Some 0%Q;
     color_is_active := 1;
     color_created_at := example_time; color_updated_at := example_time |}.

Definition example_part (code name : string) (active : Z) : part_row :=
  {| part_code := Some code; part_name := name; part_description := None;
     part_is_active := active;
     part_created_at := example_time; part_updated_at := example_time |}.

Definition example_template : template_row :=
  {| template_name := "Token Box"; template_description := None;
     num_colors := 2; print_time_minutes := 90; print_cost := 3%Q;
     template_is_active := 1;
     template_created_at := example_time; template_updated_at := example_time |}.

Definition example_db : db :=
  {| colors := <[2 := example_color "Blue" "#0078BF"]>
                 (<[1 := example_color "Red" "#DE4343"]> ∅);
     colors_seq := 2;
     parts := <[2 := example_part "TOK0025" "25mm Token" 0]>
                (<[1 := example_part "WM16001" "16mm Wound Marker 1D6" 1]> ∅);
     parts_seq := 2;
     orders := ∅; orders_seq := 0; products := ∅; products_seq := 0;
     items := ∅; items_seq := 0; item_parts := ∅;
     status_history := []; status_history_seq := 0;
     product_templates := <[1 := example_template]> ∅;
     product_templates_seq := 1;
     template_parts := ∅ |}.

(** The template of the example with the two parts attached. *)
Definition example_db_with_parts : db :=
  with_template_parts (<[(1, 2) := 25]> (<[(1, 1) := 16]> ∅)) example_db.

(** A request for a new template that names a part the store does not have. *)
Definition template_with_unknown_part : ProductTemplate.data :=
  {| ProductTemplate.data_template_name := Some "Marker Set";
     ProductTemplate.data_description := None;
     ProductTemplate.data_num_colors := Some 2;
     ProductTemplate.data_print_time_minutes := Some 120;
     ProductTemplate.data_print_cost := None;
     ProductTemplate.data_parts :=
       Some [ {| ProductTemplate.input_part_id := 99;
                 ProductTemplate.input_quantity := Some 1 |} ] |}.

(** A request for a new template with the two stored parts. *)
Definition template_with_known_parts : ProductTemplate.data :=
  {| ProductTemplate.data_template_name := Some "Marker Set";
     ProductTemplate.data_description := None;
     ProductTemplate.data_num_colors := Some 2;
     ProductTemplate.data_print_time_minutes := Some 120;
     ProductTemplate.data_print_cost := None;
     ProductTemplate.data_parts :=
       Some [ {| ProductTemplate.input_part_id := 1;
                 ProductTemplate.input_quantity := Some 16 |};
              {| ProductTemplate.input_part_id := 2;
                 ProductTemplate.input_quantity := None |} ] |}.

(** The example with one Etsy order numbered 007 and its product, before
    any item is entered. *)
Definition example_shop : db :=
  {| colors := colors example_db; colors_seq := colors_seq example_db;
     parts := parts example_db; parts_seq := parts_seq example_db;
     orders := <[1 := {| order_number := "007"; customer_name := "A. Customer";
                         platform := "Etsy"; order_notes := None;
                         ship_by_date := "2025-11-01"; is_express := 0;
                         is_archived := 0; order_created_at := example_time;
                         order_updated_at := example_time; shipped_at := None |}]> ∅;
     orders_seq := 1;
     products := <[1 := {| product_order_id := 1; product_name := "Token Box Set";
                           product_created_at := example_time;
                           product_updated_at := example_time |}]> ∅;
     products_seq := 1;
     items := ∅; items_seq := 0; item_parts := ∅;
     status_history := []; status_history_seq := 0;
     product_templates := product_templates example_db;
     product_templates_seq := product_templates_seq example_db;
     template_parts := template_parts example_db |}.

(** The shop after order entry created the first plate of the product. *)
Definition example_shop_with_item : db :=
  (Workflow.CreateItem example_time 1 "Plate A" example_shop).1.

Definition example_item : item_row :=
  {| item_product_id := 1; item_name := "Plate A"; status := "In Queue";
     item_created_at := example_time; item_updated_at := example_time |}.

(** Three calls on the plate: a valid advance, a skipped stage, a valid
    advance. *)
Definition example_advances : list Workflow.advance :=
  [ {| Workflow.at_time := "2025-10-20 10:00:00"; Workflow.on_item := 1;
       Workflow.to_status := Workflow.InPrintfarm; Workflow.with_reason := None |};
    {| Workflow.at_time := "2025-10-20 11:00:00"; Workflow.on_item := 1;
       Workflow.to_status := Workflow.Assembled; Workflow.with_reason := None |};
    {| Workflow.at_time := "2025-10-20 12:00:00"; Workflow.on_item := 1;
       Workflow.to_status := Workflow.Printed;
       Workflow.with_reason := Some "plate finished" |} ].

(** A request for a new color with the given name. *)
Definition example_new_color (name : string) : Color.data :=
  {| Color.data_color_name := name; Color.data_hex_code := "#3F8E43";
     Color.data_pantone_code := None; Color.data_material_type := Some "PLA";
     Color.data_supplier := Some "Bambu Lab"; Color.data_category := Some "";
     Color.data_cost_per_gram := None; Color.data_stock_grams := None |}.

(** A request for a new template that asks for five colors. *)
Definition template_with_five_colors : ProductTemplate.data :=
  {| ProductTemplate.data_template_name := Some "Marker Set";
     ProductTemplate.data_description := None;
     ProductTemplate.data_num_colors := Some 5;
     ProductTemplate.data_print_time_minutes := Some 120;
     ProductTemplate.data_print_cost := None;
     ProductTemplate.data_parts := None |}.

(** An update that renames the template, clears its description and sets a
    new print time. *)
Definition example_update : ProductTemplate.updates :=
  {| ProductTemplate.u_template_name := ProductTemplate.Value "Token Tray";
     ProductTemplate.u_description := ProductTemplate.Null;
     ProductTemplate.u_num_colors := ProductTemplate.Absent;
     ProductTemplate.u_print_time_minutes := ProductTemplate.Value 95;
     ProductTemplate.u_print_cost := ProductTemplate.Absent |}.

(** An update that holds [num_colors] only, and one that holds no allowed
    field. *)
Definition update_num_colors (f : ProductTemplate.field Z) : ProductTemplate.updates :=
  {| ProductTemplate.u_template_name := ProductTemplate.Absent;
     ProductTemplate.u_description := ProductTemplate.Absent;
     ProductTemplate.u_num_colors := f;
     ProductTemplate.u_print_time_minutes := ProductTemplate.Absent;
     ProductTemplate.u_print_cost := ProductTemplate.Absent |}.

Definition empty_update : ProductTemplate.updates :=
  update_num_colors ProductTemplate.Absent.

(** A request for a new template without parts, under the given name. *)
Definition template_named (name : string) : ProductTemplate.data :=
  {| ProductTemplate.data_template_name := Some name;
     ProductTemplate.data_description := None;
     ProductTemplate.data_num_colors := Some 1;
     ProductTemplate.data_print_time_minutes := Some 30;
     ProductTemplate.data_print_cost := None;
     ProductTemplate.data_parts := None |}.

(** The body of a color request and of a part request. *)
Definition example_color_body (name : string) : Admin.color_body :=
  {| Admin.body_color_name := Some name; Admin.body_hex_code := Some "#3F8E43";
     Admin.body_pantone_code := None; Admin.body_material_type := Some "PLA";
     Admin.body_supplier := Some "Bambu Lab"; Admin.body_category := Some "";
     Admin.body_cost_per_gram := None; Admin.body_stock_grams := None |}.

Definition example_part_body (code name : string) : Admin.part_body :=
  {| Admin.body_part_code := Some code; Admin.body_part_name := Some name;
     Admin.body_description := None |}.


(** ** Facts about the store primitives *)

Lemma max_rowid_bound {A} (m : gmap Z A) k v :
  m !! k = Some v → k ≤ max_rowid m.
Proof.
  intros Hk. unfold max_rowid.
  assert (Hin : k ∈ (map_to_list m).*1).
  { apply list_elem_of_fmap. exists (k, v). split; [done|].
    by apply elem_of_map_to_list. }
  induction ((map_to_list m).*1) as [|x l IH]; [inversion Hin|].
  apply elem_of_cons in Hin as [->|Hin]; simpl; [lia|].
  specialize (IH Hin). lia.
Qed.

Lemma next_rowid_fresh {A} (m : gmap Z A) seq : m !! next_rowid m seq = None.
Proof.
  destruct (m !! next_rowid m seq) eqn:E; [|done].
  apply max_rowid_bound in E. unfold next_rowid in E. lia.
Qed.

Lemma holds_true {A} (m : gmap Z A) P :
  holds m P = true ↔ ∃ k v, m !! k = Some v ∧ P v = true.
Proof.
  unfold holds. rewrite existsb_exists. split.
  - intros [[k v] [Hin HP]]. exists k, v. split; [|done].
    apply elem_of_map_to_list. by apply list_elem_of_In.
  - intros (k & v & Hk & HP). exists (k, v). split; [|done].
    apply list_elem_of_In. by apply elem_of_map_to_list.
Qed.

Lemma holds_false {A} (m : gmap Z A) P :
  holds m P = false ↔ ∀ k v, m !! k = Some v → P v = false.
Proof.
  split.
  - intros H k v Hk. destruct (P v) eqn:E; [|done].
    assert (holds m P = true) by (apply holds_true; eauto). congruence.
  - intros H. destruct (holds m P) eqn:E; [|done].
    apply holds_true in E as (k & v & Hk & HP). rewrite (H k v Hk) in HP. done.
Qed.

Lemma holds_besides_true {A} (m : gmap Z A) self P :
  holds_besides m self P = true ↔ ∃ k v, k ≠ self ∧ m !! k = Some v ∧ P v = true.
Proof.
  unfold holds_besides. rewrite existsb_exists. split.
  - intros [[k v] [Hin HP]]. apply andb_true_iff in HP as [Hne HP].
    apply bool_decide_eq_true in Hne. exists k, v. split_and!; [done| |done].
    apply elem_of_map_to_list. by apply list_elem_of_In.
  - intros (k & v & Hne & Hk & HP). exists (k, v). split.
    + apply list_elem_of_In. by apply elem_of_map_to_list.
    + apply andb_true_iff. split; [by apply bool_decide_eq_true|done].
Qed.

(** ** Soft delete of colors and parts *)

Lemma color_deactivate_existing d id r :
  colors d !! id = Some r → color_soft_delete d id r.
Proof.
  intros Hr. unfold color_soft_delete, Color.deactivate, Color.activate,
    Color.set_is_active, Color.getById.
  rewrite Hr. cbn [fst snd colors with_colors colors_seq].
  rewrite lookup_insert_eq. cbn [fst snd colors with_colors colors_seq].
  rewrite !lookup_insert_eq.
  split_and!.
  - done.
  - eexists. split; [reflexivity|]. by repeat split.
  - intros id' Hne. by rewrite lookup_insert_ne.
  - done.
  - by repeat split.
  - done.
  - eexists. split; [reflexivity|]. by repeat split.
Qed.

Lemma color_set_is_active_missing flag d id :
  colors d !! id = None → Color.set_is_active flag id d = (d, false).
Proof. intros H. unfold Color.set_is_active. by rewrite H. Qed.

Lemma same_outside_colors_with m s d : same_outside_colors d (with_colors m s d).
Proof. by repeat split. Qed.

Lemma same_outside_parts_with m s d : same_outside_parts d (with_parts m s d).
Proof. by repeat split. Qed.

Lemma keeps_rows_refl d : keeps_rows d d.
Proof. by repeat split. Qed.

Lemma keeps_rows_insert_color d id row s :
  keeps_rows d (with_colors (<[id := row]> (colors d)) s d).
Proof.
  split_and!; try done.
  intros id' H. cbn. rewrite lookup_insert. by case_decide.
Qed.

Lemma keeps_rows_insert_part d id row s :
  keeps_rows d (with_parts (<[id := row]> (parts d)) s d).
Proof.
  split_and!; try done.
  intros id' H. cbn. rewrite lookup_insert. by case_decide.
Qed.

Lemma color_run_keeps_rows now c d : keeps_rows d (Color.run now c d).
Proof.
  destruct c; cbn [Color.run]; try apply keeps_rows_refl.
  - unfold Color.create. destruct (Color.name_taken _ _); cbn [fst];
      [apply keeps_rows_refl | apply keeps_rows_insert_color].
  - unfold Color.update. destruct (colors d !! colorId); cbn [fst];
      [|apply keeps_rows_refl].
    destruct (Color.name_taken_besides _ _ _); cbn [fst];
      [apply keeps_rows_refl | apply keeps_rows_insert_color].
  - unfold Color.deactivate, Color.set_is_active.
    destruct (colors d !! colorId); cbn [fst];
      [apply keeps_rows_insert_color | apply keeps_rows_refl].
  - unfold Color.activate, Color.set_is_active.
    destruct (colors d !! colorId); cbn [fst];
      [apply keeps_rows_insert_color | apply keeps_rows_refl].
Qed.

Lemma part_deactivate_existing d id r :
  parts d !! id = Some r → part_soft_delete d id r.
Proof.
  intros Hr. unfold part_soft_delete, Part.deactivate, Part.activate,
    Part.set_is_active, Part.getById.
  rewrite Hr. cbn [fst snd parts with_parts parts_seq].
  rewrite lookup_insert_eq. cbn [fst snd parts with_parts parts_seq].
  rewrite !lookup_insert_eq.
  split_and!.
  - done.
  - eexists. split; [reflexivity|]. by repeat split.
  - intros id' Hne. by rewrite lookup_insert_ne.
  - done.
  - by repeat split.
  - done.
  - eexists. split; [reflexivity|]. by repeat split.
Qed.

Lemma part_set_is_active_missing flag d id :
  parts d !! id = None → Part.set_is_active flag id d = (d, false).
Proof. intros H. unfold Part.set_is_active. by rewrite H. Qed.

Lemma part_run_keeps_rows now c d : keeps_rows d (Part.run now c d).
Proof.
  destruct c; cbn [Part.run]; try apply keeps_rows_refl.
  - unfold Part.create. destruct (Part.unique_violation _ _ _); cbn [fst];
      [apply keeps_rows_refl | apply keeps_rows_insert_part].
  - unfold Part.update. destruct (parts d !! partId); cbn [fst];
      [|apply keeps_rows_refl].
    destruct (Part.unique_violation _ _ _); cbn [fst];
      [apply keeps_rows_refl | apply keeps_rows_insert_part].
  - unfold Part.deactivate, Part.set_is_active.
    destruct (parts d !! partId); cbn [fst];
      [apply keeps_rows_insert_part | apply keeps_rows_refl].
  - unfold Part.activate, Part.set_is_active.
    destruct (parts d !! partId); cbn [fst];
      [apply keeps_rows_insert_part | apply keeps_rows_refl].
Qed.

(** C8. For an existing color (resp. part) id, [deactivate] returns true,
    leaves the row readable by [getById] with [is_active] 0 and every other
    column as before, touches no other row and no other table, and a
    following [activate] returns true and puts [is_active] back to 1.  For an
    id that is not in the table both calls return false and the database is
    the same.  No call exported by either module removes a row. *)
Theorem soft_delete_only_flips_is_active :
  (∀ d id r, colors d !! id = Some r → color_soft_delete d id r)
  ∧ (∀ d id, colors d !! id = None →
       Color.deactivate id d = (d, false) ∧ Color.activate id d = (d, false))
  ∧ (∀ now c d, keeps_rows d (Color.run now c d))
  ∧ (∀ d id r, parts d !! id = Some r → part_soft_delete d id r)
  ∧ (∀ d id, parts d !! id = None →
       Part.deactivate id d = (d, false) ∧ Part.activate id d = (d, false))
  ∧ (∀ now c d, keeps_rows d (Part.run now c d)).
Proof.
  split_and!.
  - apply color_deactivate_existing.
  - intros d id H. split; by apply color_set_is_active_missing.
  - apply color_run_keeps_rows.
  - apply part_deactivate_existing.
  - intros d id H. split; by apply part_set_is_active_missing.
  - apply part_run_keeps_rows.
Qed.

(** ** Listings *)

#[local] Instance color_by_name_total : Total Color.by_name.
Proof. intros a b. unfold Color.by_name. apply String.le_total. Qed.

#[local] Instance color_by_name_trans : Transitive Color.by_name.
Proof. intros a b c. unfold Color.by_name. apply transitivity. Qed.

#[local] Instance part_by_name_total : Total Part.by_name.
Proof. intros a b. unfold Part.by_name. apply String.le_total. Qed.

#[local] Instance part_by_name_trans : Transitive Part.by_name.
Proof. intros a b c. unfold Part.by_name. apply transitivity. Qed.

Lemma sorted_filter_lists_exactly {A} (R : relation (Z * A))
    `{!RelDecision R, !Total R, !Transitive R}
    (m : gmap Z A) (P : Z * A → Prop) `{!∀ x, Decision (P x)} (Q : A → Prop) :
  (∀ id r, P (id, r) ↔ Q r) →
  lists_exactly R (merge_sort R (filter P (map_to_list m))) m Q.
Proof.
  intros HPQ. split_and!.
  - apply StronglySorted_merge_sort; apply _.
  - rewrite merge_sort_Permutation. apply NoDup_filter, NoDup_map_to_list.
  - intros id r. rewrite merge_sort_Permutation, list_elem_of_filter,
      elem_of_map_to_list, HPQ. tauto.
Qed.

Lemma sorted_all_lists_exactly {A} (R : relation (Z * A))
    `{!RelDecision R, !Total R, !Transitive R} (m : gmap Z A) :
  lists_exactly R (merge_sort R (map_to_list m)) m (λ _, True).
Proof.
  split_and!.
  - apply StronglySorted_merge_sort; apply _.
  - rewrite merge_sort_Permutation. apply NoDup_map_to_list.
  - intros id r. rewrite merge_sort_Permutation, elem_of_map_to_list. tauto.
Qed.

Lemma color_getAll_active d :
  lists_exactly Color.by_name (Color.getAll false d) (colors d)
    (λ r, color_is_active r = 1).
Proof.
  unfold Color.getAll, Color.order_by_name.
  apply sorted_filter_lists_exactly; [apply _..|].
  intros id r. unfold Color.is_active. cbn. by rewrite bool_decide_eq_true.
Qed.

Lemma color_getAll_everything d :
  lists_exactly Color.by_name (Color.getAll true d) (colors d) (λ _, True).
Proof. apply sorted_all_lists_exactly; apply _. Qed.

Lemma part_getAll_active d :
  lists_exactly Part.by_name (Part.getAll false d) (parts d)
    (λ r, part_is_active r = 1).
Proof.
  unfold Part.getAll, Part.order_by_name.
  apply sorted_filter_lists_exactly; [apply _..|].
  intros id r. unfold Part.is_active. cbn. by rewrite bool_decide_eq_true.
Qed.

Lemma part_getAll_everything d :
  lists_exactly Part.by_name (Part.getAll true d) (parts d) (λ _, True).
Proof. apply sorted_all_lists_exactly; apply _. Qed.

Lemma color_deactivated_listing d id r :
  colors d !! id = Some r →
  let d0 := (Color.deactivate id d).1 in
  (∀ r', (id, r') ∉ Color.getAll false d0)
  ∧ (id, Color.set_active 0 r) ∈ Color.getAll true d0.
Proof.
  intros Hr d0.
  assert (Hd0 : colors d0 !! id = Some (Color.set_active 0 r)).
  { unfold d0, Color.deactivate, Color.set_is_active. rewrite Hr. cbn.
    by rewrite lookup_insert_eq. }
  split.
  - intros r' Hin. apply (color_getAll_active d0) in Hin as [Hl Ha].
    rewrite Hd0 in Hl. injection Hl as <-. cbn in Ha. done.
  - by apply (color_getAll_everything d0).
Qed.

Lemma part_deactivated_listing d id r :
  parts d !! id = Some r →
  let d0 := (Part.deactivate id d).1 in
  (∀ r', (id, r') ∉ Part.getAll false d0)
  ∧ (id, Part.set_active 0 r) ∈ Part.getAll true d0.
Proof.
  intros Hr d0.
  assert (Hd0 : parts d0 !! id = Some (Part.set_active 0 r)).
  { unfold d0, Part.deactivate, Part.set_is_active. rewrite Hr. cbn.
    by rewrite lookup_insert_eq. }
  split.
  - intros r' Hin. apply (part_getAll_active d0) in Hin as [Hl Ha].
    rewrite Hd0 in Hl. injection Hl as <-. cbn in Ha. done.
  - by apply (part_getAll_everything d0).
Qed.

(** C10. [Color.getAll] and [Part.getAll] with [includeInactive = false]
    return exactly the rows whose [is_active] is 1, in ascending order of
    [color_name] (resp. [part_name]); with [includeInactive = true] they
    return every row in that order.  A deactivated row is therefore missing
    from the default listing and present in the full one. *)
Theorem getAll_lists_active_rows_by_name :
  (∀ d, lists_exactly Color.by_name (Color.getAll false d) (colors d)
          (λ r, color_is_active r = 1))
  ∧ (∀ d, lists_exactly Color.by_name (Color.getAll true d) (colors d) (λ _, True))
  ∧ (∀ d, lists_exactly Part.by_name (Part.getAll false d) (parts d)
            (λ r, part_is_active r = 1))
  ∧ (∀ d, lists_exactly Part.by_name (Part.getAll true d) (parts d) (λ _, True))
  ∧ (∀ d id r, colors d !! id = Some r →
       let d0 := (Color.deactivate id d).1 in
       (∀ r', (id, r') ∉ Color.getAll false d0)
       ∧ (id, Color.set_active 0 r) ∈ Color.getAll true d0)
  ∧ (∀ d id r, parts d !! id = Some r →
       let d0 := (Part.deactivate id d).1 in
       (∀ r', (id, r') ∉ Part.getAll false d0)
       ∧ (id, Part.set_active 0 r) ∈ Part.getAll true d0).
Proof.
  split_and!.
  - apply color_getAll_active.
  - apply color_getAll_everything.
  - apply part_getAll_active.
  - apply part_getAll_everything.
  - apply color_deactivated_listing.
  - apply part_deactivated_listing.
Qed.

(** ** Unique color names *)

Lemma color_name_taken_iff d name :
  Color.name_taken d name = true ↔ ∃ id r, colors d !! id = Some r ∧ color_name r = name.
Proof.
  unfold Color.name_taken. rewrite holds_true.
  split; intros (id & r & Hr & Hn); exists id, r; split; try done.
  - by apply bool_decide_eq_true in Hn.
  - by apply bool_decide_eq_true.
Qed.

Lemma color_create_duplicate now cd d id r :
  colors d !! id = Some r → color_name r = Color.data_color_name cd →
  Color.create now cd d
  = (d, Throw (SqliteError (Sqlite.UniqueFailed "colors.color_name"))).
Proof.
  intros Hr Hn. unfold Color.create.
  assert (Color.name_taken d (Color.data_color_name cd) = true) as ->; [|done].
  apply color_name_taken_iff. eauto.
Qed.

Lemma color_create_fresh now cd d :
  (∀ id r, colors d !! id = Some r → color_name r ≠ Color.data_color_name cd) →
  ∃ id row,
    let d' := with_colors (<[id := row]> (colors d)) id d in
    Color.create now cd d = (d', Return (Some (id, row)))
    ∧ colors d !! id = None
    ∧ Color.getById id d' = Some (id, row)
    ∧ stores_color cd row.
Proof.
  intros Hfresh. unfold Color.create.
  assert (Color.name_taken d (Color.data_color_name cd) = false) as ->.
  { destruct (Color.name_taken d _) eqn:E; [|done].
    apply color_name_taken_iff in E as (id & r & Hr & Hn). by destruct (Hfresh id r Hr). }
  exists (next_rowid (colors d) (colors_seq d)), (Color.new_row now cd).
  cbn zeta. unfold Color.getById. cbn [colors with_colors].
  rewrite lookup_insert_eq. split_and!; [done| |done|by repeat split].
  apply next_rowid_fresh.
Qed.

Lemma post_colors_valid now b d :
  valid_color_body b →
  Admin.post_colors now b d
  = match Color.create now (Admin.color_data b) d with
    | (d', Return color) =>
        (d', Return {| Admin.code := 201;
                       Admin.body := Admin.ColorBody color "Color created successfully" |})
    | (d', Throw e) =>
        if includes "UNIQUE constraint failed" (exn_message e)
        then (d', Return {| Admin.code := 409;
                            Admin.body := Admin.ErrorBody "Color with this name already exists" |})
        else (d', Throw e)
    end.
Proof. intros [H1 H2]. unfold Admin.post_colors. by rewrite H1, H2. Qed.

(** C6. Creating a color whose [color_name] is the name of a stored color
    throws the UNIQUE constraint failure on [colors.color_name], the route
    answers 409, and the database is the one it was; creating a color whose
    name no stored color has adds one row under a new id, leaves every other
    row and table alone, and returns that row, which the route sends back
    with 201. *)
Theorem create_color_rejects_duplicate_name :
  (∀ now cd d id r,
     colors d !! id = Some r → color_name r = Color.data_color_name cd →
     Color.create now cd d
     = (d, Throw (SqliteError (Sqlite.UniqueFailed "colors.color_name")))
     ∧ ∀ b, valid_color_body b → Admin.color_data b = cd →
         Admin.post_colors now b d
         = (d, Return {| Admin.code := 409;
                         Admin.body := Admin.ErrorBody "Color with this name already exists" |}))
  ∧ (∀ now cd d,
       (∀ id r, colors d !! id = Some r → color_name r ≠ Color.data_color_name cd) →
       ∃ id row,
         let d' := with_colors (<[id := row]> (colors d)) id d in
         Color.create now cd d = (d', Return (Some (id, row)))
         ∧ colors d !! id = None
         ∧ Color.getById id d' = Some (id, row)
         ∧ stores_color cd row
         ∧ ∀ b, valid_color_body b → Admin.color_data b = cd →
             Admin.post_colors now b d
             = (d', Return {| Admin.code := 201;
                              Admin.body := Admin.ColorBody (Some (id, row))
                                              "Color created successfully" |})).
Proof.
  split.
  - intros now cd d id r Hr Hn.
    pose proof (color_create_duplicate now cd d id r Hr Hn) as Hc.
    split; [done|]. intros b Hb <-. rewrite post_colors_valid by done.
    by rewrite Hc.
  - intros now cd d Hfresh.
    destruct (color_create_fresh now cd d Hfresh) as (id & row & Hc & Hnone & Hget & Hrow).
    exists id, row. cbn zeta in *. split_and!; try done.
    intros b Hb <-. rewrite post_colors_valid by done. by rewrite Hc.
Qed.

(** ** Creating product templates *)

Lemma num_colors_rejected_iff n :
  ProductTemplate.bad_num_colors n = true ↔ num_colors_rejected n.
Proof.
  unfold ProductTemplate.bad_num_colors, num_colors_rejected.
  destruct n as [z|]; [|by split; [left|]].
  rewrite !orb_true_iff, bool_decide_eq_true, !Z.ltb_lt. split.
  - intros H. right. exists z. split; [done|]. lia.
  - intros [H|(z' & [= <-] & H)]; [done|]. lia.
Qed.

Lemma add_links_cons t p ps m :
  add_links t (p :: ps) m
  = add_links t ps (<[(t, ProductTemplate.input_part_id p)
                      := or_int (ProductTemplate.input_quantity p) 1]> m).
Proof. reflexivity. Qed.

Lemma add_links_other t ps m t' pid :
  t' ≠ t → add_links t ps m !! (t', pid) = m !! (t', pid).
Proof.
  intros Hne. revert m. induction ps as [|p ps IH]; intros m; [done|].
  rewrite add_links_cons, IH. apply lookup_insert_ne. congruence.
Qed.

Lemma add_links_absent t ps m pid :
  pid ∉ map ProductTemplate.input_part_id ps →
  add_links t ps m !! (t, pid) = m !! (t, pid).
Proof.
  revert m. induction ps as [|p ps IH]; intros m Hnot; [done|].
  cbn in Hnot. apply not_elem_of_cons in Hnot as [Hne Hnot].
  rewrite add_links_cons, IH by done. apply lookup_insert_ne. congruence.
Qed.

Lemma add_links_present t ps m p :
  NoDup (map ProductTemplate.input_part_id ps) → p ∈ ps →
  add_links t ps m !! (t, ProductTemplate.input_part_id p)
  = Some (or_int (ProductTemplate.input_quantity p) 1).
Proof.
  revert m. induction ps as [|p0 ps IH]; intros m Hnd Hin; [inversion Hin|].
  cbn in Hnd. apply NoDup_cons in Hnd as [Hnot Hnd].
  rewrite add_links_cons.
  apply elem_of_cons in Hin as [->|Hin].
  - rewrite add_links_absent by done. apply lookup_insert_eq.
  - by apply IH.
Qed.

Lemma add_links_source t ps m pid q :
  add_links t ps m !! (t, pid) = Some q →
  m !! (t, pid) = Some q ∨ ∃ p, p ∈ ps ∧ ProductTemplate.input_part_id p = pid.
Proof.
  revert m. induction ps as [|p ps IH]; intros m H; [by left|].
  rewrite add_links_cons in H. apply IH in H as [H|(p' & Hin & Hp)].
  - rewrite lookup_insert in H. case_decide as Heq.
    + right. exists p. split; [apply elem_of_cons; by left|]. congruence.
    + by left.
  - right. exists p'. split; [apply elem_of_cons; by right|done].
Qed.

Lemma insert_parts_all t ps d1 :
  is_Some (product_templates d1 !! t) →
  (∀ p, p ∈ ps → is_Some (parts d1 !! ProductTemplate.input_part_id p)) →
  NoDup (map ProductTemplate.input_part_id ps) →
  (∀ p, p ∈ ps → template_parts d1 !! (t, ProductTemplate.input_part_id p) = None) →
  ProductTemplate.insert_parts t ps d1
  = (with_template_parts (add_links t ps (template_parts d1)) d1, Return ()).
Proof.
  revert d1. induction ps as [|p ps IH]; intros d1 Ht Hparts Hnd Hfree.
  - cbn. by destruct d1.
  - cbn [ProductTemplate.insert_parts]. unfold ProductTemplate.insert_template_part.
    rewrite (Hfree p) by (apply elem_of_cons; by left).
    unfold ProductTemplate.references_ok.
    rewrite !bool_decide_eq_true_2; [|apply Hparts, elem_of_cons; by left|done].
    cbn [andb]. cbn in Hnd. apply NoDup_cons in Hnd as [Hnot Hnd].
    rewrite IH; [done|done| | done |].
    + intros p' Hin. apply Hparts, elem_of_cons. by right.
    + intros p' Hin. cbn. rewrite lookup_insert_ne.
      * apply Hfree, elem_of_cons. by right.
      * intros [= Heq]. apply Hnot. rewrite Heq.
        apply list_elem_of_fmap. by exists p'.
Qed.

#[local] Instance line_by_name_total : Total ProductTemplate.line_by_name.
Proof. intros a b. unfold ProductTemplate.line_by_name. apply String.le_total. Qed.

#[local] Instance line_by_name_trans : Transitive ProductTemplate.line_by_name.
Proof. intros a b c. unfold ProductTemplate.line_by_name. apply transitivity. Qed.

Lemma links_elem t d e :
  e ∈ ProductTemplate.links t d ↔ template_parts d !! e.1 = Some e.2 ∧ e.1.1 = t.
Proof.
  unfold ProductTemplate.links. rewrite list_elem_of_filter.
  destruct e as [k q]. rewrite elem_of_map_to_list. cbn. tauto.
Qed.

Lemma getById_detail d t row :
  product_templates d !! t = Some row →
  ∃ det, ProductTemplate.getById t d = Some det
    ∧ ProductTemplate.detail_id det = t
    ∧ ProductTemplate.detail_row det = row
    ∧ StronglySorted ProductTemplate.line_by_name (ProductTemplate.detail_parts det)
    ∧ ∀ l, l ∈ ProductTemplate.detail_parts det
           ↔ ∃ pid q r, template_parts d !! (t, pid) = Some q
                        ∧ parts d !! pid = Some r ∧ l = joined_line pid q r.
Proof.
  intros Hrow. unfold ProductTemplate.getById. rewrite Hrow.
  eexists. split; [reflexivity|]. cbn. split_and!; [done|done| |].
  - apply StronglySorted_merge_sort; apply _.
  - intros l. rewrite merge_sort_Permutation, list_elem_of_omap. split.
    + intros ([[t' pid] q] & Hin & Hj). apply links_elem in Hin as [Hl Ht].
      cbn in Hl, Ht. subst t'. unfold ProductTemplate.inner_join in Hj. cbn in Hj.
      destruct (parts d !! pid) as [r|] eqn:Hr; [|done].
      injection Hj as <-. by exists pid, q, r.
    + intros (pid & q & r & Hl & Hr & ->). exists ((t, pid), q). split.
      * by apply links_elem.
      * unfold ProductTemplate.inner_join. cbn. by rewrite Hr.
Qed.

Lemma create_template_rejected now td d :
  num_colors_rejected (ProductTemplate.data_num_colors td) →
  (∃ msg, ProductTemplate.create now td d = (d, Throw (Error msg)))
  ∧ (∃ msg, Admin.post_templates now td d
            = (d, Return {| Admin.code := 400; Admin.body := Admin.ErrorBody msg |})).
Proof.
  intros Hbad. apply num_colors_rejected_iff in Hbad.
  unfold ProductTemplate.create, Admin.post_templates. rewrite Hbad.
  destruct (falsy_str _); split; eauto.
Qed.

Lemma create_template_atomic now td d d' e :
  ProductTemplate.create now td d = (d', Throw e) → d' = d.
Proof.
  unfold ProductTemplate.create, transaction.
  destruct (falsy_str _); [by intros [= <-]|].
  destruct (ProductTemplate.bad_num_colors _); [by intros [= <-]|].
  destruct (ProductTemplate.create_body _ _ _ _ _) as [d1 [a|e1]]; [done|].
  by intros [= <-].
Qed.

Lemma template_name_free d name :
  (∀ id r, product_templates d !! id = Some r → template_name r ≠ name) →
  holds (product_templates d) (fun r => bool_decide (template_name r = name)) = false.
Proof.
  intros Hfree. apply holds_false. intros k v Hk.
  apply bool_decide_eq_false. by apply (Hfree k).
Qed.

Lemma create_template_success now td d name n :
  ProductTemplate.data_template_name td = Some name → name ≠ "" →
  (∀ id r, product_templates d !! id = Some r → template_name r ≠ name) →
  ProductTemplate.data_num_colors td = Some n → 1 ≤ n ≤ 4 →
  template_links_ok d →
  supplied_parts_ok d (default [] (ProductTemplate.data_parts td)) →
  ∃ id row d' det,
    ProductTemplate.create now td d = (d', Return (Some det))
    ∧ template_created d d' id row (default [] (ProductTemplate.data_parts td))
    ∧ stores_template td name n row
    ∧ ProductTemplate.getById id d' = Some det
    ∧ ProductTemplate.detail_id det = id
    ∧ ProductTemplate.detail_row det = row
    ∧ (∀ l, l ∈ ProductTemplate.detail_parts det
            ↔ ∃ p, p ∈ default [] (ProductTemplate.data_parts td) ∧ line_of d p l).
Proof.
  intros Hname Hne Hfree Hn Hrange Hlinks [Hnd Hparts].
  set (ps := default [] (ProductTemplate.data_parts td)) in *.
  set (id := next_rowid (product_templates d) (product_templates_seq d)).
  set (row := {| template_name := name;
                 template_description := or_null (ProductTemplate.data_description td);
                 num_colors := n;
                 print_time_minutes := or_int (ProductTemplate.data_print_time_minutes td) 0;
                 print_cost := or_num (ProductTemplate.data_print_cost td) 0%Q;
                 template_is_active := 1;
                 template_created_at := now; template_updated_at := now |}).
  set (d1 := with_product_templates (<[id := row]> (product_templates d)) id d).
  set (d' := with_template_parts (add_links id ps (template_parts d1)) d1).
  assert (Hid : product_templates d !! id = None) by apply next_rowid_fresh.
  assert (Hnone : ∀ pid, template_parts d !! (id, pid) = None).
  { intros pid. destruct (template_parts d !! (id, pid)) eqn:E; [|done].
    apply Hlinks in E as [r Hr]. congruence. }
  assert (Hbody : ProductTemplate.create_body now name n td d = (d', Return id)).
  { unfold ProductTemplate.create_body, ProductTemplate.insert_template.
    assert ((1 <=? n) && (n <=? 4) = true) as ->.
    { apply andb_true_iff. split; apply Z.leb_le; lia. }
    cbn [negb]. rewrite template_name_free by done.
    fold id. fold row. fold d1. fold ps.
    rewrite insert_parts_all; [done| | done | done |].
    - cbn. rewrite lookup_insert_eq. eauto.
    - intros p _. apply Hnone. }
  assert (Hrow' : product_templates d' !! id = Some row).
  { cbn. apply lookup_insert_eq. }
  destruct (getById_detail d' id row Hrow') as (det & Hget & Hdid & Hdrow & _ & Hlines).
  exists id, row, d', det.
  split_and!; try done.
  - unfold ProductTemplate.create. rewrite Hname, Hn.
    assert (falsy_str (Some name) = false) as ->.
    { cbn. by apply bool_decide_eq_false. }
    assert (ProductTemplate.bad_num_colors (Some n) = false) as ->.
    { cbn. rewrite !orb_false_iff, bool_decide_eq_false, !Z.ltb_ge. lia. }
    change (default "" (Some name)) with name.
    change (default 0 (Some n)) with n.
    unfold transaction. rewrite Hbody. by rewrite Hget.
  - split_and!; try done.
    + intros p Hp. cbn. by apply add_links_present.
    + intros pid q Hq. cbn in Hq. apply add_links_source in Hq as [Hq|Hq]; [|done].
      by rewrite Hnone in Hq.
    + intros t pid Hne'. cbn. by apply add_links_other.
  - intros l. rewrite Hlines. split.
    + intros (pid & q & r & Hq & Hr & ->). cbn in Hq, Hr.
      pose proof Hq as Hsrc. apply add_links_source in Hsrc as [Hsrc|(p & Hp & <-)].
      { by rewrite Hnone in Hsrc. }
      rewrite add_links_present in Hq by done. injection Hq as <-.
      exists p. split; [done|]. by exists r.
    + intros (p & Hp & r & Hr & ->).
      exists (ProductTemplate.input_part_id p),
        (or_int (ProductTemplate.input_quantity p) 1), r.
      split_and!; [|done|done]. cbn. by apply add_links_present.
Qed.

Lemma post_templates_created now td d d' det :
  falsy_str (ProductTemplate.data_template_name td) = false →
  ProductTemplate.bad_num_colors (ProductTemplate.data_num_colors td) = false →
  ProductTemplate.create now td d = (d', Return det) →
  Admin.post_templates now td d
  = (d', Return {| Admin.code := 201;
                   Admin.body := Admin.TemplateBody det
                                   "Product template created successfully" |}).
Proof. intros H1 H2 Hc. unfold Admin.post_templates. by rewrite H1, H2, Hc. Qed.

(** C5, as the code has it.  [create] throws, and the route answers 400,
    whenever [num_colors] is missing or outside 1..4, and then the database
    is the one it was.  With [num_colors] in 1..4, a non-empty template name
    that no stored template has, and supplied parts that name stored parts,
    each once, [create] adds the template row and one [template_parts] row
    per supplied part (a missing or zero quantity stored as 1), changes
    nothing else, and returns the created template with those parts.  Any
    throw of [create] leaves the database as it was. *)
Theorem create_template_checks_num_colors :
  (∀ now td d,
     num_colors_rejected (ProductTemplate.data_num_colors td) →
     (∃ msg, ProductTemplate.create now td d = (d, Throw (Error msg)))
     ∧ (∃ msg, Admin.post_templates now td d
               = (d, Return {| Admin.code := 400; Admin.body := Admin.ErrorBody msg |})))
  ∧ (∀ now td d name n,
       ProductTemplate.data_template_name td = Some name → name ≠ "" →
       (∀ id r, product_templates d !! id = Some r → template_name r ≠ name) →
       ProductTemplate.data_num_colors td = Some n → 1 ≤ n ≤ 4 →
       template_links_ok d →
       supplied_parts_ok d (default [] (ProductTemplate.data_parts td)) →
       ∃ id row d' det,
         ProductTemplate.create now td d = (d', Return (Some det))
         ∧ Admin.post_templates now td d
           = (d', Return {| Admin.code := 201;
                            Admin.body := Admin.TemplateBody (Some det)
                                            "Product template created successfully" |})
         ∧ template_created d d' id row (default [] (ProductTemplate.data_parts td))
         ∧ stores_template td name n row
         ∧ ProductTemplate.getById id d' = Some det
         ∧ ProductTemplate.detail_id det = id
         ∧ ProductTemplate.detail_row det = row
         ∧ (∀ l, l ∈ ProductTemplate.detail_parts det
                 ↔ ∃ p, p ∈ default [] (ProductTemplate.data_parts td) ∧ line_of d p l))
  ∧ (∀ now td d d' e, ProductTemplate.create now td d = (d', Throw e) → d' = d).
Proof.
  split_and!.
  - apply create_template_rejected.
  - intros now td d name n Hname Hne Hfree Hn Hrange Hlinks Hps.
    destruct (create_template_success now td d name n) as
      (id & row & d' & det & Hc & Hrest); try done.
    exists id, row, d', det. split; [done|]. split; [|done].
    apply post_templates_created; [| |done].
    + rewrite Hname. cbn. by apply bool_decide_eq_false.
    + rewrite Hn. cbn. rewrite !orb_false_iff, bool_decide_eq_false, !Z.ltb_ge. lia.
  - apply create_template_atomic.
Qed.

(** C5 as stated fails: with [num_colors] 2 and a template name no stored
    template has, a supplied part id the store does not know makes [create]
    throw the FOREIGN KEY failure, and no row is created. *)
Lemma create_template_unknown_part_throws :
  ProductTemplate.data_num_colors template_with_unknown_part = Some 2
  ∧ holds (product_templates example_db)
      (fun r => bool_decide (Some (template_name r)
                             = ProductTemplate.data_template_name template_with_unknown_part))
    = false
  ∧ ProductTemplate.create example_time template_with_unknown_part example_db
    = (example_db, Throw (SqliteError Sqlite.ForeignKeyFailed)).
Proof. split_and!; [reflexivity| vm_compute; reflexivity | vm_compute; reflexivity]. Qed.

(** ** Attaching parts to templates *)

Lemma addPart_existing d t pid q :
  is_Some (product_templates d !! t) → is_Some (parts d !! pid) →
  ProductTemplate.addPart t pid q d
  = (with_template_parts (<[(t, pid) := default 1 q]> (template_parts d)) d, Return true).
Proof.
  intros Ht Hp. unfold ProductTemplate.addPart, ProductTemplate.references_ok.
  by rewrite !bool_decide_eq_true_2.
Qed.

Lemma addPart_dangling d t pid q :
  product_templates d !! t = None ∨ parts d !! pid = None →
  ProductTemplate.addPart t pid q d = (d, Throw (SqliteError Sqlite.ForeignKeyFailed)).
Proof.
  intros H. unfold ProductTemplate.addPart, ProductTemplate.references_ok.
  destruct H as [H|H]; rewrite H.
  - rewrite (bool_decide_eq_false_2 (is_Some None)); [done|]. by intros [? ?].
  - rewrite (bool_decide_eq_false_2 (is_Some None)), andb_false_r; [done|]. by intros [? ?].
Qed.

(** C7, as the code has it.  [addPart] does not look at [is_active]: for a
    stored template and a stored part, active or soft-deleted, it writes the
    [(template, part)] row with the quantity and returns true, and the route
    answers 200; when the template or the part is not stored it throws the
    FOREIGN KEY failure and the database is the one it was. *)
Theorem addPart_ignores_is_active :
  (∀ d t pid r q,
     is_Some (product_templates d !! t) → parts d !! pid = Some r →
     ProductTemplate.addPart t pid q d
     = (with_template_parts (<[(t, pid) := default 1 q]> (template_parts d)) d, Return true)
     ∧ (pid ≠ 0 →
        Admin.post_template_parts t (Some pid) q d
        = (with_template_parts (<[(t, pid) := or_int q 1]> (template_parts d)) d,
           Return {| Admin.code := 200;
                     Admin.body := Admin.MessageBody "Part added to template successfully" |})))
  ∧ (∀ d t pid q,
       product_templates d !! t = None ∨ parts d !! pid = None →
       ProductTemplate.addPart t pid q d = (d, Throw (SqliteError Sqlite.ForeignKeyFailed))).
Proof.
  split.
  - intros d t pid r q Ht Hp. split.
    + apply addPart_existing; [done|by eexists].
    + intros Hne. unfold Admin.post_template_parts.
      assert (or_int (Some pid) 0 = pid) as ->.
      { cbn. by destruct (decide (pid = 0)). }
      rewrite bool_decide_eq_false_2 by done.
      rewrite addPart_existing; [done|done|by eexists].
  - apply addPart_dangling.
Qed.

(** C7 as stated fails: part 2 of the example is soft-deleted, and attaching
    it to template 1 succeeds and adds the association row. *)
Lemma addPart_accepts_inactive_part :
  part_is_active <$> parts example_db !! 2 = Some 0
  ∧ template_parts example_db !! (1, 2) = None
  ∧ ∃ d', ProductTemplate.addPart 1 2 (Some 25) example_db = (d', Return true)
          ∧ template_parts d' !! (1, 2) = Some 25.
Proof.
  split_and!; [reflexivity|reflexivity|].
  eexists. split; [vm_compute; reflexivity|reflexivity].
Qed.

(** ** The two readings of a template's parts *)

Lemma links_none t d :
  (∀ pid, template_parts d !! (t, pid) = None) → ProductTemplate.links t d = [].
Proof.
  intros Hnone. apply elem_of_nil_inv. intros [[t' pid] q] Hin.
  apply links_elem in Hin as [Hl Ht]. cbn in Hl, Ht. subst t'.
  by rewrite Hnone in Hl.
Qed.

(** For every template without [template_parts] rows, the LEFT JOIN of
    [getAll] yields one all-NULL row, [json_object] turns it into an object
    of nulls, and the guard on [parts_json] sees a non-empty text: the listed
    parts are one object of nulls although [part_count] is 0, while
    [getById] returns no parts. *)
Lemma template_without_parts d t row :
  product_templates d !! t = Some row →
  (∀ pid, template_parts d !! (t, pid) = None) →
  (∃ text, ProductTemplate.list_one d (t, row)
           = Return {| ProductTemplate.listed_id := t;
                       ProductTemplate.listed_row := row;
                       ProductTemplate.part_count := 0;
                       ProductTemplate.parts_json := Some text;
                       ProductTemplate.listed_parts := Json.Array [null_part] |})
  ∧ (ProductTemplate.detail_parts <$> ProductTemplate.getById t d) = Some [].
Proof.
  intros Hrow Hnone. split.
  - eexists. unfold ProductTemplate.list_one, ProductTemplate.left_join.
    cbn [fst snd]. rewrite (links_none t d Hnone). vm_compute. reflexivity.
  - unfold ProductTemplate.getById. rewrite Hrow. cbn.
    by rewrite (links_none t d Hnone).
Qed.

(** C9 at the failing input: the example database holds one active template
    and no [template_parts] row.  [getAll] lists that template with one part
    whose four fields are null, [getById] returns it with no parts, so the
    two part lists are not equal as multisets and the list of [getAll] is
    not empty. *)
Theorem getAll_invents_null_part :
  template_parts example_db = ∅
  ∧ listed_tuples 1 (ProductTemplate.getAll false example_db)
    = Some [(None, None, None, None)]
  ∧ detail_tuples (ProductTemplate.getById 1 example_db) = Some []
  ∧ (ProductTemplate.part_count <$>
       match ProductTemplate.getAll false example_db with
       | Return ls => head ls
       | Throw _ => None
       end) = Some 0.
Proof. split_and!; vm_compute; reflexivity. Qed.

(** With parts attached the two readings agree: the same tuples, in the
    order each query produces them. *)
Example getAll_agrees_when_parts_exist :
  ∃ from_getAll from_getById,
    listed_tuples 1 (ProductTemplate.getAll false example_db_with_parts) = Some from_getAll
    ∧ detail_tuples (ProductTemplate.getById 1 example_db_with_parts) = Some from_getById
    ∧ from_getAll ≡ₚ from_getById.
Proof.
  eexists _, _. split_and!; [vm_compute; reflexivity..|]. apply perm_swap.
Qed.

(** ** The platform of an order *)

Lemma platform_texts s :
  s ∈ Orders.platforms ↔ ∃ p, s = Orders.platform_text p.
Proof.
  unfold Orders.platforms. split.
  - rewrite !elem_of_cons, elem_of_nil. intros [->|[->|[->|[]]]].
    + by exists Orders.Shopify.
    + by exists Orders.Etsy.
    + by exists Orders.CustomOrder.
  - intros [[] ->]; cbn; rewrite !elem_of_cons; tauto.
Qed.

Lemma platform_check_some s :
  Orders.platform_check (Some s) = true ↔ ∃ p, s = Orders.platform_text p.
Proof.
  unfold Orders.platform_check, Sqlite.in_list, Sqlite.check_passes.
  rewrite <- platform_texts. case_bool_decide; split; try done.
Qed.

Lemma violation_foreign_platform m skip v :
  foreign_platform v → is_Some (Orders.violation m skip v).
Proof.
  intros Hf. unfold Orders.violation.
  destruct (Orders.v_order_number v); [|by eexists].
  destruct (Orders.v_customer_name v); [|by eexists].
  destruct (Orders.v_platform v) as [p|] eqn:Hp; [|by eexists].
  destruct (Orders.v_ship_by_date v); [|by eexists].
  destruct (Orders.platform_check (Some p)) eqn:Hc; [|by eexists].
  apply platform_check_some in Hc as [q ->]. by destruct (Hf q).
Qed.

Lemma violation_none_platform m skip v :
  Orders.violation m skip v = None →
  ∃ p, Orders.v_platform v = Some (Orders.platform_text p).
Proof.
  intros Hv. destruct (Orders.v_platform v) as [s|] eqn:Hp.
  - destruct (Orders.platform_check (Some s)) eqn:Hc.
    + apply platform_check_some in Hc as [q ->]. by exists q.
    + unfold Orders.violation in Hv. rewrite Hp, Hc in Hv.
      by destruct (Orders.v_order_number v), (Orders.v_customer_name v),
        (Orders.v_ship_by_date v).
  - unfold Orders.violation in Hv. rewrite Hp in Hv.
    by destruct (Orders.v_order_number v), (Orders.v_customer_name v).
Qed.

Lemma orders_run_platforms_ok w d : platforms_ok d → platforms_ok (Orders.run w d).
Proof.
  intros Hok. destruct w as [now v|now orderId v]; cbn [Orders.run].
  - unfold Orders.insert.
    destruct (Orders.violation (orders d) None v) eqn:Hv; [done|].
    apply violation_none_platform in Hv as [p Hp].
    intros id o. cbn. rewrite lookup_insert. case_decide.
    + intros [= <-]. exists p. cbn. by rewrite Hp.
    + apply Hok.
  - unfold Orders.update. destruct (orders d !! orderId) as [old|]; [|done].
    destruct (Orders.violation (orders d) (Some orderId) v) eqn:Hv; [done|].
    apply violation_none_platform in Hv as [p Hp].
    intros id o. cbn. rewrite lookup_insert. case_decide.
    + intros [= <-]. exists p. cbn. by rewrite Hp.
    + apply Hok.
Qed.

Lemma orders_writes_platforms_ok ws d :
  platforms_ok d → platforms_ok (foldl (fun acc w => Orders.run w acc) d ws).
Proof.
  revert d. induction ws as [|w ws IH]; intros d Hok; [done|].
  cbn. by apply IH, orders_run_platforms_ok.
Qed.

Lemma insert_accepts_platform now d number customer ship_by p :
  (∀ id o, orders d !! id = Some o → order_number o ≠ number) →
  ∃ id, (Orders.insert now (order_values number customer (Orders.platform_text p) ship_by) d).2
        = Return id
        ∧ platform <$> orders (Orders.insert now
                         (order_values number customer (Orders.platform_text p) ship_by) d).1
                       !! id
          = Some (Orders.platform_text p).
Proof.
  intros Hfree.
  assert (Hv : Orders.violation (orders d) None
                 (order_values number customer (Orders.platform_text p) ship_by) = None).
  { unfold Orders.violation, order_values, Orders.number_taken.
    cbn -[Orders.platform_check holds].
    assert (Orders.platform_check (Some (Orders.platform_text p)) = true) as ->.
    { apply platform_check_some. by exists p. }
    assert (holds (orders d) (λ r, bool_decide (order_number r = number)) = false) as ->.
    { apply holds_false. intros k o Ho. apply bool_decide_eq_false. by apply (Hfree k). }
    done. }
  unfold Orders.insert. rewrite Hv. cbn.
  eexists. split; [done|]. by rewrite lookup_insert_eq.
Qed.

(** C4. The platform of every stored order is one of the three values of
    the CHECK constraint, which are the texts of Shopify, Etsy and
    CustomOrder; this holds after any sequence of INSERT and UPDATE
    statements on [orders].  An INSERT, or an UPDATE of a stored order, that
    binds any other platform (NULL included) throws a constraint failure and
    leaves the database as it was, while each of the three values is
    accepted. *)
Theorem order_platform_is_one_of_three :
  (∀ s, s ∈ Orders.platforms ↔ ∃ p, s = Orders.platform_text p)
  ∧ (∀ ws, platforms_ok (foldl (fun acc w => Orders.run w acc) empty_db ws))
  ∧ (∀ w d, platforms_ok d → platforms_ok (Orders.run w d))
  ∧ (∀ now v d, foreign_platform v →
       ∃ e, Orders.insert now v d = (d, Throw (SqliteError e)))
  ∧ (∀ now orderId v d, is_Some (orders d !! orderId) → foreign_platform v →
       ∃ e, Orders.update now orderId v d = (d, Throw (SqliteError e)))
  ∧ (∀ now d number customer ship_by p,
       (∀ id o, orders d !! id = Some o → order_number o ≠ number) →
       ∃ id, (Orders.insert now
                (order_values number customer (Orders.platform_text p) ship_by) d).2
             = Return id
             ∧ platform <$> orders (Orders.insert now
                              (order_values number customer (Orders.platform_text p) ship_by)
                              d).1 !! id
               = Some (Orders.platform_text p)).
Proof.
  split_and!.
  - apply platform_texts.
  - intros ws. apply orders_writes_platforms_ok. intros id o Ho. cbn in Ho.
    by rewrite lookup_empty in Ho.
  - apply orders_run_platforms_ok.
  - intros now v d Hf. unfold Orders.insert.
    destruct (violation_foreign_platform (orders d) None v Hf) as [e ->]. by exists e.
  - intros now orderId v d [old Hold] Hf. unfold Orders.update. rewrite Hold.
    destruct (violation_foreign_platform (orders d) (Some orderId) v Hf) as [e ->].
    by exists e.
  - apply insert_accepts_platform.
Qed.

(** ** Item states *)

Lemma status_of_text_text s : Workflow.status_of_text (Workflow.status_text s) = Some s.
Proof. by destruct s. Qed.

Lemma status_of_text_Some t s :
  Workflow.status_of_text t = Some s → t = Workflow.status_text s.
Proof.
  unfold Workflow.status_of_text, Workflow.all_statuses.
  rewrite !filter_cons, filter_nil.
  repeat case_decide; cbn; intros [= <-]; done.
Qed.

Lemma status_text_inj s1 s2 :
  Workflow.status_text s1 = Workflow.status_text s2 → s1 = s2.
Proof.
  intros H. apply (f_equal Workflow.status_of_text) in H.
  rewrite !status_of_text_text in H. by injection H.
Qed.

Lemma status_texts s :
  s ∈ Items.statuses ↔ ∃ st, s = Workflow.status_text st.
Proof.
  unfold Items.statuses. split.
  - rewrite !elem_of_cons, elem_of_nil.
    intros [->|[->|[->|[->|[->|[->|[]]]]]]].
    + by exists Workflow.InQueue.
    + by exists Workflow.InPrintfarm.
    + by exists Workflow.Printed.
    + by exists Workflow.Assembled.
    + by exists Workflow.Packed.
    + by exists Workflow.Shipped.
  - intros [[] ->]; cbn; rewrite !elem_of_cons; tauto.
Qed.

Lemma status_violation_none s :
  Items.status_violation s = None ↔ ∃ st, s = Some (Workflow.status_text st).
Proof.
  unfold Items.status_violation, Items.status_check, Sqlite.in_list, Sqlite.check_passes.
  destruct s as [t|]; [|split; [done|by intros [? ?]]].
  case_bool_decide as Hin; rewrite status_texts in Hin; split; try done.
  - intros _. destruct Hin as [st ->]. by exists st.
  - intros [st [= ->]]. destruct Hin. by exists st.
Qed.

Lemma next_status_rank s s' :
  Workflow.next_status s = Some s' → Workflow.rank s' = S (Workflow.rank s).
Proof. destruct s; intros [= <-]; reflexivity. Qed.

Lemma insert_history_items now i old new why d :
  items (Items.insert_history now i old new why d).1 = items d.
Proof.
  unfold Items.insert_history. destruct new; [|done].
  by destruct (bool_decide _).
Qed.

Lemma items_run_statuses_ok w d : statuses_ok d → statuses_ok (Items.run w d).
Proof.
  intros Hok. destruct w as [now p name st|now itemId st]; cbn [Items.run].
  - unfold Items.insert.
    destruct (Items.status_violation _) eqn:Hv; [done|].
    apply status_violation_none in Hv as [s Hs].
    destruct (bool_decide _); [|done].
    intros id it. cbn. rewrite lookup_insert. case_decide.
    + intros [= <-]. exists s. cbn. by rewrite Hs.
    + apply Hok.
  - unfold Items.update_status. destruct (items d !! itemId) as [r|]; [|done].
    destruct (Items.status_violation st) eqn:Hv; [done|].
    apply status_violation_none in Hv as [s ->].
    intros id it. cbn. rewrite lookup_insert. case_decide.
    + intros [= <-]. by exists s.
    + apply Hok.
Qed.

Lemma CreateItem_done now p n d :
  is_Some (products d !! p) →
  ∃ id d', Workflow.CreateItem now p n d = (d', Workflow.Done id)
           ∧ item_created d d' now p n id.
Proof.
  intros Hp. unfold Workflow.CreateItem, transaction, Items.insert.
  cbn [column_value]. change (Items.status_violation (Some "In Queue")) with
    (@None Sqlite.constraint_error).
  rewrite bool_decide_eq_true_2 by done.
  unfold Items.insert_history. cbn [items with_items].
  rewrite bool_decide_eq_true_2 by (rewrite lookup_insert_eq; eauto).
  cbn [Workflow.report]. eexists _, _. split; [reflexivity|].
  split_and!.
  - apply next_rowid_fresh.
  - done.
  - eexists. split; [reflexivity|]. by repeat split.
Qed.

Lemma CreateItem_unknown_product now p n d :
  products d !! p = None →
  Workflow.CreateItem now p n d = (d, Workflow.Failed Workflow.NotFound).
Proof.
  intros Hp. unfold Workflow.CreateItem, transaction, Items.insert.
  cbn [column_value]. change (Items.status_violation (Some "In Queue")) with
    (@None Sqlite.constraint_error).
  rewrite Hp. rewrite bool_decide_eq_false_2; [done|]. by intros [? ?].
Qed.

Lemma CreateItem_statuses_ok now p n d :
  statuses_ok d → statuses_ok (Workflow.CreateItem now p n d).1.
Proof.
  intros Hok. destruct (products d !! p) eqn:Hp.
  - destruct (CreateItem_done now p n d) as (id & d' & -> & Hnew & Hitems & _); [eauto|].
    intros j it. cbn. rewrite Hitems, lookup_insert. case_decide.
    + intros [= <-]. by exists Workflow.InQueue.
    + apply Hok.
  - by rewrite CreateItem_unknown_product.
Qed.

Lemma AdvanceStatus_done now i target why d it cur :
  items d !! i = Some it → status it = Workflow.status_text cur →
  Workflow.next_status cur = Some target →
  ∃ d', Workflow.AdvanceStatus now i target why d = (d', Workflow.Done ())
        ∧ advanced d d' now i it target why.
Proof.
  intros Hit Hcur Hnext. unfold Workflow.AdvanceStatus. rewrite Hit, Hcur.
  rewrite status_of_text_text. cbn [mbind option_bind].
  rewrite decide_True by done.
  unfold transaction, Items.update_status. rewrite Hit.
  assert (Items.status_violation (Some (Workflow.status_text target)) = None) as ->.
  { apply status_violation_none. by exists target. }
  unfold Items.insert_history. cbn [items with_items].
  rewrite bool_decide_eq_true_2 by (rewrite lookup_insert_eq; eauto).
  cbn [Workflow.report]. eexists. split; [reflexivity|].
  split_and!.
  - eexists. cbn. rewrite lookup_insert_eq. split; [reflexivity|]. by repeat split.
  - intros j Hne. cbn. by rewrite lookup_insert_ne.
  - eexists. split; [reflexivity|]. rewrite Hcur. by repeat split.
Qed.

Lemma AdvanceStatus_invalid now i target why d it cur :
  items d !! i = Some it → status it = Workflow.status_text cur →
  Workflow.next_status cur ≠ Some target →
  Workflow.AdvanceStatus now i target why d
  = (d, Workflow.Failed Workflow.InvalidTransition).
Proof.
  intros Hit Hcur Hnext. unfold Workflow.AdvanceStatus. rewrite Hit, Hcur.
  rewrite status_of_text_text. cbn [mbind option_bind].
  by rewrite decide_False.
Qed.

(** What one call does to the store: nothing, or the move of its item. *)
Lemma run_advance_cases c d :
  Workflow.run_advance c d = d
  ∨ ∃ it cur, items d !! Workflow.on_item c = Some it
      ∧ status it = Workflow.status_text cur
      ∧ Workflow.next_status cur = Some (Workflow.to_status c)
      ∧ advanced d (Workflow.run_advance c d) (Workflow.at_time c) (Workflow.on_item c)
          it (Workflow.to_status c) (Workflow.with_reason c).
Proof.
  unfold Workflow.run_advance.
  destruct (items d !! Workflow.on_item c) as [it|] eqn:Hit.
  - destruct (Workflow.status_of_text (status it)) as [cur|] eqn:Hcur.
    + apply status_of_text_Some in Hcur.
      destruct (decide (Workflow.next_status cur = Some (Workflow.to_status c))) as [Hn|Hn].
      * right. exists it, cur. split_and!; try done.
        destruct (AdvanceStatus_done (Workflow.at_time c) _ _ (Workflow.with_reason c)
                    d it cur Hit Hcur Hn) as (d' & -> & Hadv). done.
      * left. by rewrite (AdvanceStatus_invalid _ _ _ _ _ it cur).
    + left. unfold Workflow.AdvanceStatus. rewrite Hit, Hcur. cbn.
      by rewrite decide_False.
  - left. unfold Workflow.AdvanceStatus. by rewrite Hit.
Qed.

Lemma run_advance_statuses_ok c d : statuses_ok d → statuses_ok (Workflow.run_advance c d).
Proof.
  intros Hok. destruct (run_advance_cases c d) as [->|(it & cur & Hit & Hcur & Hn & Hadv)];
    [done|].
  destruct Hadv as ((it' & Hit' & Hst & _) & Hother & _).
  intros j itj Hj. destruct (decide (j = Workflow.on_item c)) as [->|Hne].
  - rewrite Hit' in Hj. injection Hj as <-. by eexists.
  - rewrite Hother in Hj by done. by apply (Hok j).
Qed.

Lemma reachable_statuses_ok d : Workflow.reachable d → statuses_ok d.
Proof.
  induction 1 as [|d d' Hreach IH Hstep].
  - intros id it Hit. cbn in Hit. by rewrite lookup_empty in Hit.
  - destruct Hstep as [w d|now i old new why d|now p n d|c d|d d' Hsame].
    + by apply items_run_statuses_ok.
    + intros id it. rewrite insert_history_items. apply IH.
    + by apply CreateItem_statuses_ok.
    + by apply run_advance_statuses_ok.
    + intros id it. rewrite Hsame. apply IH.
Qed.

Lemma CreateItem_result now p n d id d' :
  Workflow.CreateItem now p n d = (d', Workflow.Done id) → item_created d d' now p n id.
Proof.
  intros Hc. destruct (products d !! p) eqn:Hp.
  - destruct (CreateItem_done now p n d) as (id0 & d0 & Hc0 & Hnew); [eauto|].
    rewrite Hc in Hc0. by injection Hc0 as -> ->.
  - by rewrite CreateItem_unknown_product in Hc.
Qed.

(** C2. The status of every item is the text of one of the six states,
    which are pairwise different, in every store reachable from the empty
    one by statements on [items], history inserts, item creation, status
    advances and anything that leaves [items] alone.  Creating an item for a
    stored product succeeds, and every successful creation stores the item
    with status InQueue and appends the history row (old_status NULL,
    new_status InQueue, reason "created"). *)
Theorem item_status_is_one_of_six :
  (∀ s, s ∈ Items.statuses ↔ ∃ st, s = Workflow.status_text st)
  ∧ (∀ s1 s2, Workflow.status_text s1 = Workflow.status_text s2 → s1 = s2)
  ∧ (∀ d, Workflow.reachable d → statuses_ok d)
  ∧ (∀ now p n d, is_Some (products d !! p) →
       ∃ id d', Workflow.CreateItem now p n d = (d', Workflow.Done id))
  ∧ (∀ now p n d id d',
       Workflow.CreateItem now p n d = (d', Workflow.Done id) →
       item_created d d' now p n id).
Proof.
  split_and!.
  - apply status_texts.
  - apply status_text_inj.
  - apply reachable_statuses_ok.
  - intros now p n d Hp. destruct (CreateItem_done now p n d Hp) as (id & d' & Hc & _).
    by exists id, d'.
  - apply CreateItem_result.
Qed.

(** ** Advancing items *)

Lemma history_of_app i (l1 l2 : list history_row) :
  Workflow.history_of i (l1 ++ l2)%list
  = (Workflow.history_of i l1 ++ Workflow.history_of i l2)%list.
Proof. apply filter_app. Qed.

Lemma run_advances_cons c cs d :
  Workflow.run_advances (c :: cs) d = Workflow.run_advances cs (Workflow.run_advance c d).
Proof. reflexivity. Qed.

Lemma run_advances_forward cs d i it cur :
  items d !! i = Some it → status it = Workflow.status_text cur →
  ∃ new final it',
    status_history (Workflow.run_advances cs d) = (status_history d ++ new)%list
    ∧ Workflow.forward_path cur (Workflow.history_of i new) final
    ∧ items (Workflow.run_advances cs d) !! i = Some it'
    ∧ status it' = Workflow.status_text final
    ∧ (Workflow.rank cur ≤ Workflow.rank final)%nat.
Proof.
  revert d it cur. induction cs as [|c cs IH]; intros d it cur Hit Hcur.
  - exists [], cur, it. cbn. rewrite app_nil_r. split_and!; try done. constructor.
  - rewrite run_advances_cons.
    destruct (run_advance_cases c d) as [->|(itc & curc & Hitc & Hcurc & Hn & Hadv)].
    { by apply (IH d it cur). }
    destruct Hadv as ((it1 & Hit1 & Hst1 & _) & Hother & (r & Hhist & Hr)).
    destruct Hr as (Hrid & Hrold & Hrnew & _).
    destruct (decide (Workflow.on_item c = i)) as [Hsame|Hdiff].
    + subst i. rewrite Hitc in Hit. injection Hit as ->.
      assert (curc = cur) as -> by (apply status_text_inj; congruence).
      destruct (IH _ it1 (Workflow.to_status c) Hit1 Hst1)
        as (new & final & it' & Hh & Hpath & Hit' & Hst' & Hrank).
      exists (r :: new), final, it'. split_and!; try done.
      * rewrite Hh, Hhist. by rewrite <- app_assoc.
      * unfold Workflow.history_of. rewrite filter_cons_True by done.
        apply (Workflow.path_step cur (Workflow.to_status c)); try done.
        by rewrite Hrold, Hcur.
      * apply next_status_rank in Hn. lia.
    + assert (Hit1' : items (Workflow.run_advance c d) !! i = Some it).
      { rewrite Hother by done. done. }
      destruct (IH _ it cur Hit1' Hcur)
        as (new & final & it' & Hh & Hpath & Hit' & Hst' & Hrank).
      exists (r :: new), final, it'. split_and!; try done.
      * rewrite Hh, Hhist. by rewrite <- app_assoc.
      * unfold Workflow.history_of. rewrite filter_cons_False by congruence. done.
Qed.

(** C1. For an item at state [cur], AdvanceStatus to [target] succeeds
    exactly when [target] is the immediate successor of [cur]; it then
    writes the item's status and updated_at and appends one history row from
    [cur] to [target].  In every other case it fails with InvalidTransition
    and the store is the one it was.  After any sequence of AdvanceStatus
    calls the history rows added for an item form a path that starts at the
    item's state and moves one stage forward with each row, ending at the
    state the item then has. *)
Theorem advance_status_only_to_successor :
  (∀ now i target why d it cur,
     items d !! i = Some it → status it = Workflow.status_text cur →
     ((∃ d', Workflow.AdvanceStatus now i target why d = (d', Workflow.Done ()))
      ↔ Workflow.next_status cur = Some target)
     ∧ (Workflow.next_status cur = Some target →
        ∃ d', Workflow.AdvanceStatus now i target why d = (d', Workflow.Done ())
              ∧ advanced d d' now i it target why)
     ∧ (Workflow.next_status cur ≠ Some target →
        Workflow.AdvanceStatus now i target why d
        = (d, Workflow.Failed Workflow.InvalidTransition)))
  ∧ (∀ cs d i it cur,
       items d !! i = Some it → status it = Workflow.status_text cur →
       ∃ new final it',
         status_history (Workflow.run_advances cs d) = (status_history d ++ new)%list
         ∧ Workflow.forward_path cur (Workflow.history_of i new) final
         ∧ items (Workflow.run_advances cs d) !! i = Some it'
         ∧ status it' = Workflow.status_text final
         ∧ (Workflow.rank cur ≤ Workflow.rank final)%nat).
Proof.
  split.
  - intros now i target why d it cur Hit Hcur. split_and!.
    + split.
      * intros [d' Hd']. destruct (decide (Workflow.next_status cur = Some target)); [done|].
        by rewrite (AdvanceStatus_invalid now i target why d it cur) in Hd'.
      * intros Hn. destruct (AdvanceStatus_done now i target why d it cur) as (d' & Hd' & _);
          try done. by exists d'.
    + by apply (AdvanceStatus_done now i target why d it cur).
    + by apply (AdvanceStatus_invalid now i target why d it cur).
  - apply run_advances_forward.
Qed.

(** ** Order numbers *)

Lemma render_nonempty n : OrderNumber.render n ≠ "".
Proof.
  unfold OrderNumber.render. destruct n as [|p]; [done|]. cbn.
  pose proof (DecimalPos.Unsigned.to_uint_nonnil p) as Hp.
  by destruct (Pos.to_uint p).
Qed.

Lemma parse_render n : OrderNumber.parse_number (OrderNumber.render n) = Some n.
Proof.
  unfold OrderNumber.parse_number. rewrite decide_False by apply render_nonempty.
  unfold OrderNumber.render. rewrite NilEmpty.usu. cbn.
  by rewrite DecimalN.Unsigned.of_to.
Qed.

Lemma parse_leading_zero s n :
  OrderNumber.parse_number s = Some n →
  OrderNumber.parse_number (String "0" s) = Some n.
Proof.
  unfold OrderNumber.parse_number. case_decide; [done|].
  rewrite decide_False by done. cbn [NilEmpty.uint_of_string].
  destruct (NilEmpty.uint_of_string s) as [u|]; [|done]. cbn. done.
Qed.

Lemma parse_zeros k s n :
  OrderNumber.parse_number s = Some n →
  OrderNumber.parse_number (OrderNumber.zeros k ++ s) = Some n.
Proof.
  intros H. induction k as [|k IH]; [done|]. cbn. by apply parse_leading_zero.
Qed.

Lemma parse_format n : OrderNumber.parse_number (OrderNumber.format n) = Some n.
Proof.
  unfold OrderNumber.format, OrderNumber.pad_start.
  destruct (n <=? 999)%N; [apply parse_zeros|]; apply parse_render.
Qed.

Lemma format_small_length n :
  (n ≤ 999)%N → String.length (OrderNumber.format n) = 3%nat.
Proof.
  intros Hn.
  assert (Hall : forallb (fun k => Nat.eqb (String.length (OrderNumber.format (N.of_nat k))) 3)
                   (seq 0 1000) = true) by (vm_compute; reflexivity).
  rewrite forallb_forall in Hall.
  specialize (Hall (N.to_nat n)). rewrite N2Nat.id in Hall.
  apply Nat.eqb_eq, Hall, in_seq. lia.
Qed.

Lemma format_large n : (999 < n)%N → OrderNumber.format n = OrderNumber.render n.
Proof.
  intros Hn. unfold OrderNumber.format.
  destruct (n <=? 999)%N eqn:E; [|done]. apply N.leb_le in E. lia.
Qed.

Lemma numeric_max_bound existing s n :
  s ∈ existing → OrderNumber.parse_number s = Some n →
  (n ≤ OrderNumber.numeric_max existing)%N.
Proof.
  intros Hin Hp. unfold OrderNumber.numeric_max.
  assert (Hn : n ∈ omap OrderNumber.parse_number existing).
  { apply list_elem_of_omap. by exists s. }
  induction (omap OrderNumber.parse_number existing) as [|x l IH]; [inversion Hn|].
  apply elem_of_cons in Hn as [->|Hn]; cbn; [lia|]. specialize (IH Hn). lia.
Qed.

Lemma numeric_max_attained existing :
  OrderNumber.numeric_max existing = 0%N
  ∨ ∃ s, s ∈ existing
         ∧ OrderNumber.parse_number s = Some (OrderNumber.numeric_max existing).
Proof.
  unfold OrderNumber.numeric_max.
  assert (Hsrc : ∀ n, n ∈ omap OrderNumber.parse_number existing →
                      ∃ s, s ∈ existing ∧ OrderNumber.parse_number s = Some n).
  { intros n Hn. by apply list_elem_of_omap in Hn. }
  induction (omap OrderNumber.parse_number existing) as [|x l IH]; [by left|].
  cbn. destruct (N.max_spec x (foldr N.max 0%N l)) as [[_ ->]|[_ ->]].
  - destruct IH as [IH|IH]; [|by left|by right].
    intros n Hn. apply Hsrc, elem_of_cons. by right.
  - right. apply Hsrc, elem_of_cons. by left.
Qed.

Lemma numeric_max_filter existing :
  OrderNumber.numeric_max (filter numeric existing) = OrderNumber.numeric_max existing.
Proof.
  unfold OrderNumber.numeric_max. f_equal.
  induction existing as [|s l IH]; [done|].
  rewrite filter_cons. unfold numeric at 1.
  destruct (decide (is_Some (OrderNumber.parse_number s))) as [[n Hn]|Hn].
  - cbn. rewrite Hn. by f_equal.
  - cbn. destruct (OrderNumber.parse_number s) eqn:E; [|done].
    destruct Hn. by eexists.
Qed.

Lemma next_order_number_value existing :
  OrderNumber.parse_number (OrderNumber.next_order_number existing)
  = Some (OrderNumber.numeric_max existing + 1)%N.
Proof. apply parse_format. Qed.

Lemma next_order_number_fresh existing :
  OrderNumber.next_order_number existing ∉ existing.
Proof.
  intros Hin. pose proof (next_order_number_value existing) as Hv.
  pose proof (numeric_max_bound _ _ _ Hin Hv). lia.
Qed.

Lemma number_in_use_existing d n :
  number_in_use d n ↔ n ∈ OrderNumber.existing_numbers d.
Proof.
  unfold number_in_use, OrderNumber.existing_numbers.
  change (map ?f ?l) with (f <$> l). rewrite list_elem_of_fmap. split.
  - intros (id & o & Ho & <-). exists (id, o). split; [done|].
    by apply elem_of_map_to_list.
  - intros ([id o] & -> & Hin). apply elem_of_map_to_list in Hin. by exists id, o.
Qed.

Lemma number_taken_iff d n :
  Orders.number_taken (orders d) None n = true ↔ number_in_use d n.
Proof.
  unfold Orders.number_taken, number_in_use. rewrite holds_true.
  split; intros (id & o & Ho & Hn); exists id, o; split; try done.
  - by apply bool_decide_eq_true in Hn.
  - by apply bool_decide_eq_true.
Qed.

Lemma CreateOrder_violation d number customer p notes ship_by express :
  Orders.violation (orders d) None
    {| Orders.v_order_number := Some number;
       Orders.v_customer_name := Some customer;
       Orders.v_platform := Some (Orders.platform_text p);
       Orders.v_order_notes := notes;
       Orders.v_ship_by_date := Some ship_by;
       Orders.v_is_express := Bound (Some (if express : bool then 1 else 0)) |}
  = if Orders.number_taken (orders d) None number
    then Some (Sqlite.UniqueFailed "orders.order_number")
    else None.
Proof.
  unfold Orders.violation. cbn -[Orders.platform_check Orders.number_taken].
  assert (Orders.platform_check (Some (Orders.platform_text p)) = true) as ->; [|done].
  apply platform_check_some. by exists p.
Qed.

Lemma CreateOrder_duplicate now n customer p notes ship_by express d :
  number_in_use d n →
  OrderNumber.CreateOrder now (Some n) customer p notes ship_by express d
  = (d, Workflow.Failed Workflow.DuplicateKey).
Proof.
  intros Huse. unfold OrderNumber.CreateOrder, Orders.insert.
  cbn [default from_option id]. rewrite CreateOrder_violation.
  apply number_taken_iff in Huse. by rewrite Huse.
Qed.

Lemma CreateOrder_generated now customer p notes ship_by express d :
  ¬ number_in_use d (OrderNumber.next_order_number (OrderNumber.existing_numbers d))
  ∧ ∃ id d',
      OrderNumber.CreateOrder now None customer p notes ship_by express d
      = (d', Workflow.Done id)
      ∧ orders d !! id = None
      ∧ order_number <$> orders d' !! id
        = Some (OrderNumber.next_order_number (OrderNumber.existing_numbers d)).
Proof.
  assert (Hfresh : ¬ number_in_use d
            (OrderNumber.next_order_number (OrderNumber.existing_numbers d))).
  { rewrite number_in_use_existing. apply next_order_number_fresh. }
  split; [done|].
  unfold OrderNumber.CreateOrder, Orders.insert.
  cbn [default from_option id]. rewrite CreateOrder_violation.
  destruct (Orders.number_taken _ _ _) eqn:Ht.
  { by apply number_taken_iff in Ht. }
  cbn [Workflow.report]. eexists _, _. split; [reflexivity|]. split.
  - apply next_rowid_fresh.
  - cbn. by rewrite lookup_insert_eq.
Qed.

Lemma next_order_number_first existing :
  (∀ s, s ∈ existing → ¬ numeric s) →
  OrderNumber.next_order_number existing = "001".
Proof.
  intros Hnone. unfold OrderNumber.next_order_number.
  destruct (numeric_max_attained existing) as [->|(s & Hin & Hs)]; [done|].
  destruct (Hnone s Hin). by eexists.
Qed.

(** C3. The generated order number is the decimal of one plus the largest
    existing order number that parses as an integer (of 1 when none does):
    it has exactly three characters while that value is at most 999, and is
    the unpadded decimal above; order numbers that do not parse have no
    effect on it.  It is never a number
    already in use, while an explicit order number that is in use, numeric
    or not, is refused with DuplicateKey.  From 001, 002, 007 the next
    number is 008, and with no numeric order number it is 001. *)
Theorem next_order_number_is_max_plus_one :
  (∀ existing,
     OrderNumber.parse_number (OrderNumber.next_order_number existing)
     = Some (OrderNumber.numeric_max existing + 1)%N)
  ∧ (∀ existing s n, s ∈ existing → OrderNumber.parse_number s = Some n →
       (n ≤ OrderNumber.numeric_max existing)%N)
  ∧ (∀ existing,
       OrderNumber.numeric_max existing = 0%N
       ∨ ∃ s, s ∈ existing
              ∧ OrderNumber.parse_number s = Some (OrderNumber.numeric_max existing))
  ∧ (∀ existing, (∀ s, s ∈ existing → ¬ numeric s) →
       OrderNumber.next_order_number existing = "001")
  ∧ (∀ n, (n ≤ 999)%N → String.length (OrderNumber.format n) = 3%nat)
  ∧ (∀ n, (999 < n)%N → OrderNumber.format n = OrderNumber.render n)
  ∧ (∀ existing, (OrderNumber.numeric_max existing + 1 ≤ 999)%N →
       String.length (OrderNumber.next_order_number existing) = 3%nat)
  ∧ (∀ existing, (999 < OrderNumber.numeric_max existing + 1)%N →
       OrderNumber.next_order_number existing
       = OrderNumber.render (OrderNumber.numeric_max existing + 1))
  ∧ (∀ existing,
       OrderNumber.next_order_number (filter numeric existing)
       = OrderNumber.next_order_number existing)
  ∧ OrderNumber.next_order_number ["001"; "002"; "007"] = "008"
  ∧ OrderNumber.next_order_number [] = "001"
  ∧ OrderNumber.next_order_number ["001"; "CUSTOM-1"; "002"; "007"] = "008"
  ∧ (∀ now n customer p notes ship_by express d, number_in_use d n →
       OrderNumber.CreateOrder now (Some n) customer p notes ship_by express d
       = (d, Workflow.Failed Workflow.DuplicateKey))
  ∧ (∀ now customer p notes ship_by express d,
       ¬ number_in_use d (OrderNumber.next_order_number (OrderNumber.existing_numbers d))
       ∧ ∃ id d',
           OrderNumber.CreateOrder now None customer p notes ship_by express d
           = (d', Workflow.Done id)
           ∧ orders d !! id = None
           ∧ order_number <$> orders d' !! id
             = Some (OrderNumber.next_order_number (OrderNumber.existing_numbers d))).
Proof.
  split_and!.
  - apply next_order_number_value.
  - apply numeric_max_bound.
  - apply numeric_max_attained.
  - apply next_order_number_first.
  - apply format_small_length.
  - apply format_large.
  - intros existing. apply format_small_length.
  - intros existing. apply format_large.
  - intros existing. unfold OrderNumber.next_order_number. by rewrite numeric_max_filter.
  - reflexivity.
  - reflexivity.
  - reflexivity.
  - apply CreateOrder_duplicate.
  - apply CreateOrder_generated.
Qed.

(** ** Reading back what [json_object] wrote *)

Lemma chars_app a b :
  list_ascii_of_string (a ++ b) = (list_ascii_of_string a ++ list_ascii_of_string b)%list.
Proof. induction a as [|c a IH]; [done|]. simpl. by rewrite IH. Qed.

Lemma string_body_escape_char c tail :
  Json.string_body (list_ascii_of_string (Json.escape_char c) ++ tail)%list
  = match Json.string_body tail with
    | Some (str, r) => Some (String c str, r)
    | None => None
    end.
Proof. destruct c as [[] [] [] [] [] [] [] []]; reflexivity. Qed.

Lemma string_body_escape s rest :
  Json.string_body (list_ascii_of_string (Json.escape s) ++ Json.dquote :: rest)%list
  = Some (s, rest).
Proof.
  induction s as [|c s IH]; [done|].
  cbn [Json.escape]. rewrite chars_app, <- app_assoc, string_body_escape_char.
  by rewrite IH.
Qed.

Lemma digits_of_uint d acc rest :
  stops rest →
  Json.digits (Z.pos acc) (list_ascii_of_string (NilEmpty.string_of_uint d) ++ rest)%list
  = (Z.pos (Pos.of_uint_acc d acc), rest).
Proof.
  intros (c & r & -> & Hc). revert acc.
  induction d as [|d IH|d IH|d IH|d IH|d IH|d IH|d IH|d IH|d IH|d IH]; intros acc;
    cbn [NilEmpty.string_of_uint list_ascii_of_string app Pos.of_uint_acc].
  { destruct Hc as [->| ->]; reflexivity. }
  all: cbn [Json.digits];
    match goal with
    | |- context [Json.digit_val ?ch] =>
        let v := eval vm_compute in (Json.digit_val ch) in
        change (Json.digit_val ch) with v
    end;
    cbn match; rewrite <- IH; f_equal; lia.
Qed.

(** The decimal of a positive number is not empty and has no leading zero. *)
Lemma to_uint_head p :
  Pos.to_uint p ≠ Decimal.Nil ∧ ∀ l, Pos.to_uint p ≠ Decimal.D0 l.
Proof.
  split; [apply DecimalPos.Unsigned.to_uint_nonnil|]. intros l Hl.
  assert (Hn : Decimal.unorm (Pos.to_uint p) = Pos.to_uint p).
  { rewrite <- DecimalPos.Unsigned.to_of, DecimalPos.Unsigned.of_to. reflexivity. }
  destruct (Decimal.nzhead (Pos.to_uint p)) eqn:Hh.
  { apply DecimalFacts.unorm_0 in Hh. rewrite Hn in Hh.
    by apply (DecimalPos.Unsigned.to_uint_nonzero p). }
  all: assert (Hz : Decimal.nzhead (Pos.to_uint p) ≠ Decimal.Nil) by (by rewrite Hh);
    apply DecimalFacts.unorm_nzhead in Hz; rewrite Hn, Hl in Hz;
    symmetry in Hz; by apply DecimalFacts.nzhead_nonzero in Hz.
Qed.

Lemma unsigned_of_pos p rest :
  stops rest →
  Json.unsigned (list_ascii_of_string (NilZero.string_of_uint (Pos.to_uint p)) ++ rest)%list
  = Some (Z.pos p, rest).
Proof.
  intros Hrest. destruct (to_uint_head p) as [Hnil Hzero].
  pose proof (DecimalPos.Unsigned.of_to p) as Hof.
  destruct (Pos.to_uint p) as [|l|l|l|l|l|l|l|l|l|l]; [done|by destruct (Hzero l)|..];
    cbn [NilZero.string_of_uint NilEmpty.string_of_uint list_ascii_of_string app
         Json.unsigned];
    cbn in Hof; injection Hof as <-.
  all: match goal with
       | |- context [Json.digit_val ?c] =>
           let v := eval vm_compute in (Json.digit_val c) in
           change (Json.digit_val c) with v
       end; cbn match; by rewrite digits_of_uint.
Qed.

Lemma number_lit_of_int z rest :
  stops rest →
  Json.number_lit (list_ascii_of_string (Json.of_int z) ++ rest)%list = Some (z, rest).
Proof.
  intros Hrest. pose proof Hrest as (c & r & -> & Hc).
  assert (Hnf : ∀ v, Json.no_fraction (v, c :: r) = Some (v, c :: r)).
  { intros v. by destruct Hc as [-> | ->]. }
  destruct z as [|p|p]; unfold Json.of_int; cbn [Z.to_int NilZero.string_of_int].
  - destruct Hc as [-> | ->]; reflexivity.
  - pose proof (unsigned_of_pos p (c :: r) Hrest) as Hu.
    destruct (to_uint_head p) as [Hnil Hzero].
    destruct (Pos.to_uint p) as [|l|l|l|l|l|l|l|l|l|l]; [done|by destruct (Hzero l)|..];
      cbn [NilZero.string_of_uint NilEmpty.string_of_uint list_ascii_of_string app] in *;
      unfold Json.number_lit; rewrite decide_False by done; by rewrite Hu, Hnf.
  - cbn [list_ascii_of_string app]. unfold Json.number_lit.
    rewrite decide_True by done. rewrite unsigned_of_pos by done. apply Hnf.
Qed.

Lemma parse_value_number f c t :
  number_start c = true →
  Json.parse_value (S f) (c :: t)
  = match Json.number_lit (c :: t) with
    | Some (z, rest) => Some (Json.Number z, rest)
    | None => None
    end.
Proof.
  destruct c as [[] [] [] [] [] [] [] []]; intros H; try discriminate H; reflexivity.
Qed.

Lemma of_int_head z :
  ∃ c t, list_ascii_of_string (Json.of_int z) = c :: t ∧ number_start c = true.
Proof.
  unfold Json.of_int. destruct z as [|p|p]; cbn [Z.to_int NilZero.string_of_int].
  - by eexists _, _.
  - destruct (to_uint_head p) as [Hnil Hzero].
    destruct (Pos.to_uint p) as [|l|l|l|l|l|l|l|l|l|l]; [done|by destruct (Hzero l)|..];
      by eexists _, _.
  - by eexists _, _.
Qed.

Lemma parse_value_of_int f z rest :
  stops rest →
  Json.parse_value (S f) (list_ascii_of_string (Json.of_int z) ++ rest)%list
  = Some (Json.Number z, rest).
Proof.
  intros Hrest. pose proof (number_lit_of_int z rest Hrest) as Hn.
  destruct (of_int_head z) as (c & t & Ht & Hc). rewrite Ht in *.
  cbn [app] in *. rewrite parse_value_number by done. by rewrite Hn.
Qed.

Lemma parse_value_string f t :
  Json.parse_value (S f) (Json.dquote :: t)
  = match Json.string_body t with
    | Some (str, rest) => Some (Json.Str str, rest)
    | None => None
    end.
Proof. reflexivity. Qed.

Lemma chars_quote s rest :
  (list_ascii_of_string (Json.quote s) ++ rest)%list
  = Json.dquote :: (list_ascii_of_string (Json.escape s) ++ Json.dquote :: rest)%list.
Proof.
  unfold Json.quote. cbn [list_ascii_of_string app]. rewrite chars_app, <- app_assoc.
  reflexivity.
Qed.

Lemma parse_value_quote f s rest :
  Json.parse_value (S f) (list_ascii_of_string (Json.quote s) ++ rest)%list
  = Some (Json.Str s, rest).
Proof. by rewrite chars_quote, parse_value_string, string_body_escape. Qed.

Lemma parse_value_null f rest :
  Json.parse_value (S f) (list_ascii_of_string "null" ++ rest)%list = Some (Json.Null, rest).
Proof. reflexivity. Qed.

Lemma parse_value_integer f x rest :
  stops rest →
  Json.parse_value (S f) (list_ascii_of_string (json_of_integer x) ++ rest)%list
  = Some (integer_value x, rest).
Proof.
  intros Hrest. destruct x as [z|]; [by apply parse_value_of_int|apply parse_value_null].
Qed.

Lemma parse_value_text f x rest :
  Json.parse_value (S f) (list_ascii_of_string (json_of_text x) ++ rest)%list
  = Some (text_value x, rest).
Proof. destruct x as [s|]; [apply parse_value_quote|apply parse_value_null]. Qed.

Lemma skip_ws_dquote t : Json.skip_ws (Json.dquote :: t) = Json.dquote :: t.
Proof. reflexivity. Qed.

Lemma skip_ws_colon t : Json.skip_ws (":"%char :: t) = ":"%char :: t.
Proof. reflexivity. Qed.

Lemma skip_ws_stops rest : stops rest → Json.skip_ws rest = rest.
Proof. intros (c & r & -> & [-> | ->]); reflexivity. Qed.

Lemma members_eq f key t :
  Json.members (S f) (list_ascii_of_string (Json.quote key) ++ ":"%char :: t)%list
  = match Json.parse_value f t with
    | Some (v, rest) =>
        match Json.skip_ws rest with
        | c :: rest' =>
            if decide (c = ","%char) then
              match Json.members f rest' with
              | Some (ms, rest'') => Some ((key, v) :: ms, rest'')
              | None => None
              end
            else if decide (c = "}"%char) then Some ([(key, v)], rest')
            else None
        | [] => None
        end
    | None => None
    end.
Proof.
  rewrite chars_quote. cbn [Json.members].
  rewrite skip_ws_dquote, decide_True by done.
  rewrite string_body_escape, skip_ws_colon, decide_True by done.
  reflexivity.
Qed.

Lemma part_json_chars j rest :
  (list_ascii_of_string (ProductTemplate.part_json j) ++ rest)%list
  = ("{"%char ::
     list_ascii_of_string (Json.quote "part_id") ++ ":"%char ::
     list_ascii_of_string (json_of_integer (ProductTemplate.p_part_id j)) ++ ","%char ::
     list_ascii_of_string (Json.quote "part_code") ++ ":"%char ::
     list_ascii_of_string (json_of_text (ProductTemplate.p_part_code j)) ++ ","%char ::
     list_ascii_of_string (Json.quote "part_name") ++ ":"%char ::
     list_ascii_of_string (json_of_text (ProductTemplate.p_part_name j)) ++ ","%char ::
     list_ascii_of_string (Json.quote "quantity") ++ ":"%char ::
     list_ascii_of_string (json_of_integer (ProductTemplate.tp_quantity j)) ++ "}"%char ::
     rest)%list.
Proof.
  unfold ProductTemplate.part_json, json_object.
  cbn [map join fst snd]. 
  repeat (rewrite ?chars_app; cbn [list_ascii_of_string app]; rewrite <- ?app_assoc).
  reflexivity.
Qed.

Lemma parse_value_brace f key t :
  Json.parse_value (S f) ("{"%char :: list_ascii_of_string (Json.quote key) ++ t)%list
  = match Json.members f (list_ascii_of_string (Json.quote key) ++ t)%list with
    | Some (ms, rest) => Some (Json.Object ms, rest)
    | None => None
    end.
Proof. rewrite chars_quote. reflexivity. Qed.

Lemma stops_comma t : stops (","%char :: t).
Proof. exists ","%char, t. auto. Qed.

Lemma stops_brace t : stops ("}"%char :: t).
Proof. exists "}"%char, t. auto. Qed.

Lemma members_more f key vtext v more :
  Json.parse_value f (vtext ++ ","%char :: more)%list = Some (v, ","%char :: more) →
  Json.members (S f)
    (list_ascii_of_string (Json.quote key) ++ ":"%char :: vtext ++ ","%char :: more)%list
  = match Json.members f more with
    | Some (ms, rest) => Some ((key, v) :: ms, rest)
    | None => None
    end.
Proof.
  intros Hv. rewrite members_eq, Hv, (skip_ws_stops _ (stops_comma more)).
  by rewrite decide_True.
Qed.

Lemma members_last f key vtext v rest :
  Json.parse_value f (vtext ++ "}"%char :: rest)%list = Some (v, "}"%char :: rest) →
  Json.members (S f)
    (list_ascii_of_string (Json.quote key) ++ ":"%char :: vtext ++ "}"%char :: rest)%list
  = Some ([(key, v)], rest).
Proof.
  intros Hv. rewrite members_eq, Hv, (skip_ws_stops _ (stops_brace rest)).
  rewrite decide_False by done. by rewrite decide_True.
Qed.

Lemma parse_value_part f j rest :
  Json.parse_value (6 + f) (list_ascii_of_string (ProductTemplate.part_json j) ++ rest)%list
  = Some (part_object j, rest).
Proof.
  rewrite part_json_chars.
  change (6 + f)%nat with (S (S (S (S (S (S f)))))).
  rewrite parse_value_brace.
  rewrite (members_more _ _ _ (integer_value (ProductTemplate.p_part_id j)))
    by apply parse_value_integer, stops_comma.
  rewrite (members_more _ _ _ (text_value (ProductTemplate.p_part_code j)))
    by apply parse_value_text.
  rewrite (members_more _ _ _ (text_value (ProductTemplate.p_part_name j)))
    by apply parse_value_text.
  rewrite (members_last _ _ _ (integer_value (ProductTemplate.tp_quantity j)))
    by apply parse_value_integer, stops_brace.
  reflexivity.
Qed.

Lemma part_json_length j : (1 ≤ length (list_ascii_of_string (ProductTemplate.part_json j)))%nat.
Proof.
  pose proof (part_json_chars j []) as H. rewrite app_nil_r in H. rewrite H.
  cbn [length]. lia.
Qed.

(** The array text [getAll] hands to [JSON.parse], without its brackets. *)
Lemma elements_parts js f rest :
  js ≠ [] →
  Json.elements (length js + 6 + f)
    (list_ascii_of_string (join "," (map ProductTemplate.part_json js))
     ++ "]"%char :: rest)%list
  = Some (map part_object js, rest).
Proof.
  induction js as [|j js IH]; [done|]. intros _.
  destruct js as [|j' js].
  - cbn [map join length]. change (1 + 6 + f)%nat with (S (6 + f)).
    cbn [Json.elements]. rewrite parse_value_part. reflexivity.
  - change (map ProductTemplate.part_json (j :: j' :: js))
      with (ProductTemplate.part_json j :: map ProductTemplate.part_json (j' :: js)).
    change (join "," (ProductTemplate.part_json j :: map ProductTemplate.part_json (j' :: js)))
      with (ProductTemplate.part_json j ++ "," ++
            join "," (map ProductTemplate.part_json (j' :: js))).
    rewrite !chars_app, <- !app_assoc. cbn [list_ascii_of_string app].
    change (length (j :: j' :: js) + 6 + f)%nat
      with (S (length (j' :: js) + 6 + f)).
    cbn [Json.elements].
    replace (length (j' :: js) + 6 + f)%nat with (6 + (length (j' :: js) + f))%nat at 1 by lia.
    rewrite parse_value_part, (skip_ws_stops _ (stops_comma _)), decide_True by done.
    rewrite IH by done. reflexivity.
Qed.

Lemma join_length js :
  (length js ≤ length (list_ascii_of_string (join "," (map ProductTemplate.part_json js))))%nat.
Proof.
  induction js as [|j js IH]; [done|].
  destruct js as [|j' js].
  - cbn [map join length]. pose proof (part_json_length j). lia.
  - change (map ProductTemplate.part_json (j :: j' :: js))
      with (ProductTemplate.part_json j :: map ProductTemplate.part_json (j' :: js)).
    change (join "," (ProductTemplate.part_json j :: map ProductTemplate.part_json (j' :: js)))
      with (ProductTemplate.part_json j ++ "," ++
            join "," (map ProductTemplate.part_json (j' :: js))).
    rewrite !chars_app, !length_app. pose proof (part_json_length j).
    cbn [length] in *. lia.
Qed.

Lemma parse_value_bracket f t :
  Json.parse_value (S f) ("["%char :: "{"%char :: t)
  = match Json.elements f ("{"%char :: t) with
    | Some (vs, rest) => Some (Json.Array vs, rest)
    | None => None
    end.
Proof. reflexivity. Qed.

Lemma join_head js :
  js ≠ [] →
  ∃ t, list_ascii_of_string (join "," (map ProductTemplate.part_json js)) = "{"%char :: t.
Proof.
  destruct js as [|j js]; [done|]. intros _. destruct js as [|j' js].
  - cbn [map join]. pose proof (part_json_chars j []) as H. rewrite app_nil_r in H.
    rewrite H. by eexists.
  - change (map ProductTemplate.part_json (j :: j' :: js))
      with (ProductTemplate.part_json j :: map ProductTemplate.part_json (j' :: js)).
    change (join "," (ProductTemplate.part_json j :: map ProductTemplate.part_json (j' :: js)))
      with (ProductTemplate.part_json j ++ "," ++
            join "," (map ProductTemplate.part_json (j' :: js))).
    rewrite chars_app, part_json_chars. by eexists.
Qed.

Lemma parse_parts_array js :
  js ≠ [] →
  Json.parse ("[" ++ join "," (map ProductTemplate.part_json js) ++ "]")
  = Some (Json.Array (map part_object js)).
Proof.
  intros Hne. unfold Json.parse.
  set (text := join "," (map ProductTemplate.part_json js)).
  assert (Hlen : (length js ≤ length (list_ascii_of_string text))%nat) by apply join_length.
  assert (Hjs : (1 ≤ length js)%nat) by (destruct js; [done|cbn; lia]).
  assert (Hs : list_ascii_of_string ("[" ++ text ++ "]")
               = "["%char :: (list_ascii_of_string text ++ ["]"%char])%list).
  { rewrite !chars_app. reflexivity. }
  rewrite Hs. clear Hs. cbn [length]. rewrite length_app. cbn [length].
  assert (Hfuel : ∃ f, (2 * S (length (list_ascii_of_string text) + 1) + 2)%nat
                       = S (length js + 6 + f)).
  { exists (2 * S (length (list_ascii_of_string text) + 1) + 2 - S (length js + 6))%nat. lia. }
  destruct Hfuel as [f ->].
  pose proof (elements_parts js f [] Hne) as He. fold text in He.
  destruct (join_head js Hne) as [t Ht]. fold text in Ht. rewrite Ht in *.
  cbn [app]. rewrite parse_value_bracket. cbn [app] in He. by rewrite He.
Qed.

Lemma group_concat_texts (js : list ProductTemplate.joined) :
  js ≠ [] →
  group_concat (map (fun j => Some (ProductTemplate.part_json j)) js)
  = Some (join "," (map ProductTemplate.part_json js)).
Proof.
  intros Hne. unfold group_concat.
  assert (omap id (map (fun j => Some (ProductTemplate.part_json j)) js)
          = map ProductTemplate.part_json js) as ->.
  { clear Hne. induction js as [|j js IH]; [done|]. cbn. by rewrite IH. }
  by destruct js.
Qed.

Lemma parse_parts_texts js :
  js ≠ [] →
  ProductTemplate.parse_parts (Some (join "," (map ProductTemplate.part_json js)))
  = Return (Json.Array (map part_object js)).
Proof.
  intros Hne. unfold ProductTemplate.parse_parts.
  destruct (join_head js Hne) as [t Ht].
  assert (falsy_str (Some (join "," (map ProductTemplate.part_json js))) = false) as ->.
  { cbn. apply bool_decide_eq_false. intros Hempty. by rewrite Hempty in Ht. }
  change (default "" (Some ?x)) with x.
  by rewrite parse_parts_array.
Qed.

Lemma list_one_with_parts d t row :
  ProductTemplate.links t d ≠ [] →
  ∃ l, ProductTemplate.list_one d (t, row) = Return l
       ∧ ProductTemplate.listed_id l = t
       ∧ ProductTemplate.listed_parts l
         = Json.Array (map part_object
                         (map (ProductTemplate.join_part d) (ProductTemplate.links t d))).
Proof.
  intros Hne. unfold ProductTemplate.list_one, ProductTemplate.left_join. cbn [fst snd].
  destruct (ProductTemplate.links t d) as [|e es] eqn:Hes; [done|].
  rewrite group_concat_texts by done. rewrite parse_parts_texts by done.
  by eexists.
Qed.

Lemma tuple_of_part_object j :
  tuple_of_json (part_object j)
  = (ProductTemplate.p_part_id j, ProductTemplate.p_part_code j,
     ProductTemplate.p_part_name j, ProductTemplate.tp_quantity j).
Proof.
  destruct j as [a b c e f]. unfold tuple_of_json, part_object. cbn.
  by destruct c, e, f, b.
Qed.

Lemma joined_tuples d es :
  (∀ e, e ∈ es → is_Some (parts d !! e.1.2)) →
  map tuple_of_json (map part_object (map (ProductTemplate.join_part d) es))
  = map tuple_of_line (omap (ProductTemplate.inner_join d) es).
Proof.
  induction es as [|e es IH]; intros Hparts; [done|].
  destruct (Hparts e) as [r Hr]; [apply elem_of_cons; by left|].
  assert (Hj : ProductTemplate.inner_join d e = Some (joined_line e.1.2 e.2 r)).
  { unfold ProductTemplate.inner_join. by rewrite Hr. }
  cbn [map]. rewrite IH by (intros e' He'; apply Hparts, elem_of_cons; by right).
  change (omap (ProductTemplate.inner_join d) (e :: es))
    with (match ProductTemplate.inner_join d e with
          | Some l => l :: omap (ProductTemplate.inner_join d) es
          | None => omap (ProductTemplate.inner_join d) es
          end).
  rewrite Hj. cbn [map]. f_equal.
  rewrite tuple_of_part_object. unfold ProductTemplate.join_part. cbn.
  by rewrite Hr.
Qed.

(** For a template that has parts, in a store whose links all reference
    stored parts, the part list of [getAll] and the one of [getById] hold
    the same tuples. *)
Lemma template_with_parts_agree d t row :
  product_templates d !! t = Some row →
  part_links_ok d →
  ProductTemplate.links t d ≠ [] →
  ∃ l det vs,
    ProductTemplate.list_one d (t, row) = Return l
    ∧ ProductTemplate.getById t d = Some det
    ∧ ProductTemplate.listed_parts l = Json.Array vs
    ∧ map tuple_of_json vs ≡ₚ map tuple_of_line (ProductTemplate.detail_parts det).
Proof.
  intros Hrow Hok Hne.
  destruct (list_one_with_parts d t row Hne) as (l & Hl & _ & Hparts).
  unfold ProductTemplate.getById. rewrite Hrow.
  eexists l, _, _. split_and!; [done|reflexivity|done|].
  cbn [ProductTemplate.detail_parts]. rewrite joined_tuples.
  - apply Permutation_map. symmetry. apply merge_sort_Permutation.
  - intros [[t' pid] q] He. apply links_elem in He as [He _]. cbn in *. by apply (Hok t' pid q).
Qed.

Lemma list_one_without_parts d t row :
  ProductTemplate.links t d = [] →
  ∃ l, ProductTemplate.list_one d (t, row) = Return l
       ∧ ProductTemplate.listed_id l = t
       ∧ ProductTemplate.part_count l = 0
       ∧ ProductTemplate.listed_parts l = Json.Array [null_part].
Proof.
  intros Hnone. unfold ProductTemplate.list_one, ProductTemplate.left_join.
  cbn [fst snd]. rewrite Hnone. vm_compute. by eexists.
Qed.

Lemma map_outcome_returns {A B} (f : A → outcome B) (l : list A) :
  (∀ x, x ∈ l → ∃ y, f x = Return y) →
  ∃ ys, ProductTemplate.map_outcome f l = Return ys
        ∧ ∀ y, y ∈ ys → ∃ x, x ∈ l ∧ f x = Return y.
Proof.
  induction l as [|x l IH]; intros Hall.
  - exists []. split; [done|]. intros y Hy. inversion Hy.
  - destruct (Hall x) as [y Hy]; [apply elem_of_cons; by left|].
    destruct IH as (ys & Hys & Hsrc).
    { intros x' Hx'. apply Hall, elem_of_cons. by right. }
    exists (y :: ys). cbn. rewrite Hy, Hys. split; [done|].
    intros y' Hy'. apply elem_of_cons in Hy' as [->|Hy'].
    + exists x. split; [apply elem_of_cons; by left|done].
    + destruct (Hsrc y' Hy') as (x' & Hx' & Hf). exists x'.
      split; [apply elem_of_cons; by right|done].
Qed.

(** [getAll] never throws; each template it lists is a stored one, and its
    parts are those of [getById] when the template has parts, and one object
    of nulls when it has none. *)
Lemma getAll_parts_characterised b d :
  part_links_ok d →
  ∃ ls, ProductTemplate.getAll b d = Return ls
    ∧ ∀ l, l ∈ ls →
        ∃ row det vs,
          product_templates d !! ProductTemplate.listed_id l = Some row
          ∧ ProductTemplate.getById (ProductTemplate.listed_id l) d = Some det
          ∧ ProductTemplate.listed_parts l = Json.Array vs
          ∧ (ProductTemplate.links (ProductTemplate.listed_id l) d ≠ [] →
             map tuple_of_json vs ≡ₚ map tuple_of_line (ProductTemplate.detail_parts det))
          ∧ (ProductTemplate.links (ProductTemplate.listed_id l) d = [] →
             vs = [null_part] ∧ ProductTemplate.detail_parts det = []).
Proof.
  intros Hok. unfold ProductTemplate.getAll.
  set (selected := if b then map_to_list (product_templates d)
                   else filter (λ t, template_is_active t.2 = 1)
                          (map_to_list (product_templates d))).
  assert (Hall : ∀ x, x ∈ merge_sort ProductTemplate.by_name selected →
                      ∃ y, ProductTemplate.list_one d x = Return y).
  { intros [t row] _. destruct (ProductTemplate.links t d) eqn:Hl.
    - destruct (list_one_without_parts d t row Hl) as (y & Hy & _). by exists y.
    - destruct (list_one_with_parts d t row) as (y & Hy & _); [by rewrite Hl|]. by exists y. }
  destruct (map_outcome_returns _ _ Hall) as (ls & Hls & Hsrc).
  exists ls. split; [done|]. intros l Hl.
  destruct (Hsrc l Hl) as ([t row] & Hin & Hone).
  assert (Hrow : product_templates d !! t = Some row).
  { rewrite merge_sort_Permutation in Hin. unfold selected in Hin. destruct b.
    - by apply elem_of_map_to_list in Hin.
    - apply list_elem_of_filter in Hin as [_ Hin]. by apply elem_of_map_to_list in Hin. }
  destruct (ProductTemplate.links t d) eqn:Hlinks.
  - destruct (list_one_without_parts d t row Hlinks) as (l' & Hl' & Hid & _ & Hparts).
    rewrite Hone in Hl'. injection Hl' as <-. rewrite Hid.
    exists row. unfold ProductTemplate.getById. rewrite Hrow.
    eexists _, [null_part]. split; [done|]. split; [reflexivity|]. split; [done|].
    split.
    + intros Hne. by destruct Hne.
    + intros _. cbn. by rewrite Hlinks.
  - assert (Hne : ProductTemplate.links t d ≠ []) by (by rewrite Hlinks).
    destruct (template_with_parts_agree d t row Hrow Hok Hne)
      as (l' & det & vs & Hl' & Hget & Hparts & Hperm).
    destruct (list_one_with_parts d t row Hne) as (l'' & Hl'' & Hid & _).
    rewrite Hone in Hl', Hl''. injection Hl' as <-. injection Hl'' as <-. rewrite Hid.
    exists row, det, vs. split_and!; done.
Qed.

(** ** LIKE with a pattern [%term%] *)





(** ** Searching by name *)



#[local] Instance template_by_name_total : Total ProductTemplate.by_name.
Proof. intros a b. unfold ProductTemplate.by_name. apply String.le_total. Qed.

#[local] Instance template_by_name_trans : Transitive ProductTemplate.by_name.
Proof. intros a b c. unfold ProductTemplate.by_name. apply transitivity. Qed.


(** ** The first color of a supplier *)

Lemma head_lists_exactly {A} (R : relation (Z * A)) `{!Total R}
    (l : list (Z * A)) (m : gmap Z A) (Q : A → Prop) :
  lists_exactly R l m Q →
  (head l = None ↔ ∀ id r, m !! id = Some r → ¬ Q r)
  ∧ (∀ id r, head l = Some (id, r) →
       m !! id = Some r ∧ Q r
       ∧ ∀ id' r', m !! id' = Some r' → Q r' → R (id, r) (id', r')).
Proof.
  intros (Hsorted & _ & Hin). split.
  - destruct l as [|[id r] l]; cbn.
    + split; [|done]. intros _ id r Hr HQ.
      assert (H : (id, r) ∈ @nil (Z * A)) by (by apply Hin). inversion H.
    + split; [done|]. intros Hnone.
      destruct (Hin id r) as [[Hr HQ] _]; [apply elem_of_cons; by left|].
      by destruct (Hnone id r Hr).
  - intros id r Hhead. destruct l as [|x l]; [done|]. injection Hhead as ->.
    destruct (Hin id r) as [[Hr HQ] _]; [apply elem_of_cons; by left|].
    split_and!; [done..|]. intros id' r' Hr' HQ'.
    assert (H : (id', r') ∈ (id, r) :: l) by (by apply Hin).
    apply elem_of_cons in H as [->|H].
    + by destruct (total R (id, r) (id, r)).
    + apply StronglySorted_inv in Hsorted as [_ Hall].
      rewrite Forall_forall in Hall. by apply Hall.
Qed.

(** X4.  [Color.getBySupplier] returns one row, not a
    list: the active color of the supplier that comes first by name, and
    nothing when the supplier has no active color. *)
Theorem getBySupplier_returns_first_active :
  (∀ sup d,
     Color.getBySupplier sup d = None
     ↔ ∀ id r, colors d !! id = Some r → ¬ (supplier r = Some sup ∧ color_is_active r = 1))
  ∧ (∀ sup d id r,
       Color.getBySupplier sup d = Some (id, r) →
       colors d !! id = Some r ∧ supplier r = Some sup ∧ color_is_active r = 1
       ∧ ∀ id' r', colors d !! id' = Some r' →
           supplier r' = Some sup → color_is_active r' = 1 →
           Color.by_name (id, r) (id', r')).
Proof.
  assert (Hlist : ∀ sup d,
    lists_exactly Color.by_name
      (Color.order_by_name
         (filter (λ r : Color.t, bool_decide (supplier r.2 = Some sup)
                                 && Color.is_active r = true)
                 (map_to_list (colors d))))
      (colors d) (λ r, supplier r = Some sup ∧ color_is_active r = 1)).
  { intros sup d. apply sorted_filter_lists_exactly; [apply _..|].
    intros id r. cbn. unfold Color.is_active. cbn.
    by rewrite andb_true_iff, !bool_decide_eq_true. }
  split.
  - intros sup d. apply (head_lists_exactly _ _ _ _ (Hlist sup d)).
  - intros sup d id r Hhead.
    destruct (head_lists_exactly _ _ _ _ (Hlist sup d)) as [_ H].
    destruct (H id r Hhead) as (Hr & [Hs Ha] & Hmin). split_and!; [done..|].
    intros id' r' Hr' Hs' Ha'. by apply Hmin.
Qed.

(** ** The UNIQUE columns *)

Lemma unique_on_NoDup {A B} (m : gmap Z A) (g : A → option B) :
  NoDup (omap (λ r : Z * A, g r.2) (map_to_list m)) → unique_on m g.
Proof.
  intros Hnd i j r s c Hi Hj Hr Hs.
  apply elem_of_map_to_list in Hi, Hj.
  assert (Heq : (i, r) = (j, s)); [|by injection Heq].
  revert Hnd Hi Hj. generalize (map_to_list m). intros l.
  induction l as [|a l IH]; intros Hnd Hi Hj; [inversion Hi|].
  assert (Hin : ∀ x : Z * A, x ∈ l → g x.2 = Some c → c ∈ omap (λ r : Z * A, g r.2) l).
  { intros x Hx Hg. apply list_elem_of_omap. by exists x. }
  cbn in Hnd. apply elem_of_cons in Hi as [Hi|Hi], Hj as [Hj|Hj].
  - congruence.
  - subst a. cbn in Hnd. rewrite Hr in Hnd. apply NoDup_cons in Hnd as [Hnot _].
    destruct Hnot. by apply (Hin (j, s)).
  - subst a. cbn in Hnd. rewrite Hs in Hnd. apply NoDup_cons in Hnd as [Hnot _].
    destruct Hnot. by apply (Hin (i, r)).
  - apply IH; [|done..]. destruct (g a.2); [by apply NoDup_cons in Hnd as [_ ?]|done].
Qed.

Lemma unique_keys_checked d : unique_keys_check d = true → unique_keys d.
Proof.
  unfold unique_keys_check. rewrite !andb_true_iff, !bool_decide_eq_true.
  intros [[[H1 H2] H3] H4]. split_and!; by apply unique_on_NoDup.
Qed.

Lemma unique_on_insert {A B} (m : gmap Z A) (g : A → option B) k v :
  unique_on m g →
  (∀ j s c, j ≠ k → m !! j = Some s → g v = Some c → g s ≠ Some c) →
  unique_on (<[k := v]> m) g.
Proof.
  intros Hm Hv i j r s c Hi Hj Hr Hs.
  apply lookup_insert_Some in Hi as [[<- <-]|[Hik Hi]],
    Hj as [[<- <-]|[Hjk Hj]]; [done| | |by eapply Hm].
  - by destruct (Hv j s c).
  - by destruct (Hv i r c).
Qed.

Lemma unique_on_replace {A B} (m : gmap Z A) (g : A → option B) k old v :
  unique_on m g → m !! k = Some old → g v = g old → unique_on (<[k := v]> m) g.
Proof.
  intros Hm Hold Hg. apply unique_on_insert; [done|].
  intros j s c Hjk Hj Hv Hs. rewrite Hg in Hv. by destruct Hjk; eapply Hm.
Qed.

Lemma unique_on_delete {A B} (m : gmap Z A) (g : A → option B) k :
  unique_on m g → unique_on (delete k m) g.
Proof.
  intros Hm i j r s c Hi Hj. apply lookup_delete_Some in Hi as [_ Hi], Hj as [_ Hj].
  by eapply Hm.
Qed.

Lemma color_run_outside now c d : same_outside_colors d (Color.run now c d).
Proof.
  destruct c; cbn [Color.run]; try by repeat split.
  - unfold Color.create. destruct (Color.name_taken _ _); by repeat split.
  - unfold Color.update. destruct (colors d !! colorId); [|by repeat split].
    destruct (Color.name_taken_besides _ _ _); by repeat split.
  - unfold Color.deactivate, Color.set_is_active.
    destruct (colors d !! colorId); by repeat split.
  - unfold Color.activate, Color.set_is_active.
    destruct (colors d !! colorId); by repeat split.
Qed.

Lemma part_run_outside now c d : same_outside_parts d (Part.run now c d).
Proof.
  destruct c; cbn [Part.run]; try by repeat split.
  - unfold Part.create. destruct (Part.unique_violation _ _ _); by repeat split.
  - unfold Part.update. destruct (parts d !! partId); [|by repeat split].
    destruct (Part.unique_violation _ _ _); by repeat split.
  - unfold Part.deactivate, Part.set_is_active.
    destruct (parts d !! partId); by repeat split.
  - unfold Part.activate, Part.set_is_active.
    destruct (parts d !! partId); by repeat split.
Qed.

Lemma color_name_taken_besides_false d self name :
  Color.name_taken_besides d self name = false →
  ∀ j s, j ≠ self → colors d !! j = Some s → color_name s ≠ name.
Proof.
  intros Hfalse j s Hj Hs Hn.
  assert (Color.name_taken_besides d self name = true); [|congruence].
  apply holds_besides_true. exists j, s. split_and!; [done..|].
  by apply bool_decide_eq_true.
Qed.

Lemma color_run_unique now c d :
  unique_on (colors d) (λ r, Some (color_name r)) →
  unique_on (colors (Color.run now c d)) (λ r, Some (color_name r)).
Proof.
  intros Hu. destruct c; cbn [Color.run]; try done.
  - unfold Color.create. destruct (Color.name_taken _ _) eqn:E; [done|].
    cbn. apply unique_on_insert; [done|]. intros j s x _ Hs [= <-] [= Hn].
    assert (Color.name_taken d (Color.data_color_name cd) = true); [|congruence].
    apply color_name_taken_iff. by exists j, s.
  - unfold Color.update. destruct (colors d !! colorId) eqn:Hold; [|done].
    destruct (Color.name_taken_besides _ _ _) eqn:E; [done|].
    cbn. apply unique_on_insert; [done|]. intros j s x Hj Hs [= <-] [= Hn].
    by apply (color_name_taken_besides_false _ _ _ E j s).
  - unfold Color.deactivate, Color.set_is_active.
    destruct (colors d !! colorId) eqn:Hold; [|done].
    cbn. by eapply unique_on_replace.
  - unfold Color.activate, Color.set_is_active.
    destruct (colors d !! colorId) eqn:Hold; [|done].
    cbn. by eapply unique_on_replace.
Qed.

Lemma part_unique_violation_none m skip pd :
  Part.unique_violation m skip pd = None →
  ∀ j s, Some j ≠ skip → m !! j = Some s →
    part_name s ≠ Part.data_part_name pd
    ∧ ∀ c, Part.data_part_code pd = Some c → part_code s ≠ Some c.
Proof.
  unfold Part.unique_violation. intros Hnone j s Hj Hs.
  set (others := match skip with
                 | Some self => holds_besides m self
                 | None => holds m
                 end) in *.
  assert (Hothers : ∀ P, P s = true → others P = true).
  { intros P HP. unfold others. destruct skip as [self|].
    - apply holds_besides_true. exists j, s. split_and!; [congruence|done..].
    - apply holds_true. by exists j, s. }
  destruct (others (Part.code_clash _)) eqn:E1; [done|].
  destruct (others (λ r, bool_decide (part_name r = _))) eqn:E2; [done|].
  split.
  - intros Hn. rewrite Hothers in E2; [done|]. by apply bool_decide_eq_true.
  - intros c Hc Hsc. rewrite Hothers in E1; [done|].
    unfold Part.code_clash. rewrite Hc. by apply bool_decide_eq_true.
Qed.

Lemma part_run_unique now c d :
  unique_on (parts d) part_code ∧ unique_on (parts d) (λ r, Some (part_name r)) →
  unique_on (parts (Part.run now c d)) part_code
  ∧ unique_on (parts (Part.run now c d)) (λ r, Some (part_name r)).
Proof.
  intros [Hc Hn]. destruct c; cbn [Part.run]; try done.
  - unfold Part.create. destruct (Part.unique_violation _ _ _) eqn:E; [done|].
    pose proof (part_unique_violation_none _ _ _ E) as Hfree.
    cbn. split; (apply unique_on_insert; [done|]); intros j s x _ Hs Hv Hsc.
    + by destruct (Hfree j s) as [_ H]; [done..|]; destruct (H x).
    + destruct (Hfree j s) as [H _]; [done..|]. cbn in Hv. congruence.
  - unfold Part.update. destruct (parts d !! partId) eqn:Hold; [|done].
    destruct (Part.unique_violation _ _ _) eqn:E; [done|].
    pose proof (part_unique_violation_none _ _ _ E) as Hfree.
    cbn. split; (apply unique_on_insert; [done|]); intros j s x Hj Hs Hv Hsc.
    + by destruct (Hfree j s) as [_ H]; [congruence|done|]; destruct (H x).
    + destruct (Hfree j s) as [H _]; [congruence|done|]. cbn in Hv. congruence.
  - unfold Part.deactivate, Part.set_is_active.
    destruct (parts d !! partId) eqn:Hold; [|done].
    cbn. split; by eapply unique_on_replace.
  - unfold Part.activate, Part.set_is_active.
    destruct (parts d !! partId) eqn:Hold; [|done].
    cbn. split; by eapply unique_on_replace.
Qed.

(** ** What the template calls leave alone *)

Lemma insert_parts_result t ps d d' :
  ProductTemplate.insert_parts t ps d = (d', Return ()) →
  product_templates d' = product_templates d
  ∧ product_templates_seq d' = product_templates_seq d
  ∧ same_outside_templates d d'
  ∧ ∀ t' p q, template_parts d' !! (t', p) = Some q →
      template_parts d !! (t', p) = Some q
      ∨ (t' = t ∧ is_Some (product_templates d !! t) ∧ is_Some (parts d !! p)).
Proof.
  revert d. induction ps as [|x ps IH]; intros d.
  - cbn. intros [= <-]. split_and!; [done|done|by repeat split|]. intros; by left.
  - cbn [ProductTemplate.insert_parts]. unfold ProductTemplate.insert_template_part.
    destruct (template_parts d !! _) eqn:Hfree; [done|].
    destruct (ProductTemplate.references_ok _ _ _) eqn:Href; [|done].
    intros H. apply IH in H as (H1 & H2 & H3 & H4). cbn in H1, H2.
    split_and!; [done|done|by destruct H3 as (?&?&?&?&?&?&?&?&?&?&?&?&?)|].
    unfold ProductTemplate.references_ok in Href.
    apply andb_true_iff in Href as [Ht Hp]. apply bool_decide_eq_true in Ht, Hp.
    intros t' p q Hq. destruct (H4 t' p q Hq) as [Hold|(-> & _ & Hp')].
    + cbn in Hold. apply lookup_insert_Some in Hold as [[[= <- <-] _]|[_ Hold]];
        [by right|by left].
    + right. by split_and!.
Qed.

Lemma create_template_result now td d d' r :
  ProductTemplate.create now td d = (d', r) →
  d' = d
  ∨ ∃ id row,
      product_templates d !! id = None
      ∧ (∀ j s, product_templates d !! j = Some s → template_name s ≠ template_name row)
      ∧ product_templates d' = <[id := row]> (product_templates d)
      ∧ product_templates_seq d' = id
      ∧ product_templates_seq d < id
      ∧ same_outside_templates d d'
      ∧ ∀ t' p q, template_parts d' !! (t', p) = Some q →
          template_parts d !! (t', p) = Some q ∨ (t' = id ∧ is_Some (parts d !! p)).
Proof.
  unfold ProductTemplate.create, transaction.
  destruct (falsy_str _); [intros [= <- _]; by left|].
  destruct (ProductTemplate.bad_num_colors _); [intros [= <- _]; by left|].
  destruct (ProductTemplate.create_body _ _ _ _ _) as [d2 [a|e]] eqn:Hbody;
    [|intros [= <- _]; by left].
  intros [= <- _]. right. unfold ProductTemplate.create_body in Hbody.
  unfold ProductTemplate.insert_template in Hbody.
  destruct (negb _); [done|].
  destruct (holds _ _) eqn:Hname; [done|].
  destruct (ProductTemplate.insert_parts _ _ _) as [d3 [[]|e]] eqn:Hparts; [|done].
  injection Hbody as -> <-.
  apply insert_parts_result in Hparts as (H1 & H2 & H3 & H4). cbn in H1, H2.
  lazymatch type of H1 with _ = <[?i := ?v]> _ => exists i, v end. split_and!.
  - apply next_rowid_fresh.
  - intros j s Hs. cbn. intros Hn.
    rewrite (proj2 (holds_true _ _)) in Hname; [done|].
    exists j, s. split; [done|]. by apply bool_decide_eq_true.
  - done.
  - done.
  - unfold next_rowid. lia.
  - by destruct H3 as (?&?&?&?&?&?&?&?&?&?&?&?&?).
  - intros t' p q Hq. destruct (H4 t' p q Hq) as [Hold|(-> & _ & Hp)]; [by left|].
    right. done.
Qed.

Lemma same_outside_templates_refl d : same_outside_templates d d.
Proof. by repeat split. Qed.

Lemma template_run_outside now c d : same_outside_templates d (ProductTemplate.run now c d).
Proof.
  destruct c; cbn [ProductTemplate.run]; try apply same_outside_templates_refl.
  - destruct (ProductTemplate.create now td d) as [d' r] eqn:Hc. cbn [fst].
    apply create_template_result in Hc as [->|(id & row & _ & _ & _ & _ & _ & H & _)];
      [apply same_outside_templates_refl|done].
  - unfold ProductTemplate.update. destruct (ProductTemplate.no_fields u); [by repeat split|].
    destruct (product_templates d !! templateId); [|by repeat split].
    destruct (ProductTemplate.update_violation _ _ _); by repeat split.
  - unfold ProductTemplate.addPart.
    destruct (ProductTemplate.references_ok _ _ _); by repeat split.
  - unfold ProductTemplate.removePart.
    destruct (template_parts d !! _); by repeat split.
  - unfold ProductTemplate.updatePartQuantity.
    destruct (template_parts d !! _); by repeat split.
  - unfold ProductTemplate.deactivate, ProductTemplate.set_is_active.
    destruct (product_templates d !! templateId); by repeat split.
  - unfold ProductTemplate.activate, ProductTemplate.set_is_active.
    destruct (product_templates d !! templateId); by repeat split.
  - unfold ProductTemplate.deleteTemplate.
    destruct (product_templates d !! templateId); by repeat split.
Qed.

Lemma update_violation_none m t u :
  ProductTemplate.update_violation m t u = None →
  ProductTemplate.u_template_name u ≠ ProductTemplate.Null
  ∧ ProductTemplate.u_num_colors u ≠ ProductTemplate.Null
  ∧ ProductTemplate.u_print_time_minutes u ≠ ProductTemplate.Null
  ∧ ProductTemplate.u_print_cost u ≠ ProductTemplate.Null
  ∧ (∀ n, ProductTemplate.u_num_colors u = ProductTemplate.Value n → 1 ≤ n ≤ 4)
  ∧ (∀ name j s, ProductTemplate.u_template_name u = ProductTemplate.Value name →
       j ≠ t → m !! j = Some s → template_name s ≠ name).
Proof.
  unfold ProductTemplate.update_violation.
  destruct (ProductTemplate.u_template_name u) as [| |name]; cbn; [|done|];
    (destruct (ProductTemplate.u_num_colors u) as [| |n]; cbn; [|done|]);
    (destruct (ProductTemplate.u_print_time_minutes u); cbn; [|done|]);
    (destruct (ProductTemplate.u_print_cost u); cbn; [|done|]);
    try (destruct (negb _) eqn:Hn; [done|];
         apply negb_false_iff, andb_true_iff in Hn as [?%Z.leb_le ?%Z.leb_le]);
    try (destruct (holds_besides _ _ _) eqn:Hh; [done|]);
    intros _; split_and!; try done; try (intros ? [= <-]; lia);
    intros ? j s [= <-] Hj Hs Hname;
    (rewrite (proj2 (holds_besides_true _ _ _)) in Hh; [done|]);
    exists j, s; split_and!; try done; by apply bool_decide_eq_true.
Qed.

Lemma template_run_unique now c d :
  unique_on (product_templates d) (λ r, Some (template_name r)) →
  unique_on (product_templates (ProductTemplate.run now c d)) (λ r, Some (template_name r)).
Proof.
  intros Hu. destruct c; cbn [ProductTemplate.run]; try done.
  - destruct (ProductTemplate.create now td d) as [d' r] eqn:Hc. cbn [fst].
    apply create_template_result in Hc as [->|(id & row & _ & Hfree & -> & _)]; [done|].
    apply unique_on_insert; [done|]. intros j s x _ Hs [= <-] [= Hn].
    by apply (Hfree j s).
  - unfold ProductTemplate.update. destruct (ProductTemplate.no_fields u); [done|].
    destruct (product_templates d !! templateId) as [old|] eqn:Hold; [|done].
    destruct (ProductTemplate.update_violation _ _ _) eqn:E; [done|].
    apply update_violation_none in E as (_ & _ & _ & _ & _ & Hfree).
    cbn. apply unique_on_insert; [done|]. intros j s x Hj Hs [= <-] [= Hn].
    cbn in Hn. destruct (ProductTemplate.u_template_name u) as [| |name] eqn:Hname;
      cbn in Hn.
    + destruct Hj. eapply (Hu j templateId s old); [done..|]. by rewrite Hn.
    + destruct Hj. eapply (Hu j templateId s old); [done..|]. by rewrite Hn.
    + by apply (Hfree name j s).
  - unfold ProductTemplate.addPart.
    by destruct (ProductTemplate.references_ok _ _ _).
  - unfold ProductTemplate.removePart. by destruct (template_parts d !! _).
  - unfold ProductTemplate.updatePartQuantity. by destruct (template_parts d !! _).
  - unfold ProductTemplate.deactivate, ProductTemplate.set_is_active.
    destruct (product_templates d !! templateId) eqn:Hold; [|done].
    cbn. by eapply unique_on_replace.
  - unfold ProductTemplate.activate, ProductTemplate.set_is_active.
    destruct (product_templates d !! templateId) eqn:Hold; [|done].
    cbn. by eapply unique_on_replace.
  - unfold ProductTemplate.deleteTemplate.
    destruct (product_templates d !! templateId); [|done].
    cbn. by apply unique_on_delete.
Qed.

(** X5.  Every call the three models export keeps the UNIQUE
    columns free of repeats: no two colors share a name, no two parts share a
    code or a name (parts without a code aside), and no two templates share a
    name, whatever was created, updated, deactivated or deleted. *)
Theorem model_calls_keep_unique_columns :
  (∀ now c d, unique_keys d → unique_keys (Color.run now c d))
  ∧ (∀ now c d, unique_keys d → unique_keys (Part.run now c d))
  ∧ (∀ now c d, unique_keys d → unique_keys (ProductTemplate.run now c d)).
Proof.
  split_and!; intros now c d (Hc & Hpc & Hpn & Ht); unfold unique_keys.
  - destruct (color_run_outside now c d) as (-> & _ & _ & _ & _ & _ & _ & _ & _ & _ & _ & -> & _).
    split_and!; [by apply color_run_unique|done..].
  - destruct (part_run_outside now c d) as (-> & _ & _ & _ & _ & _ & _ & _ & _ & _ & _ & -> & _).
    destruct (part_run_unique now c d) as [? ?]; [done|]. by split_and!.
  - destruct (template_run_outside now c d) as (-> & _ & -> & _).
    split_and!; [done..|]. by apply template_run_unique.
Qed.

(** ** The foreign keys of [template_parts] *)

Lemma links_ok_checked d : links_ok_check d = true → links_ok d.
Proof.
  unfold links_ok_check. rewrite forallb_forall. intros Hall.
  assert (H : ∀ t p q, template_parts d !! (t, p) = Some q →
                is_Some (product_templates d !! t) ∧ is_Some (parts d !! p)).
  { intros t p q Hq. specialize (Hall ((t, p), q)).
    rewrite andb_true_iff, !bool_decide_eq_true in Hall. apply Hall.
    apply list_elem_of_In. by apply elem_of_map_to_list. }
  split; intros t p q Hq; by destruct (H t p q Hq).
Qed.

Lemma template_run_links now c d : links_ok d → links_ok (ProductTemplate.run now c d).
Proof.
  intros [Ht Hp].
  pose proof (template_run_outside now c d) as (_ & _ & Hparts & _).
  destruct c; cbn [ProductTemplate.run] in *; try done.
  - destruct (ProductTemplate.create now td d) as [d' r] eqn:Hc. cbn [fst] in *.
    apply create_template_result in Hc
      as [->|(id & row & _ & _ & Htab & _ & _ & _ & Hlinks)]; [done|].
    split; intros t p q Hq; destruct (Hlinks t p q Hq) as [Hold|[-> Hpart]].
    + rewrite Htab, lookup_insert. case_decide; [done|]. by apply (Ht t p q).
    + by rewrite Htab, lookup_insert_eq.
    + rewrite Hparts. by apply (Hp t p q).
    + by rewrite Hparts.
  - unfold ProductTemplate.update in *. destruct (ProductTemplate.no_fields u); [done|].
    destruct (product_templates d !! templateId) as [old|] eqn:Hold; [|done].
    destruct (ProductTemplate.update_violation _ _ _); [done|].
    split; [|done]. intros t p q Hq. cbn in Hq |- *. rewrite lookup_insert.
    case_decide; [done|]. by apply (Ht t p q).
  - unfold ProductTemplate.addPart, ProductTemplate.references_ok in *.
    destruct (bool_decide (is_Some (product_templates d !! templateId))) eqn:E1; [|done].
    destruct (bool_decide (is_Some (parts d !! partId))) eqn:E2; [|done].
    apply bool_decide_eq_true in E1, E2. cbn in *.
    split; intros t p q Hq; cbn in Hq |- *; apply lookup_insert_Some in Hq as [[[= <- <-] _]|[_ Hq]];
      [done|by apply (Ht t p q)|done|by apply (Hp t p q)].
  - unfold ProductTemplate.removePart in *.
    destruct (template_parts d !! (templateId, partId)); [|done]. cbn in *.
    split; intros t p q Hq; cbn in Hq |- *; apply lookup_delete_Some in Hq as [_ Hq];
      [by apply (Ht t p q)|by apply (Hp t p q)].
  - unfold ProductTemplate.updatePartQuantity in *.
    destruct (template_parts d !! (templateId, partId)) as [z|] eqn:Hold; [|done]. cbn in *.
    split; intros t p q Hq; cbn in Hq |- *; apply lookup_insert_Some in Hq as [[[= <- <-] _]|[_ Hq]];
      [by apply (Ht templateId partId z)|by apply (Ht t p q)
      |by apply (Hp templateId partId z)|by apply (Hp t p q)].
  - unfold ProductTemplate.deactivate, ProductTemplate.set_is_active in *.
    destruct (product_templates d !! templateId) as [old|] eqn:Hold; [|done].
    split; [|done]. intros t p q Hq. cbn in Hq |- *. rewrite lookup_insert.
    case_decide; [done|]. by apply (Ht t p q).
  - unfold ProductTemplate.activate, ProductTemplate.set_is_active in *.
    destruct (product_templates d !! templateId) as [old|] eqn:Hold; [|done].
    split; [|done]. intros t p q Hq. cbn in Hq |- *. rewrite lookup_insert.
    case_decide; [done|]. by apply (Ht t p q).
  - unfold ProductTemplate.deleteTemplate in *.
    destruct (product_templates d !! templateId) as [old|] eqn:Hold; [|done]. cbn in *.
    split; intros t p q Hq; cbn in Hq |- *; apply map_lookup_filter_Some in Hq as [Hq Hne]; cbn in Hne.
    + rewrite lookup_delete_ne by done. by apply (Ht t p q).
    + by apply (Hp t p q).
Qed.

(** X6.  Every call the three models export keeps both foreign
    keys of [template_parts]: each row names a stored template and a stored
    part.  Colors and parts are never removed, and deleting a template takes
    its [template_parts] rows with it. *)
Theorem model_calls_keep_template_links :
  (∀ now c d, links_ok d → links_ok (Color.run now c d))
  ∧ (∀ now c d, links_ok d → links_ok (Part.run now c d))
  ∧ (∀ now c d, links_ok d → links_ok (ProductTemplate.run now c d)).
Proof.
  split_and!.
  - intros now c d [Ht Hp].
    destruct (color_run_outside now c d)
      as (Hparts & _ & _ & _ & _ & _ & _ & _ & _ & _ & _ & Htab & _ & Hlinks).
    split; intros t p q; rewrite Hlinks; [rewrite Htab|rewrite Hparts];
      [apply Ht|apply Hp].
  - intros now c d [Ht Hp].
    destruct (part_run_keeps_rows now c d) as (_ & Hkeep & _ & _ & _ & _ & _ & Htab & Hlinks).
    split; intros t p q; rewrite Hlinks; [rewrite Htab; apply Ht|].
    intros Hq. by apply Hkeep, (Hp t p q).
  - apply template_run_links.
Qed.

(** ** The template listing *)

Lemma count_parts_joined d es :
  ProductTemplate.count_parts (map (ProductTemplate.join_part d) es) = Z.of_nat (length es).
Proof.
  unfold ProductTemplate.count_parts. f_equal.
  induction es as [|e es IH]; [done|]. cbn [map].
  rewrite filter_cons_True by (by eexists). cbn. by rewrite IH.
Qed.

Lemma list_one_returns d t :
  ∃ l, ProductTemplate.list_one d t = Return l
       ∧ listed_key l = t
       ∧ ProductTemplate.part_count l = Z.of_nat (length (ProductTemplate.links t.1 d))
       ∧ ProductTemplate.listed_parts l = listed_array d (ProductTemplate.links t.1 d).
Proof.
  destruct t as [t row].
  unfold ProductTemplate.list_one, ProductTemplate.left_join, listed_array. cbn [fst snd].
  destruct (ProductTemplate.links t d) as [|e es] eqn:Hes.
  - vm_compute. by eexists.
  - rewrite group_concat_texts by done. rewrite parse_parts_texts by done.
    eexists. split; [reflexivity|]. cbn [ProductTemplate.part_count ProductTemplate.listed_parts].
    split_and!; [done| |done]. apply (count_parts_joined d (e :: es)).
Qed.

Lemma map_outcome_keys d (l : list (Z * template_row)) :
  ∃ ls, ProductTemplate.map_outcome (ProductTemplate.list_one d) l = Return ls
        ∧ map listed_key ls = l
        ∧ ∀ x, x ∈ ls → ProductTemplate.list_one d (listed_key x) = Return x.
Proof.
  induction l as [|t l (ls & Hls & Hkeys & Hone)].
  - exists []. split_and!; [done..|]. intros x Hx. inversion Hx.
  - destruct (list_one_returns d t) as (y & Hy & Hkey & _).
    exists (y :: ls). cbn. rewrite Hy, Hls. split_and!; [done|by rewrite Hkey, Hkeys|].
    intros x Hx. apply elem_of_cons in Hx as [->|Hx]; [by rewrite Hkey|by apply Hone].
Qed.

Lemma getAll_keys b d :
  ∃ ls, ProductTemplate.getAll b d = Return ls
        ∧ lists_exactly ProductTemplate.by_name (map listed_key ls) (product_templates d)
            (λ r, b = true ∨ template_is_active r = 1)
        ∧ ∀ x, x ∈ ls → ProductTemplate.list_one d (listed_key x) = Return x.
Proof.
  unfold ProductTemplate.getAll.
  set (selected := if b then map_to_list (product_templates d)
                   else filter (λ t, template_is_active t.2 = 1)
                          (map_to_list (product_templates d))).
  destruct (map_outcome_keys d (merge_sort ProductTemplate.by_name selected))
    as (ls & Hls & Hkeys & Hone).
  exists ls. split_and!; [done| |done].
  rewrite Hkeys. unfold selected. destruct b.
  - destruct (@sorted_all_lists_exactly _ ProductTemplate.by_name
                ProductTemplate.by_name_dec _ _ (product_templates d))
      as (H1 & H2 & H3).
    split_and!; [done..|]. intros id r. rewrite H3. intuition.
  - apply sorted_filter_lists_exactly; [apply _..|]. intros id r. cbn. intuition. done.
Qed.

(** X7.  [ProductTemplate.getAll] never throws: the JSON
    text it builds always parses.  It returns one entry per active template
    (per template with [includeInactive]), in ascending order of
    [template_name]; each entry carries as [part_count] the number of
    [template_parts] rows of the template and as [parts] one object per such
    row, or one object of nulls when the template has no row. *)
Theorem template_getAll_lists_by_name :
  ∀ b d, ∃ ls,
    ProductTemplate.getAll b d = Return ls
    ∧ lists_exactly ProductTemplate.by_name (map listed_key ls) (product_templates d)
        (λ r, b = true ∨ template_is_active r = 1)
    ∧ ∀ l, l ∈ ls →
        ProductTemplate.part_count l
        = Z.of_nat (length (ProductTemplate.links (ProductTemplate.listed_id l) d))
        ∧ ProductTemplate.listed_parts l
          = listed_array d (ProductTemplate.links (ProductTemplate.listed_id l) d).
Proof.
  intros b d. destruct (getAll_keys b d) as (ls & Hls & Hkeys & Hone).
  exists ls. split_and!; [done..|].
  intros l Hl. specialize (Hone l Hl).
  destruct (list_one_returns d (listed_key l)) as (l' & Hl' & _ & Hcount & Hparts).
  rewrite Hone in Hl'. injection Hl' as <-. done.
Qed.


(** ** Soft delete and hard delete of templates *)

Lemma db_eta d :
  {| colors := colors d; colors_seq := colors_seq d;
     parts := parts d; parts_seq := parts_seq d;
     orders := orders d; orders_seq := orders_seq d;
     products := products d; products_seq := products_seq d;
     items := items d; items_seq := items_seq d; item_parts := item_parts d;
     status_history := status_history d; status_history_seq := status_history_seq d;
     product_templates := product_templates d;
     product_templates_seq := product_templates_seq d;
     template_parts := template_parts d |} = d.
Proof. by destruct d. Qed.

Lemma template_set_active_twice r :
  template_is_active r = 1 →
  ProductTemplate.set_active 1 (ProductTemplate.set_active 0 r) = r.
Proof. destruct r. cbn. by intros ->. Qed.

Lemma getById_parts_same d d' t :
  is_Some (product_templates d !! t) → is_Some (product_templates d' !! t) →
  template_parts d' = template_parts d → parts d' = parts d →
  ProductTemplate.detail_parts <$> ProductTemplate.getById t d'
  = ProductTemplate.detail_parts <$> ProductTemplate.getById t d.
Proof.
  intros [r Hr] [r' Hr'] Hl Hp. unfold ProductTemplate.getById. rewrite Hr, Hr'. cbn.
  unfold ProductTemplate.links, ProductTemplate.inner_join. by rewrite Hl, Hp.
Qed.

Lemma template_deactivate_existing d t r :
  product_templates d !! t = Some r →
  ∃ r0,
    let d0 := with_product_templates (<[t := r0]> (product_templates d))
                (product_templates_seq d) d in
    ProductTemplate.deactivate t d = (d0, true)
    ∧ template_is_active r0 = 0 ∧ template_rest_equal r r0
    ∧ (ProductTemplate.detail_parts <$> ProductTemplate.getById t d0
       = ProductTemplate.detail_parts <$> ProductTemplate.getById t d)
    ∧ (∃ ls, ProductTemplate.getAll false d0 = Return ls
             ∧ ∀ l, l ∈ ls → ProductTemplate.listed_id l ≠ t)
    ∧ (∃ ls l, ProductTemplate.getAll true d0 = Return ls
               ∧ l ∈ ls ∧ listed_key l = (t, r0))
    ∧ (∃ r1, ProductTemplate.activate t d0
             = (with_product_templates (<[t := r1]> (product_templates d))
                  (product_templates_seq d) d, true)
             ∧ template_is_active r1 = 1 ∧ template_rest_equal r r1)
    ∧ (template_is_active r = 1 → (ProductTemplate.activate t d0).1 = d).
Proof.
  intros Hr. exists (ProductTemplate.set_active 0 r). cbn zeta.
  set (d0 := with_product_templates _ _ d).
  assert (Hd0 : product_templates d0 !! t = Some (ProductTemplate.set_active 0 r)).
  { unfold d0. cbn. by rewrite lookup_insert_eq. }
  assert (Hact : ProductTemplate.activate t d0
                 = (with_product_templates
                      (<[t := ProductTemplate.set_active 1 (ProductTemplate.set_active 0 r)]>
                         (product_templates d))
                      (product_templates_seq d) d, true)).
  { unfold ProductTemplate.activate, ProductTemplate.set_is_active. rewrite Hd0.
    unfold d0. cbn. unfold with_product_templates. cbn. by rewrite insert_insert_eq. }
  split_and!.
  - unfold ProductTemplate.deactivate, ProductTemplate.set_is_active. by rewrite Hr.
  - done.
  - by repeat split.
  - apply getById_parts_same; [by eexists|by eexists|done|done].
  - destruct (getAll_keys false d0) as (ls & Hls & (_ & _ & Hin) & _).
    exists ls. split; [done|]. intros l Hl Ht.
    assert (Hk : listed_key l ∈ map listed_key ls) by (by apply list_elem_of_fmap_2).
    destruct l as [id row pc pj lp]. cbn in Ht. subst id. unfold listed_key in Hk. cbn in Hk.
    apply Hin in Hk as [Hrow [?|Hactive]]; [done|].
    rewrite Hd0 in Hrow. injection Hrow as <-. done.
  - destruct (getAll_keys true d0) as (ls & Hls & (_ & _ & Hin) & _).
    assert (Hk : (t, ProductTemplate.set_active 0 r) ∈ map listed_key ls).
    { apply Hin. split; [done|by left]. }
    apply list_elem_of_fmap in Hk as (l & Hl & Hk). by exists ls, l.
  - eexists. split; [exact Hact|]. by repeat split.
  - intros Hone. rewrite Hact. cbn [fst].
    rewrite template_set_active_twice by done. rewrite insert_id by done.
    unfold with_product_templates. apply db_eta.
Qed.

(** X8.  For a stored template, [deactivate] returns
    true and writes nothing but [is_active] = 0: the template keeps its
    columns and its parts, [getById] still returns it, the default listing of
    [getAll] no longer shows it and the full listing does; [activate] puts
    [is_active] back to 1, and when the template was active before, the
    database is then exactly the one it was.  The route answers 200.  For an
    id that is not stored both calls return false, the database is the same
    and the routes answer 404. *)
Theorem template_deactivate_hides_and_activate_restores :
  (∀ d t r, product_templates d !! t = Some r →
     ∃ r0,
       let d0 := with_product_templates (<[t := r0]> (product_templates d))
                   (product_templates_seq d) d in
       ProductTemplate.deactivate t d = (d0, true)
       ∧ template_is_active r0 = 0 ∧ template_rest_equal r r0
       ∧ (ProductTemplate.detail_parts <$> ProductTemplate.getById t d0
          = ProductTemplate.detail_parts <$> ProductTemplate.getById t d)
       ∧ (∃ ls, ProductTemplate.getAll false d0 = Return ls
                ∧ ∀ l, l ∈ ls → ProductTemplate.listed_id l ≠ t)
       ∧ (∃ ls l, ProductTemplate.getAll true d0 = Return ls
                  ∧ l ∈ ls ∧ listed_key l = (t, r0))
       ∧ (∃ r1, ProductTemplate.activate t d0
                = (with_product_templates (<[t := r1]> (product_templates d))
                     (product_templates_seq d) d, true)
                ∧ template_is_active r1 = 1 ∧ template_rest_equal r r1)
       ∧ (template_is_active r = 1 → (ProductTemplate.activate t d0).1 = d)
       ∧ Admin.delete_templates t d
         = (d0, {| Admin.code := 200;
                   Admin.body := Admin.MessageBody "Template deactivated successfully" |}))
  ∧ (∀ d t, product_templates d !! t = None →
       ProductTemplate.deactivate t d = (d, false)
       ∧ ProductTemplate.activate t d = (d, false)
       ∧ Admin.delete_templates t d
         = (d, {| Admin.code := 404; Admin.body := Admin.ErrorBody "Template not found" |})
       ∧ Admin.post_templates_activate t d
         = (d, {| Admin.code := 404; Admin.body := Admin.ErrorBody "Template not found" |})).
Proof.
  split.
  - intros d t r Hr.
    destruct (template_deactivate_existing d t r Hr)
      as (r0 & Hde & H0 & Hrest & Hparts & Hhid & Hfull & Hact & Hback).
    exists r0. cbn zeta in *. split_and!; try done.
    unfold Admin.delete_templates. by rewrite Hde.
  - intros d t Hnone.
    assert (Hs : ∀ flag, ProductTemplate.set_is_active flag t d = (d, false)).
    { intros flag. unfold ProductTemplate.set_is_active. by rewrite Hnone. }
    unfold Admin.delete_templates, Admin.post_templates_activate,
      ProductTemplate.deactivate, ProductTemplate.activate. by rewrite !Hs.
Qed.

Lemma template_run_seq now c d :
  product_templates_seq d ≤ product_templates_seq (ProductTemplate.run now c d).
Proof.
  destruct c; cbn [ProductTemplate.run]; try done.
  - destruct (ProductTemplate.create now td d) as [d' r] eqn:Hc. cbn [fst].
    apply create_template_result in Hc as [->|(id & row & _ & _ & _ & -> & Hlt & _)];
      [done|lia].
  - unfold ProductTemplate.update. destruct (ProductTemplate.no_fields u); [done|].
    destruct (product_templates d !! templateId); [|done].
    by destruct (ProductTemplate.update_violation _ _ _).
  - unfold ProductTemplate.addPart. by destruct (ProductTemplate.references_ok _ _ _).
  - unfold ProductTemplate.removePart. by destruct (template_parts d !! _).
  - unfold ProductTemplate.updatePartQuantity. by destruct (template_parts d !! _).
  - unfold ProductTemplate.deactivate, ProductTemplate.set_is_active.
    by destruct (product_templates d !! templateId).
  - unfold ProductTemplate.activate, ProductTemplate.set_is_active.
    by destruct (product_templates d !! templateId).
  - unfold ProductTemplate.deleteTemplate. by destruct (product_templates d !! templateId).
Qed.

Lemma template_calls_seq cs d :
  product_templates_seq d ≤ product_templates_seq (template_calls cs d).
Proof.
  revert d. induction cs as [|[now c] cs IH]; intros d; [done|].
  cbn. etrans; [apply (template_run_seq now c d)|apply IH].
Qed.

Lemma create_template_id now td d d' det :
  ProductTemplate.create now td d = (d', Return (Some det)) →
  ProductTemplate.detail_id det = product_templates_seq d'
  ∧ product_templates_seq d < product_templates_seq d'.
Proof.
  unfold ProductTemplate.create, transaction.
  destruct (falsy_str _); [done|].
  destruct (ProductTemplate.bad_num_colors _); [done|].
  destruct (ProductTemplate.create_body _ _ _ _ _) as [d2 [a|e]] eqn:Hbody; [|done].
  intros [= <- Hget]. unfold ProductTemplate.create_body in Hbody.
  unfold ProductTemplate.insert_template in Hbody.
  destruct (negb _); [done|]. destruct (holds _ _); [done|].
  destruct (ProductTemplate.insert_parts _ _ _) as [d3 [[]|e]] eqn:Hparts; [|done].
  injection Hbody as -> <-.
  apply insert_parts_result in Hparts as (_ & H2 & _). cbn in H2.
  unfold ProductTemplate.getById in Hget.
  destruct (product_templates d2 !! _); [|done]. injection Hget as <-. cbn.
  rewrite H2. split; [done|]. unfold next_rowid. lia.
Qed.

(** X9.  Deleting a stored template returns true, removes
    its row and every [template_parts] row of it, and leaves the other
    templates, their parts and every other table alone; on an id that is not
    stored it returns false and changes nothing.  The ids are AUTOINCREMENT:
    whatever calls follow the creation of a template, its deletion included,
    a template created later gets a larger id. *)
Theorem template_delete_cascades_and_ids_are_not_reused :
  (∀ d t r, product_templates d !! t = Some r →
     ∃ d', ProductTemplate.deleteTemplate t d = (d', true)
       ∧ product_templates d' = delete t (product_templates d)
       ∧ product_templates_seq d' = product_templates_seq d
       ∧ (∀ p, template_parts d' !! (t, p) = None)
       ∧ (∀ t' p, t' ≠ t → template_parts d' !! (t', p) = template_parts d !! (t', p))
       ∧ ProductTemplate.getById t d' = None
       ∧ same_outside_templates d d')
  ∧ (∀ d t, product_templates d !! t = None → ProductTemplate.deleteTemplate t d = (d, false))
  ∧ (∀ now td d d1 det cs now' td' d2 det',
       ProductTemplate.create now td d = (d1, Return (Some det)) →
       ProductTemplate.create now' td' (template_calls cs d1) = (d2, Return (Some det')) →
       ProductTemplate.detail_id det < ProductTemplate.detail_id det').
Proof.
  split_and!.
  - intros d t r Hr. unfold ProductTemplate.deleteTemplate. rewrite Hr.
    eexists. split; [reflexivity|]. cbn. split_and!; [done|done| | | |by repeat split].
    + intros p. apply map_lookup_filter_None. right. intros q _. cbn. tauto.
    + intros t' p Hne. destruct (template_parts d !! (t', p)) as [q|] eqn:Hq.
      * by apply map_lookup_filter_Some.
      * apply map_lookup_filter_None. by left.
    + unfold ProductTemplate.getById. cbn. by rewrite lookup_delete_eq.
  - intros d t Hnone. unfold ProductTemplate.deleteTemplate. by rewrite Hnone.
  - intros now td d d1 det cs now' td' d2 det' Hc1 Hc2.
    apply create_template_id in Hc1 as [-> _], Hc2 as [-> Hlt].
    pose proof (template_calls_seq cs d1). lia.
Qed.

(** ** Editing a template *)

Lemma no_fields_iff u : ProductTemplate.no_fields u = true ↔ no_field_given u.
Proof.
  unfold ProductTemplate.no_fields, no_field_given.
  destruct (ProductTemplate.u_template_name u), (ProductTemplate.u_description u),
    (ProductTemplate.u_num_colors u), (ProductTemplate.u_print_time_minutes u),
    (ProductTemplate.u_print_cost u); cbn; split; try done; intros (?&?&?&?&?); done.
Qed.

Lemma update_violation_accepted m t u :
  no_null_given u → num_colors_in_range u →
  (∀ name j s, ProductTemplate.u_template_name u = ProductTemplate.Value name →
     j ≠ t → m !! j = Some s → template_name s ≠ name) →
  ProductTemplate.update_violation m t u = None.
Proof.
  intros (H1 & H2 & H3 & H4) Hrange Hfree. unfold ProductTemplate.update_violation.
  assert (Hnum : match ProductTemplate.u_num_colors u with
                 | ProductTemplate.Value n => negb ((1 <=? n) && (n <=? 4))
                 | _ => false
                 end = false).
  { destruct (ProductTemplate.u_num_colors u) as [| |n] eqn:E; [done..|].
    destruct (Hrange n E) as [Hlo%Z.leb_le Hhi%Z.leb_le]. by rewrite Hlo, Hhi. }
  assert (Hname : match ProductTemplate.u_template_name u with
                  | ProductTemplate.Value name =>
                      holds_besides m t (λ r, bool_decide (template_name r = name))
                  | _ => false
                  end = false).
  { destruct (ProductTemplate.u_template_name u) as [| |name] eqn:E; [done..|].
    destruct (holds_besides _ _ _) eqn:Hh; [|done].
    apply holds_besides_true in Hh as (j & s & Hj & Hs & Hn).
    apply bool_decide_eq_true in Hn. by destruct (Hfree name j s). }
  rewrite Hnum, Hname.
  destruct (ProductTemplate.u_template_name u); [|done|];
    (destruct (ProductTemplate.u_num_colors u); [|done|]);
    (destruct (ProductTemplate.u_print_time_minutes u); [|done|]);
    (destruct (ProductTemplate.u_print_cost u); [|done|]); done.
Qed.

Lemma template_updated_row_edited now u old :
  no_null_given u → template_edited now u old (ProductTemplate.updated_row now u old).
Proof.
  intros (H1 & H2 & H3 & H4). unfold template_edited, ProductTemplate.updated_row. cbn.
  destruct (ProductTemplate.u_template_name u), (ProductTemplate.u_description u),
    (ProductTemplate.u_num_colors u), (ProductTemplate.u_print_time_minutes u),
    (ProductTemplate.u_print_cost u); cbn; by repeat split.
Qed.

Lemma update_stored now t u d old :
  product_templates d !! t = Some old → ¬ no_field_given u →
  ProductTemplate.update now t u d
  = match ProductTemplate.update_violation (product_templates d) t u with
    | Some e => (d, Throw (SqliteError e))
    | None =>
        (with_product_templates
           (<[t := ProductTemplate.updated_row now u old]> (product_templates d))
           (product_templates_seq d) d,
         Return true)
    end.
Proof.
  intros Hold Hgiven. unfold ProductTemplate.update.
  destruct (ProductTemplate.no_fields u) eqn:E; [by apply no_fields_iff in E|].
  by rewrite Hold.
Qed.

Lemma update_violation_null m t u :
  ¬ no_null_given u →
  ∃ col, ProductTemplate.update_violation m t u = Some (Sqlite.NotNullFailed col).
Proof.
  intros Hnull. unfold ProductTemplate.update_violation, no_null_given in *.
  destruct (ProductTemplate.u_template_name u); cbn; [|by eexists|];
    (destruct (ProductTemplate.u_num_colors u); cbn; [|by eexists|]);
    (destruct (ProductTemplate.u_print_time_minutes u); cbn; [|by eexists|]);
    (destruct (ProductTemplate.u_print_cost u); cbn; [|by eexists|]);
    by destruct Hnull.
Qed.

Lemma update_violation_check m t u n :
  no_null_given u → ProductTemplate.u_num_colors u = ProductTemplate.Value n →
  n < 1 ∨ 4 < n →
  ProductTemplate.update_violation m t u
  = Some (Sqlite.CheckFailed "num_colors BETWEEN 1 AND 4").
Proof.
  intros (H1 & H2 & H3 & H4) Hn Hout. unfold ProductTemplate.update_violation.
  rewrite Hn. cbn.
  assert (negb ((1 <=? n) && (n <=? 4)) = true) as ->.
  { apply negb_true_iff, andb_false_iff.
    destruct Hout; [left; by apply Z.leb_gt|right; by apply Z.leb_gt]. }
  destruct (ProductTemplate.u_template_name u); [|done|];
    (destruct (ProductTemplate.u_print_time_minutes u); [|done|]);
    (destruct (ProductTemplate.u_print_cost u); [|done|]); done.
Qed.

Lemma update_violation_unique m t u name j s :
  no_null_given u → num_colors_in_range u →
  ProductTemplate.u_template_name u = ProductTemplate.Value name →
  j ≠ t → m !! j = Some s → template_name s = name →
  ProductTemplate.update_violation m t u
  = Some (Sqlite.UniqueFailed "product_templates.template_name").
Proof.
  intros (H1 & H2 & H3 & H4) Hrange Hname Hj Hs Hn.
  unfold ProductTemplate.update_violation. rewrite Hname. cbn.
  assert (holds_besides m t (λ r, bool_decide (template_name r = name)) = true) as ->.
  { apply holds_besides_true. exists j, s. split_and!; [done..|].
    by apply bool_decide_eq_true. }
  assert (Hnum : match ProductTemplate.u_num_colors u with
                 | ProductTemplate.Value n => negb ((1 <=? n) && (n <=? 4))
                 | _ => false
                 end = false).
  { destruct (ProductTemplate.u_num_colors u) as [| |n] eqn:E; [done..|].
    destruct (Hrange n E) as [Hlo%Z.leb_le Hhi%Z.leb_le]. by rewrite Hlo, Hhi. }
  rewrite Hnum.
  destruct (ProductTemplate.u_num_colors u); [|done|];
    (destruct (ProductTemplate.u_print_time_minutes u); [|done|]);
    (destruct (ProductTemplate.u_print_cost u); [|done|]); done.
Qed.

Lemma num_colors_out_of_range_false u :
  num_colors_in_range u ∨ ProductTemplate.u_num_colors u = ProductTemplate.Value 0 →
  Admin.num_colors_out_of_range (ProductTemplate.u_num_colors u) = false.
Proof.
  unfold Admin.num_colors_out_of_range, num_colors_in_range.
  intros [Hrange| ->]; [|done].
  destruct (ProductTemplate.u_num_colors u) as [| |n]; [done..|].
  destruct (Hrange n eq_refl). apply andb_false_iff. right.
  apply orb_false_iff. split; [by apply Z.ltb_ge|by apply Z.ltb_ge].
Qed.

(** X10.  [ProductTemplate.update] writes the allowed
    fields the object holds and stamps [updated_at]; the other columns,
    [is_active] among them, stay.  With no allowed field it returns false
    without looking at the table, so the route answers 404 for a template
    that exists.  A name another template holds throws the UNIQUE failure
    (route: 409), [null] for a NOT NULL column throws, and a [num_colors]
    outside 1..4 is answered with 400 by the route unless it is 0, which
    passes the route and throws the CHECK failure.  A throwing update leaves
    the database as it was. *)
Theorem template_update_edits_given_fields :
  (∀ now t u d, no_field_given u →
     ProductTemplate.update now t u d = (d, Return false)
     ∧ Admin.put_templates now t u d
       = (d, Return {| Admin.code := 404; Admin.body := Admin.ErrorBody "Template not found" |}))
  ∧ (∀ now t u d, product_templates d !! t = None →
       ProductTemplate.update now t u d = (d, Return false))
  ∧ (∀ now t u d old,
       product_templates d !! t = Some old → ¬ no_field_given u →
       no_null_given u → num_colors_in_range u → name_free_for d t u →
       ∃ row det,
         let d' := with_product_templates (<[t := row]> (product_templates d))
                     (product_templates_seq d) d in
         ProductTemplate.update now t u d = (d', Return true)
         ∧ template_edited now u old row
         ∧ ProductTemplate.getById t d' = Some det
         ∧ ProductTemplate.detail_row det = row
         ∧ Admin.put_templates now t u d
           = (d', Return {| Admin.code := 200;
                            Admin.body := Admin.TemplateBody (Some det)
                                            "Template updated successfully" |}))
  ∧ (∀ now t u d d' e, ProductTemplate.update now t u d = (d', Throw e) → d' = d)
  ∧ (∀ now t u d old name j s,
       product_templates d !! t = Some old →
       no_null_given u → num_colors_in_range u →
       ProductTemplate.u_template_name u = ProductTemplate.Value name →
       j ≠ t → product_templates d !! j = Some s → template_name s = name →
       ProductTemplate.update now t u d
       = (d, Throw (SqliteError (Sqlite.UniqueFailed "product_templates.template_name")))
       ∧ Admin.put_templates now t u d
         = (d, Return {| Admin.code := 409;
                         Admin.body := Admin.ErrorBody "Template with this name already exists" |}))
  ∧ (∀ now t u d old,
       product_templates d !! t = Some old → ¬ no_null_given u →
       ∃ col, ProductTemplate.update now t u d
              = (d, Throw (SqliteError (Sqlite.NotNullFailed col))))
  ∧ (∀ now t u d old n,
       product_templates d !! t = Some old → no_null_given u →
       ProductTemplate.u_num_colors u = ProductTemplate.Value n → n < 1 ∨ 4 < n →
       ProductTemplate.update now t u d
       = (d, Throw (SqliteError (Sqlite.CheckFailed "num_colors BETWEEN 1 AND 4")))
       ∧ (n ≠ 0 →
          Admin.put_templates now t u d
          = (d, Return {| Admin.code := 400;
                          Admin.body := Admin.ErrorBody "num_colors must be between 1 and 4" |}))
       ∧ (n = 0 →
          Admin.put_templates now t u d
          = (d, Throw (SqliteError (Sqlite.CheckFailed "num_colors BETWEEN 1 AND 4"))))).
Proof.
  split_and!.
  - intros now t u d Hnone.
    assert (Hupd : ProductTemplate.update now t u d = (d, Return false)).
    { unfold ProductTemplate.update. by rewrite (proj2 (no_fields_iff u) Hnone). }
    split; [done|]. unfold Admin.put_templates. rewrite Hupd.
    destruct Hnone as (_ & _ & -> & _). done.
  - intros now t u d Hnone. unfold ProductTemplate.update. rewrite Hnone.
    by destruct (ProductTemplate.no_fields u).
  - intros now t u d old Hold Hgiven Hnull Hrange Hfree.
    exists (ProductTemplate.updated_row now u old). cbn zeta.
    set (d' := with_product_templates _ _ d).
    assert (Hupd : ProductTemplate.update now t u d = (d', Return true)).
    { rewrite (update_stored now t u d old) by done.
      by rewrite update_violation_accepted. }
    destruct (getById_detail d' t (ProductTemplate.updated_row now u old))
      as (det & Hget & _ & Hrow & _).
    { unfold d'. cbn. by rewrite lookup_insert_eq. }
    exists det. split_and!; [done|by apply template_updated_row_edited|done|done|].
    unfold Admin.put_templates. rewrite num_colors_out_of_range_false by (by left).
    by rewrite Hupd, Hget.
  - intros now t u d d' e. unfold ProductTemplate.update.
    destruct (ProductTemplate.no_fields u); [done|].
    destruct (product_templates d !! t); [|done].
    destruct (ProductTemplate.update_violation _ _ _); [|done]. by intros [= <-].
  - intros now t u d old name j s Hold Hnull Hrange Hname Hj Hs Hn.
    assert (Hgiven : ¬ no_field_given u).
    { intros (H & _). by rewrite Hname in H. }
    assert (Hupd : ProductTemplate.update now t u d
                   = (d, Throw (SqliteError
                                  (Sqlite.UniqueFailed "product_templates.template_name")))).
    { rewrite (update_stored now t u d old) by done.
      by rewrite (update_violation_unique _ t u name j s). }
    split; [done|]. unfold Admin.put_templates.
    rewrite num_colors_out_of_range_false by (by left). by rewrite Hupd.
  - intros now t u d old Hold Hnull.
    assert (Hgiven : ¬ no_field_given u).
    { intros (H1 & _ & H2 & H3 & H4). apply Hnull. unfold no_null_given.
      by rewrite H1, H2, H3, H4. }
    destruct (update_violation_null (product_templates d) t u Hnull) as [col Hcol].
    exists col. rewrite (update_stored now t u d old) by done. by rewrite Hcol.
  - intros now t u d old n Hold Hnull Hn Hout.
    assert (Hgiven : ¬ no_field_given u).
    { intros (_ & _ & H & _). by rewrite Hn in H. }
    assert (Hupd : ProductTemplate.update now t u d
                   = (d, Throw (SqliteError
                                  (Sqlite.CheckFailed "num_colors BETWEEN 1 AND 4")))).
    { rewrite (update_stored now t u d old) by done.
      by rewrite (update_violation_check _ t u n). }
    split_and!; [done| |].
    + intros Hne. unfold Admin.put_templates, Admin.num_colors_out_of_range. rewrite Hn.
      rewrite bool_decide_eq_false_2 by done. cbn.
      assert ((n <? 1) || (4 <? n) = true) as ->; [|done].
      apply orb_true_iff. destruct Hout; [left|right]; by apply Z.ltb_lt.
    + intros ->. unfold Admin.put_templates. rewrite Hn. cbn. by rewrite Hupd.
Qed.

(** ** The parts of a template *)

Lemma shows_iff d t l :
  shows d t l
  ↔ is_Some (product_templates d !! t)
    ∧ ∃ pid q r, template_parts d !! (t, pid) = Some q
                 ∧ parts d !! pid = Some r ∧ l = joined_line pid q r.
Proof.
  unfold shows. split.
  - intros (det & Hget & Hl).
    destruct (product_templates d !! t) as [row|] eqn:Hrow.
    + destruct (getById_detail d t row Hrow) as (det' & Hget' & _ & _ & _ & Hin).
      rewrite Hget in Hget'. injection Hget' as <-. split; [by eexists|]. by apply Hin.
    + unfold ProductTemplate.getById in Hget. by rewrite Hrow in Hget.
  - intros [[row Hrow] Hl].
    destruct (getById_detail d t row Hrow) as (det & Hget & _ & _ & _ & Hin).
    exists det. split; [done|]. by apply Hin.
Qed.

Lemma shows_after_insert d t p q r l t' :
  is_Some (product_templates d !! t) → parts d !! p = Some r →
  shows (with_template_parts (<[(t, p) := q]> (template_parts d)) d) t' l
  ↔ (t' = t ∧ l = joined_line p q r)
    ∨ (shows d t' l ∧ (t' = t → ProductTemplate.line_part_id l ≠ p)).
Proof.
  intros Ht Hp. rewrite !shows_iff. cbn. split.
  - intros [Hrow (pid & q' & r' & Hq & Hr & ->)].
    apply lookup_insert_Some in Hq as [[[= <- <-] <-]|[Hne Hq]].
    + left. split; [done|]. congruence.
    + right. split; [split; [done|]; by exists pid, q', r'|].
      intros ->. cbn. congruence.
  - intros [[-> ->]|[[Hrow (pid & q' & r' & Hq & Hr & ->)] Hne]].
    + split; [done|]. exists p, q, r. by rewrite lookup_insert_eq.
    + split; [done|]. exists pid, q', r'. split_and!; [|done..].
      rewrite lookup_insert_ne; [done|]. intros [= -> ->]. by apply Hne.
Qed.

Lemma shows_after_delete d t p l t' :
  shows (with_template_parts (delete (t, p) (template_parts d)) d) t' l
  ↔ shows d t' l ∧ (t' = t → ProductTemplate.line_part_id l ≠ p).
Proof.
  rewrite !shows_iff. cbn. split.
  - intros [Hrow (pid & q' & r' & Hq & Hr & ->)].
    apply lookup_delete_Some in Hq as [Hne Hq].
    split; [split; [done|]; by exists pid, q', r'|]. intros ->. cbn. congruence.
  - intros [[Hrow (pid & q' & r' & Hq & Hr & ->)] Hne].
    split; [done|]. exists pid, q', r'. split_and!; [|done..].
    rewrite lookup_delete_ne; [done|]. intros [= -> ->]. by apply Hne.
Qed.

(** X11.  What [addPart], [updatePartQuantity] and
    [removePart] do to the parts [getById] shows.  [addPart] makes the part
    appear once with the given quantity (1 when none is given), replacing a
    line the part had; [updatePartQuantity] does the same for a part the
    template has and returns false, changing nothing, for one it has not;
    [removePart] takes the line away and returns false when there is none.
    The lines of other parts and of other templates stay.  Adding a part the
    template did not have and removing it again gives back the database. *)
Theorem template_part_calls_show_in_getById :
  (∀ d t p q r, is_Some (product_templates d !! t) → parts d !! p = Some r →
     ∃ d', ProductTemplate.addPart t p q d = (d', Return true)
       ∧ ∀ t' l, shows d' t' l
           ↔ (t' = t ∧ l = joined_line p (default 1 q) r)
             ∨ (shows d t' l ∧ (t' = t → ProductTemplate.line_part_id l ≠ p)))
  ∧ (∀ d t p q q0 r, is_Some (product_templates d !! t) → parts d !! p = Some r →
       template_parts d !! (t, p) = Some q0 →
       ∃ d', ProductTemplate.updatePartQuantity t p q d = (d', true)
         ∧ ProductTemplate.addPart t p (Some q) d = (d', Return true)
         ∧ ∀ t' l, shows d' t' l
             ↔ (t' = t ∧ l = joined_line p q r)
               ∨ (shows d t' l ∧ (t' = t → ProductTemplate.line_part_id l ≠ p)))
  ∧ (∀ d t p q0, template_parts d !! (t, p) = Some q0 →
       ∃ d', ProductTemplate.removePart t p d = (d', true)
         ∧ template_parts d' !! (t, p) = None
         ∧ ∀ t' l, shows d' t' l
             ↔ shows d t' l ∧ (t' = t → ProductTemplate.line_part_id l ≠ p))
  ∧ (∀ d t p q, template_parts d !! (t, p) = None →
       ProductTemplate.updatePartQuantity t p q d = (d, false)
       ∧ ProductTemplate.removePart t p d = (d, false))
  ∧ (∀ d t p q, is_Some (product_templates d !! t) → is_Some (parts d !! p) →
       template_parts d !! (t, p) = None →
       ProductTemplate.removePart t p (ProductTemplate.addPart t p q d).1 = (d, true)).
Proof.
  split_and!.
  - intros d t p q r Ht Hp. eexists. split.
    + apply addPart_existing; [done|by eexists].
    + intros t' l. by apply shows_after_insert.
  - intros d t p q q0 r Ht Hp Hq0. eexists. split_and!.
    + unfold ProductTemplate.updatePartQuantity. by rewrite Hq0.
    + rewrite addPart_existing; [done|done|by eexists].
    + intros t' l. by apply shows_after_insert.
  - intros d t p q0 Hq0. eexists. split_and!.
    + unfold ProductTemplate.removePart. by rewrite Hq0.
    + cbn. by rewrite lookup_delete_eq.
    + intros t' l. apply shows_after_delete.
  - intros d t p q Hnone.
    unfold ProductTemplate.updatePartQuantity, ProductTemplate.removePart.
    by rewrite Hnone.
  - intros d t p q Ht Hp Hnone. rewrite addPart_existing by done. cbn [fst].
    unfold ProductTemplate.removePart. cbn. rewrite lookup_insert_eq.
    rewrite delete_insert_id by done. unfold with_template_parts. cbn.
    by rewrite db_eta.
Qed.

(** X12.  The routes under /admin/api/templates/:id/parts.
    PUT answers 400 and writes nothing when the quantity is missing, zero or
    negative; otherwise it answers 200 and stores the quantity when the
    template has the part, and 404 when it has not: no quantity below 1 is
    stored through it.  POST checks no range: it stores any quantity but zero
    as given, a negative one too.  Its 404 is never sent: for a template or a
    part that is not stored the FOREIGN KEY failure is thrown.  DELETE
    answers 200 when the template had the part and 404 when not. *)
Theorem template_part_routes_check_quantity :
  (∀ t p q d, q = None ∨ (∃ z, q = Some z ∧ z < 1) →
     Admin.put_template_part t p q d
     = (d, {| Admin.code := 400; Admin.body := Admin.ErrorBody "quantity must be at least 1" |}))
  ∧ (∀ t p z q0 d, 1 ≤ z → template_parts d !! (t, p) = Some q0 →
       Admin.put_template_part t p (Some z) d
       = (with_template_parts (<[(t, p) := z]> (template_parts d)) d,
          {| Admin.code := 200;
             Admin.body := Admin.MessageBody "Part quantity updated successfully" |}))
  ∧ (∀ t p z d, 1 ≤ z → template_parts d !! (t, p) = None →
       Admin.put_template_part t p (Some z) d
       = (d, {| Admin.code := 404;
                Admin.body := Admin.ErrorBody "Template or part not found" |}))
  ∧ (∀ t p q d k v,
       template_parts (Admin.put_template_part t p q d).1 !! k = Some v →
       template_parts d !! k = Some v ∨ 1 ≤ v)
  ∧ (∀ t p z d, is_Some (product_templates d !! t) → is_Some (parts d !! p) →
       p ≠ 0 → z ≠ 0 →
       Admin.post_template_parts t (Some p) (Some z) d
       = (with_template_parts (<[(t, p) := z]> (template_parts d)) d,
          Return {| Admin.code := 200;
                    Admin.body := Admin.MessageBody "Part added to template successfully" |}))
  ∧ (∀ t p q d, p ≠ 0 → product_templates d !! t = None ∨ parts d !! p = None →
       Admin.post_template_parts t (Some p) q d
       = (d, Throw (SqliteError Sqlite.ForeignKeyFailed)))
  ∧ (∀ t p q d d' r, Admin.post_template_parts t p q d = (d', Return r) →
       Admin.code r = 400 ∨ Admin.code r = 200)
  ∧ (∀ t p q0 d, template_parts d !! (t, p) = Some q0 →
       Admin.delete_template_part t p d
       = (with_template_parts (delete (t, p) (template_parts d)) d,
          {| Admin.code := 200;
             Admin.body := Admin.MessageBody "Part removed from template successfully" |}))
  ∧ (∀ t p d, template_parts d !! (t, p) = None →
       Admin.delete_template_part t p d
       = (d, {| Admin.code := 404;
                Admin.body := Admin.ErrorBody "Template or part not found" |})).
Proof.
  assert (Hput : ∀ t p z d, 1 ≤ z →
            Admin.put_template_part t p (Some z) d
            = match ProductTemplate.updatePartQuantity t p z d with
              | (d', true) =>
                  (d', {| Admin.code := 200;
                          Admin.body := Admin.MessageBody "Part quantity updated successfully" |})
              | (d', false) =>
                  (d', {| Admin.code := 404;
                          Admin.body := Admin.ErrorBody "Template or part not found" |})
              end).
  { intros t p z d Hz. unfold Admin.put_template_part. cbn [or_int].
    destruct (decide (z = 0)) as [->|_]; [lia|].
    rewrite bool_decide_eq_false_2 by lia.
    by rewrite (proj2 (Z.ltb_ge z 1)) by lia. }
  assert (Hbad : ∀ t p q d, q = None ∨ (∃ z, q = Some z ∧ z < 1) →
            Admin.put_template_part t p q d
            = (d, {| Admin.code := 400;
                     Admin.body := Admin.ErrorBody "quantity must be at least 1" |})).
  { intros t p q d [->|(z & -> & Hz)]; [done|]. unfold Admin.put_template_part. cbn [or_int].
    destruct (decide (z = 0)) as [->|Hne]; [done|].
    rewrite bool_decide_eq_false_2 by done. by rewrite (proj2 (Z.ltb_lt z 1)) by lia. }
  split_and!.
  - done.
  - intros t p z q0 d Hz Hq0. rewrite Hput by done.
    unfold ProductTemplate.updatePartQuantity. by rewrite Hq0.
  - intros t p z d Hz Hnone. rewrite Hput by done.
    unfold ProductTemplate.updatePartQuantity. by rewrite Hnone.
  - intros t p q d k v.
    destruct q as [z|]; [destruct (decide (1 ≤ z))|].
    + rewrite Hput by done. unfold ProductTemplate.updatePartQuantity.
      destruct (template_parts d !! (t, p)); cbn; [|by left].
      intros [[_ <-]|[_ H]]%lookup_insert_Some; [by right|by left].
    + rewrite Hbad; [by left|]. right. exists z. split; [done|lia].
    + rewrite Hbad; [by left|by left].
  - intros t p z d Ht Hp Hpne Hz. unfold Admin.post_template_parts. cbn [or_int].
    rewrite !decide_False by done. rewrite bool_decide_eq_false_2 by done.
    by rewrite addPart_existing.
  - intros t p q d Hpne Hmiss. unfold Admin.post_template_parts. cbn [or_int].
    rewrite decide_False by done. rewrite bool_decide_eq_false_2 by done.
    by rewrite addPart_dangling.
  - intros t p q d d' r. unfold Admin.post_template_parts.
    destruct (bool_decide _); [intros [= _ <-]; by left|].
    unfold ProductTemplate.addPart.
    destruct (ProductTemplate.references_ok _ _ _); [|done].
    intros [= _ <-]. by right.
  - intros t p q0 d Hq0. unfold Admin.delete_template_part, ProductTemplate.removePart.
    by rewrite Hq0.
  - intros t p d Hnone. unfold Admin.delete_template_part, ProductTemplate.removePart.
    by rewrite Hnone.
Qed.

(** ** Editing colors *)

Lemma put_colors_valid now id b d :
  valid_color_body b →
  Admin.put_colors now id b d
  = match Color.update now id (Admin.color_data b) d with
    | (d', Return None) =>
        (d', Return {| Admin.code := 404; Admin.body := Admin.ErrorBody "Color not found" |})
    | (d', Return (Some color)) =>
        (d', Return {| Admin.code := 200;
                       Admin.body := Admin.ColorBody (Some color) "Color updated successfully" |})
    | (d', Throw e) =>
        if includes "UNIQUE constraint failed" (exn_message e)
        then (d', Return {| Admin.code := 409;
                            Admin.body := Admin.ErrorBody "Color with this name already exists" |})
        else (d', Throw e)
    end.
Proof. intros [H1 H2]. unfold Admin.put_colors. by rewrite H1, H2. Qed.

(** X13.  [Color.update] and PUT /admin/api/colors/:id.  A body
    without [color_name] or [hex_code] is answered with 400.  For an id that
    is not stored [update] returns null and the route answers 404.  When
    another color holds the new name, [update] throws the UNIQUE failure, the
    route answers 409 and nothing is written.  Otherwise [update] writes the
    columns of the body, keeps [is_active] and [created_at], stamps
    [updated_at], touches no other row, and returns the row, which the route
    sends back with 200; keeping the color's own name is no clash. *)
Theorem color_update_edits_or_reports :
  (∀ now id b d, ¬ valid_color_body b →
     Admin.put_colors now id b d
     = (d, Return {| Admin.code := 400;
                     Admin.body := Admin.ErrorBody "color_name and hex_code are required" |}))
  ∧ (∀ now id cd d, colors d !! id = None →
       Color.update now id cd d = (d, Return None)
       ∧ ∀ b, valid_color_body b → Admin.color_data b = cd →
           Admin.put_colors now id b d
           = (d, Return {| Admin.code := 404; Admin.body := Admin.ErrorBody "Color not found" |}))
  ∧ (∀ now id cd d old j s,
       colors d !! id = Some old → j ≠ id → colors d !! j = Some s →
       color_name s = Color.data_color_name cd →
       Color.update now id cd d
       = (d, Throw (SqliteError (Sqlite.UniqueFailed "colors.color_name")))
       ∧ ∀ b, valid_color_body b → Admin.color_data b = cd →
           Admin.put_colors now id b d
           = (d, Return {| Admin.code := 409;
                           Admin.body := Admin.ErrorBody "Color with this name already exists" |}))
  ∧ (∀ now id cd d old,
       colors d !! id = Some old →
       (∀ j s, j ≠ id → colors d !! j = Some s → color_name s ≠ Color.data_color_name cd) →
       ∃ row,
         let d' := with_colors (<[id := row]> (colors d)) (colors_seq d) d in
         Color.update now id cd d = (d', Return (Some (id, row)))
         ∧ color_edited now cd old row
         ∧ ∀ b, valid_color_body b → Admin.color_data b = cd →
             Admin.put_colors now id b d
             = (d', Return {| Admin.code := 200;
                              Admin.body := Admin.ColorBody (Some (id, row))
                                              "Color updated successfully" |})).
Proof.
  split_and!.
  - intros now id b d Hbad. unfold Admin.put_colors, valid_color_body in *.
    destruct (falsy_str (Admin.body_color_name b)); [done|].
    destruct (falsy_str (Admin.body_hex_code b)); [done|]. by destruct Hbad.
  - intros now id cd d Hnone.
    assert (Hupd : Color.update now id cd d = (d, Return None)).
    { unfold Color.update. by rewrite Hnone. }
    split; [done|]. intros b Hb <-. rewrite put_colors_valid by done. by rewrite Hupd.
  - intros now id cd d old j s Hold Hj Hs Hn.
    assert (Hupd : Color.update now id cd d
                   = (d, Throw (SqliteError (Sqlite.UniqueFailed "colors.color_name")))).
    { unfold Color.update. rewrite Hold.
      assert (Color.name_taken_besides d id (Color.data_color_name cd) = true) as ->; [|done].
      apply holds_besides_true. exists j, s. split_and!; [done..|].
      by apply bool_decide_eq_true. }
    split; [done|]. intros b Hb <-. rewrite put_colors_valid by done. by rewrite Hupd.
  - intros now id cd d old Hold Hfree.
    exists (Color.updated_row now cd old). cbn zeta.
    assert (Hupd : Color.update now id cd d
                   = (with_colors (<[id := Color.updated_row now cd old]> (colors d))
                        (colors_seq d) d,
                      Return (Some (id, Color.updated_row now cd old)))).
    { unfold Color.update. rewrite Hold.
      assert (Color.name_taken_besides d id (Color.data_color_name cd) = false) as ->.
      { destruct (Color.name_taken_besides _ _ _) eqn:E; [|done].
        apply holds_besides_true in E as (j & s & Hj & Hs & Hn).
        apply bool_decide_eq_true in Hn. by destruct (Hfree j s). }
      unfold Color.getById. cbn. by rewrite lookup_insert_eq. }
    split_and!; [done|by repeat split|].
    intros b Hb <-. rewrite put_colors_valid by done. by rewrite Hupd.
Qed.

(** ** Creating and editing parts *)

Lemma part_unique_violation_some m skip pd e :
  Part.unique_violation m skip pd = Some e →
  (∃ col, e = Sqlite.UniqueFailed col)
  ∧ includes "UNIQUE constraint failed" (Sqlite.message e) = true
  ∧ ∃ j s, Some j ≠ skip ∧ m !! j = Some s
           ∧ (part_name s = Part.data_part_name pd
              ∨ ∃ c, Part.data_part_code pd = Some c ∧ part_code s = Some c).
Proof.
  unfold Part.unique_violation.
  set (others := match skip with
                 | Some self => holds_besides m self
                 | None => holds m
                 end).
  assert (Hothers : ∀ P, others P = true →
            ∃ j s, Some j ≠ skip ∧ m !! j = Some s ∧ P s = true).
  { intros P HP. unfold others in HP. destruct skip as [self|].
    - apply holds_besides_true in HP as (j & s & Hj & Hs & HPs).
      exists j, s. split_and!; [congruence|done..].
    - apply holds_true in HP as (j & s & Hs & HPs). by exists j, s. }
  destruct (others (Part.code_clash _)) eqn:E1.
  - intros [= <-]. split; [by eexists|]. split; [done|].
    destruct (Hothers _ E1) as (j & s & Hj & Hs & HP). exists j, s. split_and!; [done..|].
    right. unfold Part.code_clash in HP. destruct (Part.data_part_code pd) as [c|]; [|done].
    exists c. split; [done|]. by apply bool_decide_eq_true in HP.
  - destruct (others (λ r, bool_decide (part_name r = _))) eqn:E2; [|done].
    intros [= <-]. split; [by eexists|]. split; [done|].
    destruct (Hothers _ E2) as (j & s & Hj & Hs & HP). exists j, s. split_and!; [done..|].
    left. by apply bool_decide_eq_true in HP.
Qed.

Lemma part_unique_violation_clash d skip pd :
  part_clash d skip pd →
  ∃ col, Part.unique_violation (parts d) skip pd = Some (Sqlite.UniqueFailed col)
         ∧ includes "UNIQUE constraint failed" (Sqlite.message (Sqlite.UniqueFailed col))
           = true.
Proof.
  intros (j & s & Hj & Hs & Hclash).
  destruct (Part.unique_violation (parts d) skip pd) as [e|] eqn:E.
  - destruct (part_unique_violation_some _ _ _ _ E) as ([col ->] & Hmsg & _).
    by exists col.
  - destruct (part_unique_violation_none _ _ _ E j s Hj Hs) as [Hn Hc].
    destruct Hclash as [?|(c & Hpd & Hsc)]; [done|]. by destruct (Hc c).
Qed.

Lemma part_unique_violation_free d skip pd :
  ¬ part_clash d skip pd → Part.unique_violation (parts d) skip pd = None.
Proof.
  intros Hfree. destruct (Part.unique_violation (parts d) skip pd) as [e|] eqn:E; [|done].
  apply part_unique_violation_some in E as (_ & _ & j & s & H). destruct Hfree.
  by exists j, s.
Qed.

Lemma post_parts_valid now b d :
  valid_part_body b →
  Admin.post_parts now b d
  = match Part.create now (Admin.part_data b) d with
    | (d', Return part) =>
        (d', Return {| Admin.part_reply_code := 201;
                       Admin.part_reply_body := Admin.PartBody part "Part created successfully" |})
    | (d', Throw e) =>
        if includes "UNIQUE constraint failed" (exn_message e)
        then (d', Return {| Admin.part_reply_code := 409;
                            Admin.part_reply_body :=
                              Admin.PartErrorBody "Part with this code or name already exists" |})
        else (d', Throw e)
    end.
Proof. intros [H1 H2]. unfold Admin.post_parts. by rewrite H1, H2. Qed.

Lemma put_parts_valid now id b d :
  valid_part_body b →
  Admin.put_parts now id b d
  = match Part.update now id (Admin.part_data b) d with
    | (d', Return None) =>
        (d', Return {| Admin.part_reply_code := 404;
                       Admin.part_reply_body := Admin.PartErrorBody "Part not found" |})
    | (d', Return (Some part)) =>
        (d', Return {| Admin.part_reply_code := 200;
                       Admin.part_reply_body :=
                         Admin.PartBody (Some part) "Part updated successfully" |})
    | (d', Throw e) =>
        if includes "UNIQUE constraint failed" (exn_message e)
        then (d', Return {| Admin.part_reply_code := 409;
                            Admin.part_reply_body :=
                              Admin.PartErrorBody "Part with this code or name already exists" |})
        else (d', Throw e)
    end.
Proof. intros [H1 H2]. unfold Admin.put_parts. by rewrite H1, H2. Qed.

Lemma part_body_invalid b :
  ¬ valid_part_body b →
  falsy_str (Admin.body_part_code b) || falsy_str (Admin.body_part_name b) = true.
Proof.
  unfold valid_part_body. intros Hbad.
  destruct (falsy_str (Admin.body_part_code b)); [done|].
  destruct (falsy_str (Admin.body_part_name b)); [done|]. by destruct Hbad.
Qed.

(** X14.  [Part.create] and POST /admin/api/parts.  A body
    without [part_code] or [part_name] is answered with 400.  When a stored
    part holds the new name or the new code, [create] throws a UNIQUE
    failure, the route answers 409 and nothing is written.  Otherwise
    [create] adds one active row under a new id, leaves every other row and
    table alone, and returns that row, which the route sends back with 201.
    Called without a code, [create] stores NULL, which clashes with no
    part. *)
Theorem part_create_rejects_duplicate_code_or_name :
  (∀ now b d, ¬ valid_part_body b →
     Admin.post_parts now b d
     = (d, Return {| Admin.part_reply_code := 400;
                     Admin.part_reply_body :=
                       Admin.PartErrorBody "part_code and part_name are required" |}))
  ∧ (∀ now pd d, part_clash d None pd →
       (∃ col, Part.create now pd d = (d, Throw (SqliteError (Sqlite.UniqueFailed col))))
       ∧ ∀ b, valid_part_body b → Admin.part_data b = pd →
           Admin.post_parts now b d
           = (d, Return {| Admin.part_reply_code := 409;
                           Admin.part_reply_body :=
                             Admin.PartErrorBody "Part with this code or name already exists" |}))
  ∧ (∀ now pd d, ¬ part_clash d None pd →
       ∃ id row,
         let d' := with_parts (<[id := row]> (parts d)) id d in
         Part.create now pd d = (d', Return (Some (id, row)))
         ∧ parts d !! id = None
         ∧ Part.getById id d' = Some (id, row)
         ∧ stores_part pd row
         ∧ ∀ b, valid_part_body b → Admin.part_data b = pd →
             Admin.post_parts now b d
             = (d', Return {| Admin.part_reply_code := 201;
                              Admin.part_reply_body :=
                                Admin.PartBody (Some (id, row)) "Part created successfully" |}))
  ∧ (∀ now pd d,
       Part.data_part_code pd = None →
       (∀ j s, parts d !! j = Some s → part_name s ≠ Part.data_part_name pd) →
       ∃ id row d', Part.create now pd d = (d', Return (Some (id, row)))
                    ∧ part_code row = None).
Proof.
  assert (Hfresh : ∀ now pd d, ¬ part_clash d None pd →
            Part.create now pd d
            = (with_parts (<[next_rowid (parts d) (parts_seq d) := Part.new_row now pd]>
                             (parts d))
                 (next_rowid (parts d) (parts_seq d)) d,
               Return (Some (next_rowid (parts d) (parts_seq d), Part.new_row now pd)))).
  { intros now pd d Hfree. unfold Part.create.
    rewrite part_unique_violation_free by done.
    unfold Part.getById. cbn. by rewrite lookup_insert_eq. }
  split_and!.
  - intros now b d Hbad. unfold Admin.post_parts. by rewrite part_body_invalid.
  - intros now pd d Hclash.
    destruct (part_unique_violation_clash d None pd Hclash) as (col & He & Hmsg).
    assert (Hc : Part.create now pd d = (d, Throw (SqliteError (Sqlite.UniqueFailed col)))).
    { unfold Part.create. by rewrite He. }
    split; [by exists col|].
    intros b Hb <-. rewrite post_parts_valid by done. rewrite Hc. cbn [exn_message].
    by rewrite Hmsg.
  - intros now pd d Hfree. eexists _, _. cbn zeta. rewrite Hfresh by done.
    split_and!; [done|apply next_rowid_fresh| |by repeat split|].
    + unfold Part.getById. cbn. by rewrite lookup_insert_eq.
    + intros b Hb <-. rewrite post_parts_valid by done. by rewrite Hfresh.
  - intros now pd d Hcode Hname. eexists _, _, _. rewrite Hfresh.
    + split; [done|]. done.
    + intros (j & s & _ & Hs & [Hn|(c & Hc & _)]); [by apply (Hname j s)|congruence].
Qed.

(** X15.  [Part.update] and PUT /admin/api/parts/:id.  A body
    without [part_code] or [part_name] is answered with 400.  For an id that
    is not stored [update] returns null and the route answers 404.  When
    another part holds the new name or the new code, [update] throws a UNIQUE
    failure, the route answers 409 and nothing is written.  Otherwise
    [update] writes code, name and description, keeps [is_active] and
    [created_at], stamps [updated_at], touches no other row, and returns the
    row, which the route sends back with 200. *)
Theorem part_update_edits_or_reports :
  (∀ now id b d, ¬ valid_part_body b →
     Admin.put_parts now id b d
     = (d, Return {| Admin.part_reply_code := 400;
                     Admin.part_reply_body :=
                       Admin.PartErrorBody "part_code and part_name are required" |}))
  ∧ (∀ now id pd d, parts d !! id = None →
       Part.update now id pd d = (d, Return None)
       ∧ ∀ b, valid_part_body b → Admin.part_data b = pd →
           Admin.put_parts now id b d
           = (d, Return {| Admin.part_reply_code := 404;
                           Admin.part_reply_body := Admin.PartErrorBody "Part not found" |}))
  ∧ (∀ now id pd d old, parts d !! id = Some old → part_clash d (Some id) pd →
       (∃ col, Part.update now id pd d = (d, Throw (SqliteError (Sqlite.UniqueFailed col))))
       ∧ ∀ b, valid_part_body b → Admin.part_data b = pd →
           Admin.put_parts now id b d
           = (d, Return {| Admin.part_reply_code := 409;
                           Admin.part_reply_body :=
                             Admin.PartErrorBody "Part with this code or name already exists" |}))
  ∧ (∀ now id pd d old, parts d !! id = Some old → ¬ part_clash d (Some id) pd →
       ∃ row,
         let d' := with_parts (<[id := row]> (parts d)) (parts_seq d) d in
         Part.update now id pd d = (d', Return (Some (id, row)))
         ∧ part_edited now pd old row
         ∧ ∀ b, valid_part_body b → Admin.part_data b = pd →
             Admin.put_parts now id b d
             = (d', Return {| Admin.part_reply_code := 200;
                              Admin.part_reply_body :=
                                Admin.PartBody (Some (id, row)) "Part updated successfully" |})).
Proof.
  split_and!.
  - intros now id b d Hbad. unfold Admin.put_parts. by rewrite part_body_invalid.
  - intros now id pd d Hnone.
    assert (Hupd : Part.update now id pd d = (d, Return None)).
    { unfold Part.update. by rewrite Hnone. }
    split; [done|]. intros b Hb <-. rewrite put_parts_valid by done. by rewrite Hupd.
  - intros now id pd d old Hold Hclash.
    destruct (part_unique_violation_clash d (Some id) pd Hclash) as (col & He & Hmsg).
    assert (Hupd : Part.update now id pd d
                   = (d, Throw (SqliteError (Sqlite.UniqueFailed col)))).
    { unfold Part.update. by rewrite Hold, He. }
    split; [by exists col|].
    intros b Hb <-. rewrite put_parts_valid by done. rewrite Hupd. cbn [exn_message].
    by rewrite Hmsg.
  - intros now id pd d old Hold Hfree.
    exists (Part.updated_row now pd old). cbn zeta.
    assert (Hupd : Part.update now id pd d
                   = (with_parts (<[id := Part.updated_row now pd old]> (parts d))
                        (parts_seq d) d,
                      Return (Some (id, Part.updated_row now pd old)))).
    { unfold Part.update. rewrite Hold, part_unique_violation_free by done.
      unfold Part.getById. cbn. by rewrite lookup_insert_eq. }
    split_and!; [done|by repeat split|].
    intros b Hb <-. rewrite put_parts_valid by done. by rewrite Hupd.
Qed.

(** ** Looking a part up by its code *)

Lemma head_filter_None {A} (P : A → Prop) `{!∀ x, Decision (P x)} (l : list A) :
  head (filter P l) = None ↔ ∀ x, x ∈ l → ¬ P x.
Proof.
  split.
  - intros Hnone x Hx HP.
    assert (Hin : x ∈ filter P l) by (by apply list_elem_of_filter).
    destruct (filter P l); [inversion Hin|done].
  - intros Hall. destruct (filter P l) as [|x l'] eqn:E; [done|].
    assert (Hin : x ∈ filter P l) by (rewrite E; apply elem_of_cons; by left).
    apply list_elem_of_filter in Hin as [HP Hx]. by destruct (Hall x).
Qed.

Lemma head_filter_Some {A} (P : A → Prop) `{!∀ x, Decision (P x)} (l : list A) x :
  head (filter P l) = Some x → x ∈ l ∧ P x.
Proof.
  intros Hhead. destruct (filter P l) as [|y l'] eqn:E; [done|]. injection Hhead as ->.
  assert (Hin : x ∈ filter P l) by (rewrite E; apply elem_of_cons; by left).
  apply list_elem_of_filter in Hin. tauto.
Qed.

Lemma getByCode_Some code d id r :
  Part.getByCode code d = Some (id, r) → parts d !! id = Some r ∧ part_code r = Some code.
Proof.
  intros H. apply head_filter_Some in H as [Hin HP].
  apply elem_of_map_to_list in Hin. by apply bool_decide_unpack in HP.
Qed.

Lemma getByCode_stored code d id r :
  unique_on (parts d) part_code →
  parts d !! id = Some r → part_code r = Some code →
  Part.getByCode code d = Some (id, r).
Proof.
  intros Hu Hr Hc. destruct (Part.getByCode code d) as [[j s]|] eqn:E.
  - apply getByCode_Some in E as [Hs Hsc].
    assert (j = id) as -> by (by eapply Hu). rewrite Hr in Hs. by injection Hs as ->.
  - unfold Part.getByCode in E. rewrite head_filter_None in E.
    destruct (E (id, r)); [by apply elem_of_map_to_list|]. by apply bool_decide_pack.
Qed.

(** X16.  [Part.getByCode] returns a stored part that carries
    the code, and nothing exactly when no stored part carries it.  In a table
    whose codes are not repeated it returns the part that carries the code;
    so a part [create] has just stored is found under its code, and a part
    whose code [update] changed is found under the new code. *)
Theorem getByCode_finds_the_part_with_the_code :
  (∀ code d id r, Part.getByCode code d = Some (id, r) →
     parts d !! id = Some r ∧ part_code r = Some code)
  ∧ (∀ code d, Part.getByCode code d = None
       ↔ ∀ id r, parts d !! id = Some r → part_code r ≠ Some code)
  ∧ (∀ code d id r, unique_keys d → parts d !! id = Some r → part_code r = Some code →
       Part.getByCode code d = Some (id, r))
  ∧ (∀ now pd d d' code part, unique_keys d →
       Part.data_part_code pd = Some code →
       Part.create now pd d = (d', Return (Some part)) →
       Part.getByCode code d' = Some part)
  ∧ (∀ now id pd d d' code part, unique_keys d →
       Part.data_part_code pd = Some code →
       Part.update now id pd d = (d', Return (Some part)) →
       Part.getByCode code d' = Some part).
Proof.
  split_and!.
  - apply getByCode_Some.
  - intros code d. unfold Part.getByCode. rewrite head_filter_None. split.
    + intros H id r Hr Hc. destruct (H (id, r)); [by apply elem_of_map_to_list|].
      by apply bool_decide_pack.
    + intros H [id r] Hin HP. apply elem_of_map_to_list in Hin.
      apply bool_decide_unpack in HP. by destruct (H id r).
  - intros code d id r (_ & Hu & _). by apply getByCode_stored.
  - intros now pd d d' code [id r] (_ & Hc & Hn & _) Hcode Hcreate.
    destruct (part_run_unique now (Part.Create pd) d) as [Hu' _]; [done|].
    cbn [Part.run] in Hu'. rewrite Hcreate in Hu'. cbn [fst] in Hu'.
    unfold Part.create in Hcreate.
    destruct (Part.unique_violation _ _ _); [done|].
    injection Hcreate as <- Hget. unfold Part.getById in Hget.
    cbn in Hget. rewrite lookup_insert_eq in Hget. injection Hget as <- <-.
    apply getByCode_stored; [done| |done]. cbn. by rewrite lookup_insert_eq.
  - intros now id pd d d' code [id' r] (_ & Hc & Hn & _) Hcode Hupdate.
    destruct (part_run_unique now (Part.Update id pd) d) as [Hu' _]; [done|].
    cbn [Part.run] in Hu'. rewrite Hupdate in Hu'. cbn [fst] in Hu'.
    unfold Part.update in Hupdate.
    destruct (parts d !! id); [|done].
    destruct (Part.unique_violation _ _ _); [done|].
    injection Hupdate as <- Hget. unfold Part.getById in Hget.
    cbn in Hget. rewrite lookup_insert_eq in Hget. injection Hget as <- <-.
    apply getByCode_stored; [done| |done]. cbn. by rewrite lookup_insert_eq.
Qed.

(** ** The two views *)

Lemma NoDup_fst_filter {A} (P : Z * A → Prop) `{!∀ x, Decision (P x)} (l : list (Z * A)) :
  NoDup l.*1 → NoDup (filter P l).*1.
Proof.
  induction l as [|x l IH]; [done|]. rewrite fmap_cons. intros [Hx Hl]%NoDup_cons.
  destruct (decide (P x)).
  - rewrite filter_cons_True by done. rewrite fmap_cons. apply NoDup_cons.
    split; [|by apply IH].
    intros Hin. apply Hx. apply list_elem_of_fmap in Hin as (y & -> & Hy).
    apply list_elem_of_filter in Hy as [_ Hy]. apply list_elem_of_fmap. by exists y.
  - rewrite filter_cons_False by done. by apply IH.
Qed.

Lemma NoDup_omap_key {A B} (f : Z * A → option B) (g : B → Z) (l : list (Z * A)) :
  (∀ x y, f x = Some y → g y = x.1) → NoDup l.*1 → NoDup (g <$> omap f l).
Proof.
  intros Hkey. induction l as [|x l IH]; [constructor|].
  cbn. intros [Hx Hl]%NoDup_cons. destruct (f x) as [y|] eqn:Hy; [|by apply IH].
  cbn. apply NoDup_cons. split; [|by apply IH].
  intros Hin. apply Hx. apply list_elem_of_fmap in Hin as (y' & Hg & Hy').
  apply list_elem_of_omap in Hy' as (x' & Hx' & Hf).
  apply list_elem_of_fmap. exists x'. split; [|done].
  rewrite <- (Hkey x y Hy), Hg. by apply Hkey.
Qed.

Lemma NoDup_fmap_filter {A B} (g : A → B) (P : A → Prop) `{!∀ x, Decision (P x)}
    (l : list A) :
  NoDup (g <$> l) → NoDup (g <$> filter P l).
Proof.
  induction l as [|x l IH]; [done|]. rewrite fmap_cons. intros [Hx Hl]%NoDup_cons.
  destruct (decide (P x)).
  - rewrite filter_cons_True by done. rewrite fmap_cons. apply NoDup_cons.
    split; [|by apply IH].
    intros Hin. apply Hx. apply list_elem_of_fmap in Hin as (y & -> & Hy).
    apply list_elem_of_filter in Hy as [_ Hy]. apply list_elem_of_fmap. by exists y.
  - rewrite filter_cons_False by done. by apply IH.
Qed.

Lemma counts_remove_dups (l : list Z) (P : Z → Prop) :
  (∀ x, x ∈ l ↔ P x) → counts (Z.of_nat (length (remove_dups l))) P.
Proof.
  intros H. exists (remove_dups l). split_and!; [apply NoDup_remove_dups| |done].
  intros x. by rewrite elem_of_remove_dups.
Qed.

Lemma counts_unique n m P : counts n P → counts m P → n = m.
Proof.
  intros (l & Hl & Hin & ->) (k & Hk & Hin' & ->). f_equal.
  apply Permutation_length, NoDup_Permutation; [done..|].
  intros x. by rewrite Hin, Hin'.
Qed.

Lemma elem_of_omap_id {A} (l : list (option A)) x : x ∈ omap id l ↔ Some x ∈ l.
Proof.
  rewrite list_elem_of_omap. split.
  - intros (y & Hy & Hid). cbn in Hid. by subst y.
  - intros H. by exists (Some x).
Qed.

Lemma products_of_elem d orderId p row :
  (p, row) ∈ Views.products_of d orderId
  ↔ products d !! p = Some row ∧ product_order_id row = orderId.
Proof.
  unfold Views.products_of. rewrite list_elem_of_filter, elem_of_map_to_list. cbn. tauto.
Qed.

Lemma items_of_elem d productId i it :
  (i, it) ∈ Views.items_of d productId
  ↔ items d !! i = Some it ∧ item_product_id it = productId.
Proof.
  unfold Views.items_of. rewrite list_elem_of_filter, elem_of_map_to_list. cbn. tauto.
Qed.

Lemma joined_rows_elem d orderId x y :
  (x, y) ∈ Views.joined_rows d orderId
  ↔ (x = None ∧ y = None ∧ Views.products_of d orderId = [])
    ∨ ∃ p row, x = Some p ∧ (p, row) ∈ Views.products_of d orderId
        ∧ ((y = None ∧ Views.items_of d p = [])
           ∨ ∃ i it, y = Some i ∧ (i, it) ∈ Views.items_of d p).
Proof.
  unfold Views.joined_rows.
  destruct (Views.products_of d orderId) as [|p0 ps] eqn:Hps.
  - rewrite list_elem_of_singleton. split.
    + intros [= -> ->]. by left.
    + intros [(-> & -> & _)|(p & row & _ & Hin & _)]; [done|inversion Hin].
  - rewrite list_elem_of_bind. split.
    + intros ([p row] & Hxy & Hp). right. exists p, row. cbn [fst] in Hxy.
      destruct (Views.items_of d p) as [|i0 its] eqn:Hits.
      * apply list_elem_of_singleton in Hxy as [= -> ->]. split_and!; [done..|by left].
      * apply (list_elem_of_fmap (λ i : Z * item_row, (Some p, Some i.1)))
          in Hxy as ([i it] & [= -> ->] & Hi).
        split_and!; [done..|]. right. by exists i, it.
    + intros [(_ & _ & ?)|(p & row & -> & Hp & Hy)]; [done|].
      exists (p, row). split; [|done]. cbn [fst].
      destruct Hy as [[-> ->]|(i & it & -> & Hi)].
      * by apply list_elem_of_singleton.
      * destruct (Views.items_of d p) as [|i0 its]; [inversion Hi|].
        apply (list_elem_of_fmap (λ i : Z * item_row, (Some p, Some i.1))).
        by exists (i, it).
Qed.

Lemma item_full_of_Some d i it r :
  Views.item_full_of d (i, it) = Some r
  ↔ ∃ p o, products d !! item_product_id it = Some p
           ∧ orders d !! product_order_id p = Some o ∧ is_archived o = 0
           ∧ r = full_row i it p o.
Proof.
  unfold Views.item_full_of. cbn [fst snd]. split.
  - destruct (products d !! item_product_id it) as [p|]; [|done].
    destruct (orders d !! product_order_id p) as [o|] eqn:Ho; [|done].
    case_bool_decide; [|done]. intros Hr. apply (inj Some) in Hr. subst r.
    by exists p, o.
  - intros (p & o & -> & -> & Ha & ->). by rewrite bool_decide_eq_true_2.
Qed.

Lemma view_items_full_elem d r :
  r ∈ Views.view_items_full d
  ↔ ∃ i it p o, items d !! i = Some it ∧ products d !! item_product_id it = Some p
                ∧ orders d !! product_order_id p = Some o ∧ is_archived o = 0
                ∧ r = full_row i it p o.
Proof.
  unfold Views.view_items_full. rewrite list_elem_of_omap. split.
  - intros ([i it] & Hin & Hr). apply elem_of_map_to_list in Hin.
    apply item_full_of_Some in Hr as (p & o & H). by exists i, it, p, o.
  - intros (i & it & p & o & Hi & H). exists (i, it). split.
    + by apply elem_of_map_to_list.
    + apply item_full_of_Some. by exists p, o.
Qed.

Lemma view_items_full_NoDup d : NoDup (Views.full_item_id <$> Views.view_items_full d).
Proof.
  apply NoDup_omap_key; [|apply NoDup_fst_map_to_list].
  intros [i it] r Hr. apply item_full_of_Some in Hr as (p & o & _ & _ & _ & ->). done.
Qed.

Lemma product_count_counts d orderId :
  counts (Views.count_distinct (Views.joined_rows d orderId).*1)
    (product_in_order d orderId).
Proof.
  apply counts_remove_dups. intros x. rewrite elem_of_omap_id, list_elem_of_fmap.
  unfold product_in_order. split.
  - intros ([x' y] & Hx & Hin). cbn in Hx. subst x'.
    apply joined_rows_elem in Hin as [(? & _)|(p & row & [= <-] & Hp & _)]; [done|].
    exists row. by apply products_of_elem.
  - intros (row & Hrow & Ho).
    assert (Hp : (x, row) ∈ Views.products_of d orderId) by (by apply products_of_elem).
    destruct (Views.items_of d x) as [|[i it] its] eqn:Hits.
    + exists (Some x, None). split; [done|]. apply joined_rows_elem. right.
      exists x, row. split_and!; [done..|]. by left.
    + exists (Some x, Some i). split; [done|]. apply joined_rows_elem. right.
      exists x, row. split_and!; [done..|]. right. exists i, it. split; [done|].
      rewrite Hits. apply elem_of_cons. by left.
Qed.

Lemma item_count_counts d orderId :
  counts (Views.count_distinct (Views.joined_rows d orderId).*2)
    (item_in_order d orderId).
Proof.
  apply counts_remove_dups. intros i. rewrite elem_of_omap_id, list_elem_of_fmap.
  unfold item_in_order, product_in_order. split.
  - intros ([x y] & Hy & Hin). cbn in Hy. subst y.
    apply joined_rows_elem in Hin
      as [(_ & ? & _)|(p & row & -> & Hp & [[? _]|(i' & it & [= <-] & Hi)])]; [done..|].
    apply products_of_elem in Hp as [Hrow Ho]. apply items_of_elem in Hi as [Hit Hp].
    exists it. split; [done|]. exists row. by rewrite Hp.
  - intros (it & Hit & row & Hrow & Ho).
    exists (Some (item_product_id it), Some i). split; [done|].
    apply joined_rows_elem. right. exists (item_product_id it), row.
    split_and!; [done|by apply products_of_elem|].
    right. exists i, it. split; [done|]. by apply items_of_elem.
Qed.

Lemma view_rows_counts d orderId o :
  orders d !! orderId = Some o → is_archived o = 0 →
  counts (Z.of_nat (length (filter (λ r, Views.full_order_id r = orderId)
                              (Views.view_items_full d))))
    (item_in_order d orderId).
Proof.
  intros Ho Ha.
  exists (Views.full_item_id <$> filter (λ r, Views.full_order_id r = orderId)
                                   (Views.view_items_full d)).
  split_and!.
  - apply NoDup_fmap_filter, view_items_full_NoDup.
  - intros i. rewrite list_elem_of_fmap. unfold item_in_order, product_in_order. split.
    + intros (r & -> & Hr). apply list_elem_of_filter in Hr as [Hoid Hr].
      apply view_items_full_elem in Hr as (i & it & p & o' & Hi & Hp & _ & _ & ->).
      cbn in *. exists it. split; [done|]. by exists p.
    + intros (it & Hit & p & Hp & Hoid). exists (full_row i it p o). split; [done|].
      apply list_elem_of_filter. split; [done|]. apply view_items_full_elem.
      exists i, it, p, o. split_and!; try done. by rewrite Hoid.
  - by rewrite length_fmap.
Qed.

Lemma view_active_orders_elem d a :
  a ∈ Views.view_active_orders d
  ↔ ∃ o, orders d !! Views.active_order_id a = Some o ∧ is_archived o = 0
         ∧ Views.active_order_of d (Views.active_order_id a, o) = Some a.
Proof.
  unfold Views.view_active_orders. rewrite list_elem_of_omap. split.
  - intros ([id o] & Hin & Ha). apply elem_of_map_to_list in Hin.
    assert (Views.active_order_id a = id ∧ is_archived o = 0) as [-> Harch].
    { unfold Views.active_order_of in Ha. cbn [fst snd] in Ha.
      case_bool_decide; [|done]. by injection Ha as <-. }
    by exists o.
  - intros (o & Ho & _ & Ha). exists (Views.active_order_id a, o).
    split; [by apply elem_of_map_to_list|done].
Qed.

(** X17.  [view_items_full] holds one row for each item whose product
    and order exist and whose order is not archived, with the columns of the
    three rows.  [view_active_orders] holds one row for each order that is
    not archived, an order without products included; its [product_count] is
    the number of products of the order and its [item_count] the number of
    items of those products, which is the number of rows [view_items_full]
    holds for the order. *)
Theorem views_list_unarchived_orders_and_their_items :
  (∀ d r, r ∈ Views.view_items_full d
     ↔ ∃ i it p o, items d !! i = Some it ∧ products d !! item_product_id it = Some p
                   ∧ orders d !! product_order_id p = Some o ∧ is_archived o = 0
                   ∧ r = full_row i it p o)
  ∧ (∀ d, NoDup (Views.full_item_id <$> Views.view_items_full d))
  ∧ (∀ d id o, orders d !! id = Some o → is_archived o = 0 →
       ∃ a, a ∈ Views.view_active_orders d ∧ Views.active_order_id a = id)
  ∧ (∀ d, NoDup (Views.active_order_id <$> Views.view_active_orders d))
  ∧ (∀ d a, a ∈ Views.view_active_orders d →
       ∃ o, orders d !! Views.active_order_id a = Some o ∧ is_archived o = 0
         ∧ Views.active_order_number a = order_number o
         ∧ counts (Views.product_count a) (product_in_order d (Views.active_order_id a))
         ∧ counts (Views.item_count a) (item_in_order d (Views.active_order_id a))
         ∧ Views.item_count a
           = Z.of_nat (length (filter (λ r, Views.full_order_id r = Views.active_order_id a)
                                 (Views.view_items_full d)))).
Proof.
  split_and!.
  - apply view_items_full_elem.
  - apply view_items_full_NoDup.
  - intros d id o Ho Ha.
    assert (∃ a, Views.active_order_of d (id, o) = Some a ∧ Views.active_order_id a = id)
      as (a & E & Hid).
    { unfold Views.active_order_of. cbn [fst snd].
      rewrite bool_decide_eq_true_2 by done. by eexists. }
    exists a. split; [|done]. apply view_active_orders_elem. exists o. by rewrite Hid.
  - intros d. apply NoDup_omap_key; [|apply NoDup_fst_map_to_list].
    intros [id o] a Ha. unfold Views.active_order_of in Ha. cbn [fst snd] in Ha.
    case_bool_decide; [|done]. by injection Ha as <-.
  - intros d a Ha. apply view_active_orders_elem in Ha as (o & Ho & Harch & Ha).
    exists o. unfold Views.active_order_of in Ha. cbn [fst snd] in Ha.
    rewrite bool_decide_eq_true_2 in Ha by done. injection Ha as <-. cbn.
    split_and!; [done..|apply product_count_counts|apply item_count_counts|].
    eapply counts_unique; [apply item_count_counts|by eapply view_rows_counts].
Qed.

(** ** The production seed *)

Lemma run_each_colors clock k xs d :
  NoDup (SeedProduction.c_name <$> xs) →
  (∀ c, c ∈ xs → ∀ id r, colors d !! id = Some r → color_name r ≠ SeedProduction.c_name c) →
  ∃ d', SeedProduction.run_each SeedProduction.insertColor clock k xs d = (d', Return ())
     ∧ same_outside_colors d d'
     ∧ size (colors d') = (size (colors d) + length xs)%nat
     ∧ (∀ c, c ∈ xs → ∃ id row, colors d' !! id = Some row ∧ seeded_color c row)
     ∧ (∀ id row, colors d' !! id = Some row →
          colors d !! id = Some row ∨ ∃ c, c ∈ xs ∧ seeded_color c row)
     ∧ (∀ id row, colors d !! id = Some row → colors d' !! id = Some row).
Proof.
  revert k d. induction xs as [|c xs IH]; intros k d Hnd Hfresh.
  - exists d. cbn. split_and!; [done|by repeat split|lia| | |done].
    + intros c Hc. inversion Hc.
    + intros id row Hrow. by left.
  - rewrite fmap_cons in Hnd. apply NoDup_cons in Hnd as [Hc Hnd].
    cbn [SeedProduction.run_each]. unfold SeedProduction.insertColor.
    assert (Color.name_taken d (SeedProduction.c_name c) = false) as ->.
    { destruct (Color.name_taken d _) eqn:E; [|done].
      apply color_name_taken_iff in E as (id & r & Hr & Hn).
      destruct (Hfresh c (list_elem_of_here _ _) id r Hr Hn). }
    set (id := next_rowid (colors d) (colors_seq d)).
    set (d1 := with_colors _ id d).
    assert (Hid : colors d !! id = None) by apply next_rowid_fresh.
    destruct (IH (S k) d1 Hnd) as (d' & Hrun & Hout & Hsize & Hall & Hsrc & Hkeep).
    { intros c' Hc' j r Hr. unfold d1 in Hr. cbn in Hr.
      apply lookup_insert_Some in Hr as [[_ <-]|[_ Hr]].
      - cbn. intros Heq. apply Hc. rewrite Heq. apply list_elem_of_fmap. by exists c'.
      - apply (Hfresh c' (list_elem_of_further _ _ _ Hc') j r Hr). }
    exists d'. split_and!.
    + done.
    + destruct Hout as (?&?&?&?&?&?&?&?&?&?&?&?&?&?). by repeat split.
    + rewrite Hsize. unfold d1. cbn. rewrite map_size_insert_None by done. lia.
    + intros c' [->|Hc']%elem_of_cons; [|by apply Hall].
      exists id, (SeedProduction.color_row_of (clock k) c). split; [|by repeat split].
      apply Hkeep. unfold d1. cbn. by rewrite lookup_insert_eq.
    + intros j row Hrow. destruct (Hsrc j row Hrow) as [Hold|(c' & Hc' & Hs)].
      * unfold d1 in Hold. cbn in Hold.
        apply lookup_insert_Some in Hold as [[_ <-]|[_ Hold]]; [|by left].
        right. exists c. split; [apply list_elem_of_here|by repeat split].
      * right. exists c'. split; [by apply list_elem_of_further|done].
    + intros j row Hrow. apply Hkeep. unfold d1. cbn.
      rewrite lookup_insert_ne; [done|]. intros <-. by rewrite Hid in Hrow.
Qed.

Lemma run_each_parts clock k xs d :
  NoDup (SeedProduction.p_code <$> xs) → NoDup (SeedProduction.p_name <$> xs) →
  (∀ p, p ∈ xs → ∀ id r, parts d !! id = Some r →
     part_code r ≠ Some (SeedProduction.p_code p)
     ∧ part_name r ≠ SeedProduction.p_name p) →
  ∃ d', SeedProduction.run_each SeedProduction.insertPart clock k xs d = (d', Return ())
     ∧ same_outside_parts d d'
     ∧ size (parts d') = (size (parts d) + length xs)%nat
     ∧ (∀ p, p ∈ xs → ∃ id row, parts d' !! id = Some row ∧ seeded_part p row)
     ∧ (∀ id row, parts d' !! id = Some row →
          parts d !! id = Some row ∨ ∃ p, p ∈ xs ∧ seeded_part p row)
     ∧ (∀ id row, parts d !! id = Some row → parts d' !! id = Some row).
Proof.
  revert k d. induction xs as [|p xs IH]; intros k d Hndc Hndn Hfresh.
  - exists d. cbn. split_and!; [done|by repeat split|lia| | |done].
    + intros p Hp. inversion Hp.
    + intros id row Hrow. by left.
  - rewrite fmap_cons in Hndc, Hndn.
    apply NoDup_cons in Hndc as [Hc Hndc], Hndn as [Hn Hndn].
    cbn [SeedProduction.run_each]. unfold SeedProduction.insertPart.
    assert (holds (parts d)
              (λ r, bool_decide (part_code r = Some (SeedProduction.p_code p))) = false) as ->.
    { apply holds_false. intros j r Hr. apply bool_decide_eq_false.
      by destruct (Hfresh p (list_elem_of_here _ _) j r Hr). }
    assert (holds (parts d)
              (λ r, bool_decide (part_name r = SeedProduction.p_name p)) = false) as ->.
    { apply holds_false. intros j r Hr. apply bool_decide_eq_false.
      by destruct (Hfresh p (list_elem_of_here _ _) j r Hr). }
    set (id := next_rowid (parts d) (parts_seq d)).
    set (d1 := with_parts _ id d).
    assert (Hid : parts d !! id = None) by apply next_rowid_fresh.
    destruct (IH (S k) d1 Hndc Hndn) as (d' & Hrun & Hout & Hsize & Hall & Hsrc & Hkeep).
    { intros p' Hp' j r Hr. unfold d1 in Hr. cbn in Hr.
      apply lookup_insert_Some in Hr as [[_ <-]|[_ Hr]].
      - cbn. split.
        + intros [= Heq]. apply Hc. rewrite Heq. apply list_elem_of_fmap. by exists p'.
        + intros Heq. apply Hn. rewrite Heq. apply list_elem_of_fmap. by exists p'.
      - apply (Hfresh p' (list_elem_of_further _ _ _ Hp') j r Hr). }
    exists d'. split_and!.
    + done.
    + destruct Hout as (?&?&?&?&?&?&?&?&?&?&?&?&?&?). by repeat split.
    + rewrite Hsize. unfold d1. cbn. rewrite map_size_insert_None by done. lia.
    + intros p' [->|Hp']%elem_of_cons; [|by apply Hall].
      exists id, (SeedProduction.part_row_of (clock k) p). split; [|by repeat split].
      apply Hkeep. unfold d1. cbn. by rewrite lookup_insert_eq.
    + intros j row Hrow. destruct (Hsrc j row Hrow) as [Hold|(p' & Hp' & Hs)].
      * unfold d1 in Hold. cbn in Hold.
        apply lookup_insert_Some in Hold as [[_ <-]|[_ Hold]]; [|by left].
        right. exists p. split; [apply list_elem_of_here|by repeat split].
      * right. exists p'. split; [by apply list_elem_of_further|done].
    + intros j row Hrow. apply Hkeep. unfold d1. cbn.
      rewrite lookup_insert_ne; [done|]. intros <-. by rewrite Hid in Hrow.
Qed.

Lemma seed_main_nonempty clock d :
  colors d ≠ ∅ ∨ parts d ≠ ∅ → SeedProduction.main clock d = (d, 0).
Proof.
  intros Hne. unfold SeedProduction.main.
  assert ((0 <? Z.of_nat (size (colors d))) || (0 <? Z.of_nat (size (parts d))) = true) as ->;
    [|done].
  apply orb_true_iff. destruct Hne as [Hne|Hne]; [left|right]; apply Z.ltb_lt;
    apply map_size_non_empty_iff in Hne; lia.
Qed.

Lemma seed_main_empty clock d :
  colors d = ∅ → parts d = ∅ →
  ∃ d', SeedProduction.main clock d = (d', 0)
    ∧ size (colors d') = 32%nat ∧ size (parts d') = 20%nat
    ∧ (∀ c, c ∈ SeedProduction.COLORS →
         ∃ id row, colors d' !! id = Some row ∧ seeded_color c row)
    ∧ (∀ id row, colors d' !! id = Some row →
         ∃ c, c ∈ SeedProduction.COLORS ∧ seeded_color c row)
    ∧ (∀ p, p ∈ SeedProduction.PARTS →
         ∃ id row, parts d' !! id = Some row ∧ seeded_part p row)
    ∧ (∀ id row, parts d' !! id = Some row →
         ∃ p, p ∈ SeedProduction.PARTS ∧ seeded_part p row)
    ∧ orders d' = orders d ∧ products d' = products d ∧ items d' = items d
    ∧ item_parts d' = item_parts d ∧ status_history d' = status_history d
    ∧ product_templates d' = product_templates d
    ∧ template_parts d' = template_parts d.
Proof.
  intros Hc Hp. unfold SeedProduction.main. rewrite Hc, Hp, !map_size_empty. cbn [orb Z.ltb].
  change (0 <? Z.of_nat 0) with false. cbn [orb].
  destruct (run_each_colors clock 0 SeedProduction.COLORS d)
    as (d1 & Hrun1 & Hout1 & Hsize1 & Hall1 & Hsrc1 & _).
  { apply (bool_decide_unpack _). by vm_compute. }
  { intros c _ id r Hr. by rewrite Hc in Hr. }
  unfold SeedProduction.seedColors, transaction. rewrite Hrun1.
  destruct Hout1 as (Hp1 & Hps1 & Ho1 & _ & Hpr1 & _ & Hi1 & _ & Hip1 & Hh1 & _ & Ht1 & _ & Htp1).
  destruct (run_each_parts clock (length SeedProduction.COLORS) SeedProduction.PARTS d1)
    as (d2 & Hrun2 & Hout2 & Hsize2 & Hall2 & Hsrc2 & _).
  { apply (bool_decide_unpack _). by vm_compute. }
  { apply (bool_decide_unpack _). by vm_compute. }
  { intros p _ id r Hr. by rewrite Hp1, Hp in Hr. }
  unfold SeedProduction.seedParts, transaction. rewrite Hrun2.
  destruct Hout2 as (Hc2 & _ & Ho2 & _ & Hpr2 & _ & Hi2 & _ & Hip2 & Hh2 & _ & Ht2 & _ & Htp2).
  exists d2. split_and!; [done| | | | |done| |congruence..].
  - rewrite Hc2, Hsize1, Hc, map_size_empty. done.
  - rewrite Hsize2, Hp1, Hp, map_size_empty. done.
  - intros c Hin. rewrite Hc2. by apply Hall1.
  - intros id row. rewrite Hc2. intros Hrow.
    destruct (Hsrc1 id row Hrow) as [Hold|?]; [by rewrite Hc in Hold|done].
  - intros id row Hrow.
    destruct (Hsrc2 id row Hrow) as [Hold|?]; [by rewrite Hp1, Hp in Hold|done].
Qed.

(** X18.  The production seed never touches a database that
    holds a color or a part: it leaves it as it is and exits with code 0.  On
    empty [colors] and [parts] tables it stores the 32 colors and the 20
    parts of its lists, each once and active, with the columns as listed (no
    Pantone code; an empty description stays the empty text), changes no
    other table, and exits with code 0.  So running it again changes
    nothing. *)
Theorem production_seed_fills_empty_tables_once :
  (∀ clock d, colors d ≠ ∅ ∨ parts d ≠ ∅ → SeedProduction.main clock d = (d, 0))
  ∧ (∀ clock d, colors d = ∅ → parts d = ∅ →
       ∃ d', SeedProduction.main clock d = (d', 0)
         ∧ size (colors d') = 32%nat ∧ size (parts d') = 20%nat
         ∧ (∀ c, c ∈ SeedProduction.COLORS →
              ∃ id row, colors d' !! id = Some row ∧ seeded_color c row)
         ∧ (∀ id row, colors d' !! id = Some row →
              ∃ c, c ∈ SeedProduction.COLORS ∧ seeded_color c row)
         ∧ (∀ p, p ∈ SeedProduction.PARTS →
              ∃ id row, parts d' !! id = Some row ∧ seeded_part p row)
         ∧ (∀ id row, parts d' !! id = Some row →
              ∃ p, p ∈ SeedProduction.PARTS ∧ seeded_part p row)
         ∧ orders d' = orders d ∧ products d' = products d ∧ items d' = items d
         ∧ item_parts d' = item_parts d ∧ status_history d' = status_history d
         ∧ product_templates d' = product_templates d
         ∧ template_parts d' = template_parts d)
  ∧ (∀ clock clock' d,
       SeedProduction.main clock' (SeedProduction.main clock d).1
       = ((SeedProduction.main clock d).1, 0)).
Proof.
  split_and!.
  - apply seed_main_nonempty.
  - apply seed_main_empty.
  - intros clock clock' d.
    destruct (decide (colors d = ∅)) as [Hc|Hc]; [destruct (decide (parts d = ∅)) as [Hp|Hp]|].
    + destruct (seed_main_empty clock d Hc Hp) as (d' & -> & Hsize & _). cbn [fst].
      apply seed_main_nonempty. left. intros Hempty.
      rewrite Hempty, map_size_empty in Hsize. done.
    + rewrite (seed_main_nonempty clock d) by (by right). cbn [fst].
      apply seed_main_nonempty. by right.
    + rewrite (seed_main_nonempty clock d) by (by left). cbn [fst].
      apply seed_main_nonempty. by left.
Qed.

(** ** Reading the CSV file *)

























(** ** The soft-delete routes of colors and parts *)

Lemma color_set_active_same r :
  color_is_active r = 1 → Color.set_active 1 r = r.
Proof. destruct r. cbn. by intros ->. Qed.

Lemma part_set_active_same r :
  part_is_active r = 1 → Part.set_active 1 r = r.
Proof. destruct r. cbn. by intros ->. Qed.

(** X20.  DELETE /admin/api/colors/:id and DELETE
    /admin/api/parts/:id answer 200 for a stored row and write [is_active] =
    0.  The row is then returned by no [search], and the color by no
    [getBySupplier]; [getByCode] does not look at [is_active] and still
    returns the part.  POST .../activate answers 200 and writes [is_active] =
    1, which gives back the database as it was when the row was active
    before.  For an id that is not stored the four routes answer 404 and
    nothing changes. *)
Theorem soft_delete_routes_hide_and_restore :
  (∀ d id r, colors d !! id = Some r →
     let d0 := with_colors (<[id := Color.set_active 0 r]> (colors d)) (colors_seq d) d in
     Admin.delete_colors id d
     = (d0, {| Admin.code := 200;
               Admin.body := Admin.MessageBody "Color deactivated successfully" |})
     ∧ (∀ term x, x ∈ Color.search term d0 → x.1 ≠ id)
     ∧ (∀ sup x, Color.getBySupplier sup d0 = Some x → x.1 ≠ id)
     ∧ Admin.post_colors_activate id d0
       = (with_colors (<[id := Color.set_active 1 r]> (colors d)) (colors_seq d) d,
          {| Admin.code := 200;
             Admin.body := Admin.MessageBody "Color activated successfully" |})
     ∧ (color_is_active r = 1 → (Admin.post_colors_activate id d0).1 = d))
  ∧ (∀ d id, colors d !! id = None →
       Admin.delete_colors id d
       = (d, {| Admin.code := 404; Admin.body := Admin.ErrorBody "Color not found" |})
       ∧ Admin.post_colors_activate id d
         = (d, {| Admin.code := 404; Admin.body := Admin.ErrorBody "Color not found" |}))
  ∧ (∀ d id r, parts d !! id = Some r →
       let d0 := with_parts (<[id := Part.set_active 0 r]> (parts d)) (parts_seq d) d in
       Admin.delete_parts id d
       = (d0, {| Admin.part_reply_code := 200;
                 Admin.part_reply_body :=
                   Admin.PartMessageBody "Part deactivated successfully" |})
       ∧ (∀ term x, x ∈ Part.search term d0 → x.1 ≠ id)
       ∧ (∀ code, unique_keys d → part_code r = Some code →
            Part.getByCode code d0 = Some (id, Part.set_active 0 r))
       ∧ Admin.post_parts_activate id d0
         = (with_parts (<[id := Part.set_active 1 r]> (parts d)) (parts_seq d) d,
            {| Admin.part_reply_code := 200;
               Admin.part_reply_body :=
                 Admin.PartMessageBody "Part activated successfully" |})
       ∧ (part_is_active r = 1 → (Admin.post_parts_activate id d0).1 = d))
  ∧ (∀ d id, parts d !! id = None →
       Admin.delete_parts id d
       = (d, {| Admin.part_reply_code := 404;
                Admin.part_reply_body := Admin.PartErrorBody "Part not found" |})
       ∧ Admin.post_parts_activate id d
         = (d, {| Admin.part_reply_code := 404;
                  Admin.part_reply_body := Admin.PartErrorBody "Part not found" |})).
Proof.
  split_and!.
  - intros d id r Hr d0.
    assert (Hd0 : colors d0 !! id = Some (Color.set_active 0 r)).
    { unfold d0. cbn. by rewrite lookup_insert_eq. }
    assert (Hact : Admin.post_colors_activate id d0
                   = (with_colors (<[id := Color.set_active 1 r]> (colors d))
                        (colors_seq d) d,
                      {| Admin.code := 200;
                         Admin.body := Admin.MessageBody "Color activated successfully" |})).
    { unfold Admin.post_colors_activate, Color.activate, Color.set_is_active.
      rewrite Hd0. unfold d0, with_colors. cbn. by rewrite insert_insert_eq. }
    split_and!.
    + unfold Admin.delete_colors, Color.deactivate, Color.set_is_active. by rewrite Hr.
    + intros term [i x] Hx Hi. cbn in Hi. subst i.
      unfold Color.search, Color.order_by_name in Hx.
      rewrite merge_sort_Permutation, list_elem_of_filter in Hx.
      destruct Hx as [Hx Hin]. apply elem_of_map_to_list in Hin.
      rewrite Hd0 in Hin. apply (inj Some) in Hin. subst x.
      apply andb_true_iff in Hx as [_ Hx]. unfold Color.is_active in Hx.
      apply bool_decide_eq_true in Hx. cbn in Hx. discriminate.
    + intros sup [i x] Hx Hi. cbn in Hi. subst i.
      unfold Color.getBySupplier, Color.order_by_name in Hx.
      apply head_Some_elem_of in Hx.
      rewrite merge_sort_Permutation, list_elem_of_filter in Hx.
      destruct Hx as [Hx Hin]. apply elem_of_map_to_list in Hin.
      rewrite Hd0 in Hin. apply (inj Some) in Hin. subst x.
      apply andb_true_iff in Hx as [_ Hx]. unfold Color.is_active in Hx.
      apply bool_decide_eq_true in Hx. cbn in Hx. discriminate.
    + exact Hact.
    + intros Ha. rewrite Hact. cbn [fst].
      rewrite (color_set_active_same r Ha). rewrite insert_id by done.
      unfold with_colors. apply db_eta.
  - intros d id Hr. unfold Admin.delete_colors, Admin.post_colors_activate,
      Color.deactivate, Color.activate.
    by rewrite !color_set_is_active_missing.
  - intros d id r Hr d0.
    assert (Hd0 : parts d0 !! id = Some (Part.set_active 0 r)).
    { unfold d0. cbn. by rewrite lookup_insert_eq. }
    assert (Hact : Admin.post_parts_activate id d0
                   = (with_parts (<[id := Part.set_active 1 r]> (parts d)) (parts_seq d) d,
                      {| Admin.part_reply_code := 200;
                         Admin.part_reply_body :=
                           Admin.PartMessageBody "Part activated successfully" |})).
    { unfold Admin.post_parts_activate, Part.activate, Part.set_is_active.
      rewrite Hd0. unfold d0, with_parts. cbn. by rewrite insert_insert_eq. }
    split_and!.
    + unfold Admin.delete_parts, Part.deactivate, Part.set_is_active. by rewrite Hr.
    + intros term [i x] Hx Hi. cbn in Hi. subst i.
      unfold Part.search, Part.order_by_name in Hx.
      rewrite merge_sort_Permutation, list_elem_of_filter in Hx.
      destruct Hx as [Hx Hin]. apply elem_of_map_to_list in Hin.
      rewrite Hd0 in Hin. apply (inj Some) in Hin. subst x.
      apply andb_true_iff in Hx as [_ Hx]. unfold Part.is_active in Hx.
      apply bool_decide_eq_true in Hx. cbn in Hx. discriminate.
    + intros code (_ & Hcode & Hname & _) Hc.
      apply getByCode_stored; [|done|by destruct r].
      assert (Hrun : d0 = Part.run "" (Part.Deactivate id) d).
      { unfold Part.run, Part.deactivate, Part.set_is_active. by rewrite Hr. }
      rewrite Hrun. by apply part_run_unique.
    + exact Hact.
    + intros Ha. rewrite Hact. cbn [fst].
      rewrite (part_set_active_same r Ha). rewrite insert_id by done.
      unfold with_parts. apply db_eta.
  - intros d id Hr. unfold Admin.delete_parts, Admin.post_parts_activate,
      Part.deactivate, Part.activate.
    by rewrite !part_set_is_active_missing.
Qed.

(** ** The statements at the examples *)

Lemma advance_status_only_to_successor_witness :
  (∃ d', Workflow.AdvanceStatus example_time 1 Workflow.InPrintfarm None
           example_shop_with_item = (d', Workflow.Done ()))
  ∧ Workflow.AdvanceStatus example_time 1 Workflow.Printed None example_shop_with_item
    = (example_shop_with_item, Workflow.Failed Workflow.InvalidTransition)
  ∧ ∃ new final it',
      status_history (Workflow.run_advances example_advances example_shop_with_item)
      = (status_history example_shop_with_item ++ new)%list
      ∧ Workflow.forward_path Workflow.InQueue (Workflow.history_of 1 new) final
      ∧ items (Workflow.run_advances example_advances example_shop_with_item) !! 1
        = Some it'
      ∧ status it' = Workflow.status_text final
      ∧ (Workflow.rank Workflow.InQueue ≤ Workflow.rank final)%nat.
Proof.
  destruct advance_status_only_to_successor as [Hone Hseq].
  assert (Hit : items example_shop_with_item !! 1 = Some example_item)
    by (vm_compute; reflexivity).
  assert (Hst : status example_item = Workflow.status_text Workflow.InQueue)
    by reflexivity.
  split_and!.
  - destruct (Hone example_time 1 Workflow.InPrintfarm None _ _ _ Hit Hst) as (Hiff & _ & _).
    apply Hiff. reflexivity.
  - destruct (Hone example_time 1 Workflow.Printed None _ _ _ Hit Hst) as (_ & _ & Hbad).
    apply Hbad. discriminate.
  - apply (Hseq example_advances _ 1 _ _ Hit Hst).
Defined.

Lemma item_status_is_one_of_six_witness :
  statuses_ok example_shop_with_item
  ∧ (∃ id d', Workflow.CreateItem example_time 1 "Plate B" example_shop_with_item
              = (d', Workflow.Done id))
  ∧ item_created example_shop example_shop_with_item example_time 1 "Plate A" 1.
Proof.
  destruct item_status_is_one_of_six as (_ & _ & Hreach & Hcan & Hnew).
  split_and!.
  - apply Hreach.
    apply (Workflow.reach_step example_shop); [|apply Workflow.step_create].
    apply (Workflow.reach_step empty_db); [apply Workflow.reach_empty|].
    apply Workflow.step_elsewhere. reflexivity.
  - apply Hcan. vm_compute. eauto.
  - apply Hnew. vm_compute. reflexivity.
Defined.

Lemma next_order_number_is_max_plus_one_witness :
  (7 ≤ OrderNumber.numeric_max ["001"; "CUSTOM-1"; "007"])%N
  ∧ OrderNumber.next_order_number ["CUSTOM-1"; "RUSH"] = "001"
  ∧ String.length (OrderNumber.format 42) = 3%nat
  ∧ OrderNumber.format 1000 = OrderNumber.render 1000
  ∧ String.length (OrderNumber.next_order_number ["041"; "CUSTOM-1"; "007"]) = 3%nat
  ∧ OrderNumber.parse_number (OrderNumber.next_order_number ["041"; "CUSTOM-1"; "007"])
    = Some 42%N
  ∧ OrderNumber.next_order_number ["041"; "CUSTOM-1"; "007"] = "042"
  ∧ OrderNumber.next_order_number ["998"] = "999"
  ∧ OrderNumber.next_order_number ["999"; "CUSTOM-1"] = "1000"
  ∧ OrderNumber.CreateOrder example_time (Some "007") "B. Customer" Orders.Shopify None
      "2025-11-02" false example_shop
    = (example_shop, Workflow.Failed Workflow.DuplicateKey).
Proof.
  destruct next_order_number_is_max_plus_one
    as (Hvalue & Hbound & _ & Hfirst & Hsmall & Hlarge & Hpadded & Hplain
        & _ & _ & _ & _ & Hdup & _).
  assert (Hthree : String.length (OrderNumber.next_order_number
                                    ["041"; "CUSTOM-1"; "007"]) = 3%nat).
  { apply Hpadded. vm_compute. discriminate. }
  split_and!.
  - apply (Hbound _ "007"); [|reflexivity].
    rewrite !elem_of_cons. auto.
  - apply Hfirst. intros s Hs [n Hn].
    apply elem_of_cons in Hs as [->|Hs]; [discriminate|].
    apply elem_of_cons in Hs as [->|Hs]; [discriminate|]. inversion Hs.
  - apply Hsmall. vm_compute. discriminate.
  - apply Hlarge. reflexivity.
  - exact Hthree.
  - apply Hvalue.
  - reflexivity.
  - reflexivity.
  - apply (Hplain ["999"; "CUSTOM-1"]). reflexivity.
  - apply Hdup. exists 1. eexists. split; [vm_compute; reflexivity|reflexivity].
Defined.

Lemma order_platform_is_one_of_three_witness :
  platforms_ok
    (Orders.run (Orders.Insert example_time (order_values "008" "B. Customer" "Etsy"
                                               "2025-11-02")) empty_db)
  ∧ (∃ e, Orders.insert example_time
            (order_values "008" "B. Customer" "Amazon" "2025-11-02") example_shop
          = (example_shop, Throw (SqliteError e)))
  ∧ (∃ e, Orders.update example_time 1
            (order_values "007" "A. Customer" "Amazon" "2025-11-01") example_shop
          = (example_shop, Throw (SqliteError e)))
  ∧ (∃ id, (Orders.insert example_time
              (order_values "008" "B. Customer"
                 (Orders.platform_text Orders.CustomOrder) "2025-11-02") example_shop).2
           = Return id
           ∧ platform <$> orders (Orders.insert example_time
                            (order_values "008" "B. Customer"
                               (Orders.platform_text Orders.CustomOrder) "2025-11-02")
                            example_shop).1 !! id
             = Some (Orders.platform_text Orders.CustomOrder)).
Proof.
  destruct order_platform_is_one_of_three as (_ & _ & Hrun & Hins & Hupd & Hacc).
  assert (Hforeign : foreign_platform (order_values "008" "B. Customer" "Amazon" "2025-11-02")).
  { intros []; discriminate. }
  assert (Hforeign' : foreign_platform (order_values "007" "A. Customer" "Amazon" "2025-11-01")).
  { intros []; discriminate. }
  split_and!.
  - apply Hrun. intros id o Ho. vm_compute in Ho. discriminate.
  - apply Hins, Hforeign.
  - apply Hupd; [|exact Hforeign']. vm_compute. eauto.
  - apply Hacc. intros id o Ho Hn.
    assert (Ht : Orders.number_taken (orders example_shop) None "008" = true).
    { apply holds_true. exists id, o. split; [done|]. by apply bool_decide_eq_true. }
    vm_compute in Ht. discriminate.
Defined.

Lemma create_template_checks_num_colors_witness :
  (∃ msg, ProductTemplate.create example_time template_with_five_colors example_db
          = (example_db, Throw (Error msg)))
  ∧ (∃ d' det,
       ProductTemplate.create example_time template_with_known_parts example_db
       = (d', Return (Some det))
       ∧ template_parts d' !! (2, 2) = Some 1)
  ∧ (ProductTemplate.create example_time template_with_unknown_part example_db).1
    = example_db.
Proof.
  destruct create_template_checks_num_colors as (Hbad & Hgood & Hatomic).
  split_and!.
  - apply Hbad. right. exists 5. split; [reflexivity|lia].
  - destruct (Hgood example_time template_with_known_parts example_db "Marker Set" 2)
      as (id & row & d' & det & Hc & _ & Hnew & _).
    + reflexivity.
    + discriminate.
    + intros id r Hr Hn.
      assert (Ht : holds (product_templates example_db)
                     (fun r => bool_decide (template_name r = "Marker Set")) = true).
      { apply holds_true. exists id, r. split; [done|]. by apply bool_decide_eq_true. }
      vm_compute in Ht. discriminate.
    + reflexivity.
    + lia.
    + intros t p q Hq. vm_compute in Hq. discriminate.
    + split.
      * cbn. apply NoDup_cons. split; [|apply NoDup_singleton].
        rewrite elem_of_cons, elem_of_nil. intros [H|[]]. discriminate.
      * intros p Hp. cbn in Hp.
        apply elem_of_cons in Hp as [->|Hp]; [vm_compute; eauto|].
        apply elem_of_cons in Hp as [->|Hp]; [vm_compute; eauto|]. inversion Hp.
    + exists d', det. split; [done|].
      assert (Hd' : d' = (ProductTemplate.create example_time template_with_known_parts
                            example_db).1) by (by rewrite Hc).
      rewrite Hd'. vm_compute. reflexivity.
  - destruct (ProductTemplate.create example_time template_with_unknown_part example_db)
      as [d' [det|e]] eqn:Hc.
    + vm_compute in Hc. discriminate.
    + cbn. by apply (Hatomic _ _ _ _ _ Hc).
Defined.

Lemma create_color_rejects_duplicate_name_witness :
  Color.create example_time (example_new_color "Red") example_db
  = (example_db, Throw (SqliteError (Sqlite.UniqueFailed "colors.color_name")))
  ∧ ∃ id row,
      Color.create example_time (example_new_color "Green") example_db
      = (with_colors (<[id := row]> (colors example_db)) id example_db,
         Return (Some (id, row)))
      ∧ colors example_db !! id = None.
Proof.
  destruct create_color_rejects_duplicate_name as [Hdup Hnew].
  split.
  - apply (Hdup example_time (example_new_color "Red") example_db 1
             (example_color "Red" "#DE4343")); reflexivity.
  - destruct (Hnew example_time (example_new_color "Green") example_db)
      as (id & row & Hc & Hnone & _).
    + intros id r Hr Hn.
      assert (Ht : Color.name_taken example_db "Green" = true).
      { apply color_name_taken_iff. by exists id, r. }
      vm_compute in Ht. discriminate.
    + exists id, row. by split.
Defined.

Lemma addPart_ignores_is_active_witness :
  part_is_active (example_part "TOK0025" "25mm Token" 0) = 0
  ∧ ProductTemplate.addPart 1 2 (Some 25) example_db
    = (with_template_parts (<[(1, 2) := 25]> (template_parts example_db)) example_db,
       Return true)
  ∧ ProductTemplate.addPart 1 99 None example_db
    = (example_db, Throw (SqliteError Sqlite.ForeignKeyFailed)).
Proof.
  destruct addPart_ignores_is_active as [Hok Hbad].
  split_and!.
  - reflexivity.
  - destruct (Hok example_db 1 2 (example_part "TOK0025" "25mm Token" 0) (Some 25))
      as [Hadd _]; [vm_compute; eauto|reflexivity|exact Hadd].
  - apply Hbad. right. reflexivity.
Defined.

Lemma soft_delete_only_flips_is_active_witness :
  color_soft_delete example_db 1 (example_color "Red" "#DE4343")
  ∧ Color.deactivate 9 example_db = (example_db, false)
  ∧ part_soft_delete example_db 1 (example_part "WM16001" "16mm Wound Marker 1D6" 1)
  ∧ Part.activate 9 example_db = (example_db, false).
Proof.
  destruct soft_delete_only_flips_is_active as (Hc & Hcn & _ & Hp & Hpn & _).
  split_and!.
  - apply Hc. reflexivity.
  - apply Hcn. reflexivity.
  - apply Hp. reflexivity.
  - apply Hpn. reflexivity.
Defined.

Lemma getAll_lists_active_rows_by_name_witness :
  (∀ r', (1, r') ∉ Color.getAll false (Color.deactivate 1 example_db).1)
  ∧ (1, Color.set_active 0 (example_color "Red" "#DE4343"))
    ∈ Color.getAll true (Color.deactivate 1 example_db).1
  ∧ (∀ r', (2, r') ∉ Part.getAll false (Part.deactivate 2 example_db).1).
Proof.
  destruct getAll_lists_active_rows_by_name as (_ & _ & _ & _ & Hc & Hp).
  destruct (Hc example_db 1 (example_color "Red" "#DE4343") eq_refl) as [H1 H2].
  destruct (Hp example_db 2 (example_part "TOK0025" "25mm Token" 0) eq_refl) as [H3 _].
  split_and!; assumption.
Defined.

(** ** The further statements at the examples *)




Lemma getBySupplier_returns_first_active_witness :
  Color.getBySupplier "Bambu Lab" example_db = Some (2, example_color "Blue" "#0078BF")
  ∧ colors example_db !! 2 = Some (example_color "Blue" "#0078BF")
  ∧ (∀ id' r', colors example_db !! id' = Some r' →
       supplier r' = Some "Bambu Lab" → color_is_active r' = 1 →
       Color.by_name (2, example_color "Blue" "#0078BF") (id', r')).
Proof.
  destruct getBySupplier_returns_first_active as [_ Hfirst].
  assert (Hget : Color.getBySupplier "Bambu Lab" example_db
                 = Some (2, example_color "Blue" "#0078BF")) by (vm_compute; reflexivity).
  destruct (Hfirst _ _ _ _ Hget) as (Hr & _ & _ & Hmin).
  split_and!; [exact Hget|exact Hr|exact Hmin].
Defined.

Lemma model_calls_keep_unique_columns_witness :
  unique_keys example_db
  ∧ unique_keys (Color.run example_time (Color.Create (example_new_color "Green")) example_db)
  ∧ unique_keys (ProductTemplate.run example_time (ProductTemplate.Update 1 example_update)
                   example_db).
Proof.
  destruct model_calls_keep_unique_columns as (Hcolor & _ & Htemplate).
  assert (Hu : unique_keys example_db).
  { apply unique_keys_checked. vm_compute. reflexivity. }
  split_and!; [exact Hu|by apply Hcolor|by apply Htemplate].
Defined.

Lemma model_calls_keep_template_links_witness :
  links_ok example_db_with_parts
  ∧ links_ok (ProductTemplate.run example_time (ProductTemplate.Delete 1)
                example_db_with_parts)
  ∧ links_ok (Part.run example_time (Part.Deactivate 2) example_db_with_parts).
Proof.
  destruct model_calls_keep_template_links as (_ & Hpart & Htemplate).
  assert (Hl : links_ok example_db_with_parts).
  { apply links_ok_checked. vm_compute. reflexivity. }
  split_and!; [exact Hl|by apply Htemplate|by apply Hpart].
Defined.

Lemma template_getAll_lists_by_name_witness :
  ∃ ls,
    ProductTemplate.getAll false example_db_with_parts = Return ls
    ∧ lists_exactly ProductTemplate.by_name (map listed_key ls)
        (product_templates example_db_with_parts)
        (λ r, false = true ∨ template_is_active r = 1)
    ∧ ∀ l, l ∈ ls →
        ProductTemplate.part_count l
        = Z.of_nat (length (ProductTemplate.links (ProductTemplate.listed_id l)
                              example_db_with_parts))
        ∧ ProductTemplate.listed_parts l
          = listed_array example_db_with_parts
              (ProductTemplate.links (ProductTemplate.listed_id l) example_db_with_parts).
Proof. apply (template_getAll_lists_by_name false example_db_with_parts). Defined.

Lemma template_deactivate_hides_and_activate_restores_witness :
  (∃ r0,
     ProductTemplate.deactivate 1 example_db_with_parts
     = (with_product_templates (<[1 := r0]> (product_templates example_db_with_parts))
          (product_templates_seq example_db_with_parts) example_db_with_parts, true)
     ∧ template_is_active r0 = 0
     ∧ (ProductTemplate.activate 1
          (with_product_templates (<[1 := r0]> (product_templates example_db_with_parts))
             (product_templates_seq example_db_with_parts) example_db_with_parts)).1
       = example_db_with_parts)
  ∧ ProductTemplate.deactivate 9 example_db_with_parts = (example_db_with_parts, false).
Proof.
  destruct template_deactivate_hides_and_activate_restores as [Hstored Hmissing].
  split.
  - assert (Hr : product_templates example_db_with_parts !! 1 = Some example_template)
      by (vm_compute; reflexivity).
    pose proof (Hstored _ _ _ Hr) as H. cbv zeta in H.
    destruct H as (r0 & Hd & Ha & _ & _ & _ & _ & _ & Hback & _).
    exists r0. split_and!; [exact Hd|exact Ha|apply Hback; reflexivity].
  - apply Hmissing. vm_compute. reflexivity.
Defined.

Lemma template_delete_cascades_and_ids_are_not_reused_witness :
  (∃ d', ProductTemplate.deleteTemplate 1 example_db_with_parts = (d', true)
         ∧ (∀ p, template_parts d' !! (1, p) = None)
         ∧ ProductTemplate.getById 1 d' = None)
  ∧ ∃ d1 det d2 det',
      ProductTemplate.create example_time (template_named "Marker Set") example_db
      = (d1, Return (Some det))
      ∧ ProductTemplate.detail_id det = 2
      ∧ ProductTemplate.create example_time (template_named "Dice Tray")
          (template_calls [(example_time, ProductTemplate.Delete 2)] d1)
        = (d2, Return (Some det'))
      ∧ ProductTemplate.detail_id det < ProductTemplate.detail_id det'.
Proof.
  destruct template_delete_cascades_and_ids_are_not_reused as (Hdel & _ & Hids).
  split.
  - assert (Hr : product_templates example_db_with_parts !! 1 = Some example_template)
      by (vm_compute; reflexivity).
    destruct (Hdel _ _ _ Hr) as (d' & Hd & _ & _ & Hnone & _ & Hget & _).
    by exists d'.
  - set (r1 := ProductTemplate.create example_time (template_named "Marker Set") example_db).
    set (r2 := ProductTemplate.create example_time (template_named "Dice Tray")
                 (template_calls [(example_time, ProductTemplate.Delete 2)] r1.1)).
    assert (E1 : ∃ det, r1.2 = Return (Some det) ∧ ProductTemplate.detail_id det = 2).
    { vm_compute. eexists. split; reflexivity. }
    assert (E2 : ∃ det', r2.2 = Return (Some det')).
    { vm_compute. eexists. reflexivity. }
    destruct E1 as (det & E1 & Hid). destruct E2 as (det' & E2).
    assert (H1 : r1 = (r1.1, Return (Some det))).
    { rewrite <- E1. apply surjective_pairing. }
    assert (H2 : r2 = (r2.1, Return (Some det'))).
    { rewrite <- E2. apply surjective_pairing. }
    exists r1.1, det, r2.1, det'.
    split; [exact H1|]. split; [exact Hid|]. split; [exact H2|].
    exact (Hids _ _ _ _ _ _ _ _ _ _ H1 H2).
Defined.

Lemma template_update_edits_given_fields_witness :
  (∃ row det,
     ProductTemplate.update example_time 1 example_update example_db
     = (with_product_templates (<[1 := row]> (product_templates example_db))
          (product_templates_seq example_db) example_db, Return true)
     ∧ template_edited example_time example_update example_template row
     ∧ ProductTemplate.getById 1
         (with_product_templates (<[1 := row]> (product_templates example_db))
            (product_templates_seq example_db) example_db) = Some det
     ∧ ProductTemplate.detail_row det = row)
  ∧ Admin.put_templates example_time 1 empty_update example_db
    = (example_db,
       Return {| Admin.code := 404; Admin.body := Admin.ErrorBody "Template not found" |})
  ∧ Admin.put_templates example_time 1 (update_num_colors (ProductTemplate.Value 0))
      example_db
    = (example_db, Throw (SqliteError (Sqlite.CheckFailed "num_colors BETWEEN 1 AND 4")))
  ∧ Admin.put_templates example_time 1 (update_num_colors (ProductTemplate.Value 5))
      example_db
    = (example_db,
       Return {| Admin.code := 400;
                 Admin.body := Admin.ErrorBody "num_colors must be between 1 and 4" |}).
Proof.
  destruct template_update_edits_given_fields
    as (Hempty & _ & Hedit & _ & _ & _ & Hcheck).
  assert (Hr : product_templates example_db !! 1 = Some example_template)
    by (vm_compute; reflexivity).
  split_and!.
  - pose proof (Hedit example_time 1 example_update example_db example_template Hr) as H.
    cbv zeta in H. destruct H as (row & det & Hu & He & Hg & Hd & _).
    + intros (H & _). discriminate.
    + repeat split; discriminate.
    + intros n H. discriminate.
    + intros name j s _ Hj Hs.
      assert (Hall : map_Forall (λ j s, j ≠ 1 → False) (product_templates example_db)).
      { apply (bool_decide_unpack _). vm_compute. reflexivity. }
      destruct (Hall j s Hs Hj).
    + by exists row, det.
  - apply Hempty. by repeat split.
  - destruct (Hcheck example_time 1 (update_num_colors (ProductTemplate.Value 0))
                example_db example_template 0 Hr) as (_ & _ & Hzero).
    + repeat split; discriminate.
    + reflexivity.
    + lia.
    + by apply Hzero.
  - destruct (Hcheck example_time 1 (update_num_colors (ProductTemplate.Value 5))
                example_db example_template 5 Hr) as (_ & Hroute & _).
    + repeat split; discriminate.
    + reflexivity.
    + lia.
    + apply Hroute. lia.
Defined.

Lemma template_part_calls_show_in_getById_witness :
  (∃ d', ProductTemplate.addPart 1 2 None example_db = (d', Return true)
     ∧ ∀ t' l, shows d' t' l
         ↔ (t' = 1 ∧ l = joined_line 2 1 (example_part "TOK0025" "25mm Token" 0))
           ∨ (shows example_db t' l ∧ (t' = 1 → ProductTemplate.line_part_id l ≠ 2)))
  ∧ ProductTemplate.removePart 1 2 (ProductTemplate.addPart 1 2 None example_db).1
    = (example_db, true)
  ∧ ProductTemplate.updatePartQuantity 1 2 5 example_db = (example_db, false).
Proof.
  destruct template_part_calls_show_in_getById as (Hadd & _ & _ & Hmissing & Hround).
  assert (Ht : is_Some (product_templates example_db !! 1)).
  { exists example_template. vm_compute. reflexivity. }
  assert (Hp : parts example_db !! 2 = Some (example_part "TOK0025" "25mm Token" 0))
    by (vm_compute; reflexivity).
  assert (Hq : template_parts example_db !! (1, 2) = None) by (vm_compute; reflexivity).
  split_and!.
  - apply (Hadd example_db 1 2 None _ Ht Hp).
  - apply Hround; [exact Ht|by eexists|exact Hq].
  - by apply Hmissing.
Defined.

Lemma template_part_routes_check_quantity_witness :
  Admin.put_template_part 1 1 (Some 0) example_db_with_parts
  = (example_db_with_parts,
     {| Admin.code := 400; Admin.body := Admin.ErrorBody "quantity must be at least 1" |})
  ∧ Admin.put_template_part 1 1 (Some 3) example_db_with_parts
    = (with_template_parts (<[(1, 1) := 3]> (template_parts example_db_with_parts))
         example_db_with_parts,
       {| Admin.code := 200;
          Admin.body := Admin.MessageBody "Part quantity updated successfully" |})
  ∧ Admin.post_template_parts 1 (Some 1) (Some (-2)) example_db
    = (with_template_parts (<[(1, 1) := -2]> (template_parts example_db)) example_db,
       Return {| Admin.code := 200;
                 Admin.body := Admin.MessageBody "Part added to template successfully" |})
  ∧ Admin.post_template_parts 9 (Some 1) (Some 2) example_db
    = (example_db, Throw (SqliteError Sqlite.ForeignKeyFailed)).
Proof.
  destruct template_part_routes_check_quantity
    as (Hbad & Hput & _ & _ & Hpost & Hfk & _).
  split_and!.
  - apply Hbad. right. exists 0. split; [reflexivity|lia].
  - apply (Hput 1 1 3 16); [lia|vm_compute; reflexivity].
  - apply Hpost; [eexists; vm_compute; reflexivity..|lia|lia].
  - apply Hfk; [lia|]. left. vm_compute. reflexivity.
Defined.

Lemma color_update_edits_or_reports_witness :
  Admin.put_colors example_time 1 (example_color_body "Blue") example_db
  = (example_db,
     Return {| Admin.code := 409;
               Admin.body := Admin.ErrorBody "Color with this name already exists" |})
  ∧ (∃ row,
       Color.update example_time 1 (example_new_color "Red") example_db
       = (with_colors (<[1 := row]> (colors example_db)) (colors_seq example_db) example_db,
          Return (Some (1, row)))
       ∧ color_edited example_time (example_new_color "Red")
           (example_color "Red" "#DE4343") row)
  ∧ Admin.put_colors example_time 9 (example_color_body "Green") example_db
    = (example_db,
       Return {| Admin.code := 404; Admin.body := Admin.ErrorBody "Color not found" |}).
Proof.
  destruct color_update_edits_or_reports as (_ & Hmissing & Hclash & Hedit).
  assert (Hr : colors example_db !! 1 = Some (example_color "Red" "#DE4343"))
    by (vm_compute; reflexivity).
  assert (Hvalid : ∀ name, name ≠ "" → valid_color_body (example_color_body name)).
  { intros name Hn. split; cbn; [by apply bool_decide_eq_false|reflexivity]. }
  split_and!.
  - destruct (Hclash example_time 1 (example_new_color "Blue") example_db
                _ 2 (example_color "Blue" "#0078BF") Hr) as [_ Hroute].
    + lia.
    + vm_compute. reflexivity.
    + reflexivity.
    + apply Hroute; [by apply Hvalid|reflexivity].
  - pose proof (Hedit example_time 1 (example_new_color "Red") example_db _ Hr) as H.
    cbv zeta in H. destruct H as (row & Hu & He & _).
    + intros j s Hj Hs.
      assert (Hall : map_Forall (λ j s, j ≠ 1 → color_name s ≠ "Red") (colors example_db)).
      { apply (bool_decide_unpack _). vm_compute. reflexivity. }
      by apply (Hall j s Hs).
    + by exists row.
  - destruct (Hmissing example_time 9 (example_new_color "Green") example_db) as [_ Hroute].
    + vm_compute. reflexivity.
    + apply Hroute; [by apply Hvalid|reflexivity].
Defined.

Lemma part_create_rejects_duplicate_code_or_name_witness :
  Admin.post_parts example_time (example_part_body "TOK0030" "25mm Token") example_db
  = (example_db,
     Return {| Admin.part_reply_code := 409;
               Admin.part_reply_body :=
                 Admin.PartErrorBody "Part with this code or name already exists" |})
  ∧ ∃ id row,
      Part.create example_time (Admin.part_data (example_part_body "TOK0030" "30mm Token"))
        example_db
      = (with_parts (<[id := row]> (parts example_db)) id example_db, Return (Some (id, row)))
      ∧ parts example_db !! id = None
      ∧ stores_part (Admin.part_data (example_part_body "TOK0030" "30mm Token")) row.
Proof.
  destruct part_create_rejects_duplicate_code_or_name as (_ & Hclash & Hnew & _).
  split.
  - destruct (Hclash example_time
                (Admin.part_data (example_part_body "TOK0030" "25mm Token")) example_db)
      as [_ Hroute].
    + exists 2, (example_part "TOK0025" "25mm Token" 0).
      split_and!; [discriminate|vm_compute; reflexivity|by left].
    + apply Hroute; [by split|reflexivity].
  - pose proof (Hnew example_time
                  (Admin.part_data (example_part_body "TOK0030" "30mm Token")) example_db)
      as H.
    cbv zeta in H. destruct H as (id & row & Hc & Hfresh & _ & Hrow & _).
    + intros (j & s & _ & Hs & Hc).
      assert (Hall : map_Forall (λ _ s, part_name s ≠ "30mm Token"
                                        ∧ part_code s ≠ Some "TOK0030")
                       (parts example_db)).
      { apply (bool_decide_unpack _). vm_compute. reflexivity. }
      destruct (Hall j s Hs) as [Hn Hcode].
      destruct Hc as [Hc|(c & Hc1 & Hc2)]; [done|].
      injection Hc1 as <-. done.
    + by exists id, row.
Defined.

Lemma part_update_edits_or_reports_witness :
  (∃ row,
     Part.update example_time 2 (Admin.part_data (example_part_body "TOK0030" "30mm Token"))
       example_db
     = (with_parts (<[2 := row]> (parts example_db)) (parts_seq example_db) example_db,
        Return (Some (2, row)))
     ∧ part_edited example_time (Admin.part_data (example_part_body "TOK0030" "30mm Token"))
         (example_part "TOK0025" "25mm Token" 0) row)
  ∧ Admin.put_parts example_time 2 (example_part_body "WM16001" "30mm Token") example_db
    = (example_db,
       Return {| Admin.part_reply_code := 409;
                 Admin.part_reply_body :=
                   Admin.PartErrorBody "Part with this code or name already exists" |})
  ∧ Admin.put_parts example_time 9 (example_part_body "TOK0030" "30mm Token") example_db
    = (example_db,
       Return {| Admin.part_reply_code := 404;
                 Admin.part_reply_body := Admin.PartErrorBody "Part not found" |}).
Proof.
  destruct part_update_edits_or_reports as (_ & Hmissing & Hclash & Hedit).
  assert (Hr : parts example_db !! 2 = Some (example_part "TOK0025" "25mm Token" 0))
    by (vm_compute; reflexivity).
  split_and!.
  - pose proof (Hedit example_time 2
                  (Admin.part_data (example_part_body "TOK0030" "30mm Token"))
                  example_db _ Hr) as H.
    cbv zeta in H. destruct H as (row & Hu & He & _).
    + intros (j & s & _ & Hs & Hc).
      assert (Hall : map_Forall (λ _ s, part_name s ≠ "30mm Token"
                                        ∧ part_code s ≠ Some "TOK0030")
                       (parts example_db)).
      { apply (bool_decide_unpack _). vm_compute. reflexivity. }
      destruct (Hall j s Hs) as [Hn Hcode].
      destruct Hc as [Hc|(c & Hc1 & Hc2)]; [done|].
      injection Hc1 as <-. done.
    + by exists row.
  - destruct (Hclash example_time 2
                (Admin.part_data (example_part_body "WM16001" "30mm Token"))
                example_db _ Hr) as [_ Hroute].
    + exists 1, (example_part "WM16001" "16mm Wound Marker 1D6" 1).
      split_and!; [discriminate|vm_compute; reflexivity|].
      right. by exists "WM16001".
    + apply Hroute; [by split|reflexivity].
  - destruct (Hmissing example_time 9
                (Admin.part_data (example_part_body "TOK0030" "30mm Token")) example_db)
      as [_ Hroute].
    + vm_compute. reflexivity.
    + apply Hroute; [by split|reflexivity].
Defined.

Lemma getByCode_finds_the_part_with_the_code_witness :
  unique_keys example_db
  ∧ Part.getByCode "TOK0025" example_db = Some (2, example_part "TOK0025" "25mm Token" 0)
  ∧ (Part.getByCode "TOK0099" example_db = None
     ↔ ∀ id r, parts example_db !! id = Some r → part_code r ≠ Some "TOK0099").
Proof.
  destruct getByCode_finds_the_part_with_the_code as (_ & Hnone & Hfound & _).
  assert (Hu : unique_keys example_db).
  { apply unique_keys_checked. vm_compute. reflexivity. }
  split_and!.
  - exact Hu.
  - apply Hfound; [exact Hu|vm_compute; reflexivity|reflexivity].
  - apply Hnone.
Defined.

Lemma views_list_unarchived_orders_and_their_items_witness :
  ∃ a, a ∈ Views.view_active_orders example_shop_with_item
       ∧ Views.active_order_id a = 1
       ∧ counts (Views.product_count a) (product_in_order example_shop_with_item 1)
       ∧ counts (Views.item_count a) (item_in_order example_shop_with_item 1).
Proof.
  destruct views_list_unarchived_orders_and_their_items as (_ & _ & Hlisted & _ & Hrow).
  destruct (Hlisted example_shop_with_item 1
              {| order_number := "007"; customer_name := "A. Customer";
                 platform := "Etsy"; order_notes := None;
                 ship_by_date := "2025-11-01"; is_express := 0;
                 is_archived := 0; order_created_at := example_time;
                 order_updated_at := example_time; shipped_at := None |})
    as (a & Ha & Hid).
  - vm_compute. reflexivity.
  - reflexivity.
  - destruct (Hrow _ a Ha) as (o & _ & _ & _ & Hp & Hi & _).
    rewrite Hid in Hp, Hi. by exists a.
Defined.

Lemma production_seed_fills_empty_tables_once_witness :
  (∃ d', SeedProduction.main (λ _, example_time) empty_db = (d', 0)
         ∧ size (colors d') = 32%nat ∧ size (parts d') = 20%nat)
  ∧ SeedProduction.main (λ _, example_time) example_db = (example_db, 0).
Proof.
  destruct production_seed_fills_empty_tables_once as (Hkeep & Hfill & _).
  split.
  - destruct (Hfill (λ _, example_time) empty_db) as (d' & Hm & Hc & Hp & _);
      [reflexivity..|].
    exists d'. split_and!; [exact Hm|exact Hc|exact Hp].
  - apply Hkeep. left. intros H.
    assert (Hs : size (colors example_db) = 2%nat) by (vm_compute; reflexivity).
    rewrite H, map_size_empty in Hs. discriminate.
Defined.


Lemma soft_delete_routes_hide_and_restore_witness :
  Admin.delete_colors 1 example_db
  = (with_colors (<[1 := Color.set_active 0 (example_color "Red" "#DE4343")]>
                    (colors example_db)) (colors_seq example_db) example_db,
     {| Admin.code := 200;
        Admin.body := Admin.MessageBody "Color deactivated successfully" |})
  ∧ (Admin.post_colors_activate 1
       (with_colors (<[1 := Color.set_active 0 (example_color "Red" "#DE4343")]>
                       (colors example_db)) (colors_seq example_db) example_db)).1
    = example_db
  ∧ Part.getByCode "WM16001"
      (with_parts (<[1 := Part.set_active 0 (example_part "WM16001" "16mm Wound Marker 1D6" 1)]>
                     (parts example_db)) (parts_seq example_db) example_db)
    = Some (1, Part.set_active 0 (example_part "WM16001" "16mm Wound Marker 1D6" 1))
  ∧ Admin.delete_parts 9 example_db
    = (example_db, {| Admin.part_reply_code := 404;
                      Admin.part_reply_body := Admin.PartErrorBody "Part not found" |}).
Proof.
  destruct soft_delete_routes_hide_and_restore as (Hcolor & _ & Hpart & Hnopart).
  assert (Hr : colors example_db !! 1 = Some (example_color "Red" "#DE4343"))
    by (vm_compute; reflexivity).
  assert (Hp : parts example_db !! 1
               = Some (example_part "WM16001" "16mm Wound Marker 1D6" 1))
    by (vm_compute; reflexivity).
  pose proof (Hcolor _ _ _ Hr) as Hc. cbv zeta in Hc.
  destruct Hc as (Hdel & _ & _ & _ & Hback).
  pose proof (Hpart _ _ _ Hp) as Hq. cbv zeta in Hq.
  destruct Hq as (_ & _ & Hcode & _).
  split_and!.
  - exact Hdel.
  - by apply Hback.
  - apply Hcode; [|reflexivity]. apply unique_keys_checked. vm_compute. reflexivity.
  - apply Hnopart. vm_compute. reflexivity.
Defined.
